(** * Trading swarm: ledger, risk validator, execution engine, agent runtime

    A shallow embedding of the engine code of the trading simulation
    ([core/schemas.py], [core/portfolio.py], [core/market_environment.py],
    [agents/base_agent.py], [agents/risk_manager_agent.py],
    [agents/trader_agent.py]) together with the properties its
    specification states about it, and of the analyst, the reporter and
    the agent set-up of the simulation ([agents/analyst_agent.py],
    [agents/reporter_agent.py], [src/main.py]) with further properties
    of the code.

    Conventions of the embedding.
    - A Python [float] is an exact rational ([Q]); comparisons are the
      numeric ones ([Qeq], [Qlt]); rounding is not modelled.  A Python
      [int] is a [Z]; an [int] used in float arithmetic goes through
      [inject_Z].
    - A method that mutates [self] is a computation in the monad [M]: it
      takes the object, and yields a result (a returned value or a raised
      exception), the object as the call left it, and the log records
      written.  An exception raised half way leaves the mutations done so
      far in place, as in Python.
    - A [dict] that is looked up, or summed over (in exact arithmetic the
      order of a sum does not matter), is a [gmap]; a [dict] whose
      iteration order is visible in what is published is an
      insertion-ordered association list ([odict]).
    - An object that is mutated while several places hold it (the trader's
      [Order]s) lives in a store and is named by its address.
    - A [datetime] is an integer tick; [datetime.utcnow()] is an argument
      [now] of the handler that reads it.
    - What a component publishes is appended to its [message_bus], the
      list of (channel, message) pairs handed to the bus. *)

From Stdlib Require Import QArith Lqa ZArith.
From stdpp Require Import gmap strings list fin_maps pretty.

Local Open Scope string_scope.
Local Open Scope list_scope.

(** ** Floats and comparisons *)

(** [a < b] on floats, as a boolean. *)
Definition Qltb (a b : Q) : bool := negb (Qle_bool b a).

(** [a > b]. *)
Definition Qgtb (a b : Q) : bool := Qltb b a.

(** Python's [sum(xs)]: starts from 0 and adds from the left. *)
Definition py_sum (xs : list Q) : Q := fold_left Qplus xs 0%Q.

(** ** Formatted text *)

(** A piece of an f-string: literal text, or a value with its format. *)
Inductive fpiece : Type :=
| Lit (s : string)
| Fmt2f (x : Q)
| FmtInt (z : Z).

Definition fstring : Type := list fpiece.

(** Equality of two texts, piece by piece; equal numbers format alike (the
    model does not identify different numbers that round to the same
    digits). *)
Definition fpiece_eqb (a b : fpiece) : bool :=
  match a, b with
  | Lit s, Lit s' => bool_decide (s = s')
  | Fmt2f x, Fmt2f y => Qeq_bool x y
  | FmtInt z, FmtInt z' => bool_decide (z = z')
  | _, _ => false
  end.

Fixpoint fstring_eqb (a b : fstring) : bool :=
  match a, b with
  | [], [] => true
  | x :: a', y :: b' => fpiece_eqb x y && fstring_eqb a' b'
  | _, _ => false
  end.

(** [int(x)]: truncation toward zero. *)
Definition py_int (x : Q) : Z := Z.quot (Qnum x) (Zpos (Qden x)).

(** [min(a, b)] and [max(a, b)] *)
Definition py_min (a b : Q) : Q := if Qltb b a then b else a.
Definition py_max (a b : Z) : Z := if (b >? a)%Z then b else a.

(** ** Exceptions, log records and the method monad *)

Inductive exn : Type :=
| ZeroDivisionError
| ValidationError
| ValueError
| KeyError.

#[global] Instance exn_eq_dec : EqDecision exn.
Proof. solve_decision. Defined.

Inductive result (A : Type) : Type :=
| Return (a : A)
| Raised (e : exn).
Arguments Return {A} a.
Arguments Raised {A} e.

Inductive log_level : Type := DEBUG | INFO | WARNING | ERROR.

(** What a log line says; the numbers are kept as data instead of being
    formatted into the text. *)
Inductive log_event : Type :=
| PortfolioInitialized (initial_cash : Q)
| InsufficientCashForBuy (need have : Q)
| NoPositionToSell (symbol : string)
| InsufficientSharesToSell (trying have : Z)
| FailedToExecuteTrade (trade_id : string) (e : exn)
| BuyExecuted (quantity : Z) (symbol : string) (execution_price new_cash : Q)
| SellExecuted (quantity : Z) (symbol : string) (execution_price pnl new_cash : Q)
| RejectingNonApprovedOrder (order_id : string)
| OrderQueued (order_id : string)
| NoPriceDataSkipping (symbol order_id : string)
| ExecutedTrade (trade_id : string)
| ExecutedOrders (n : nat)
| NoMarketDataFor (date : Z)
| MarketAdvanced (date : Z) (symbols : nat)
| AgentAlreadyRunning
| AgentStarted (agent_id : string)
| AgentStopped (agent_id : string)
| SubscribedToChannel (channel : string)
| StopLossTriggered (symbol trader_id : string) (loss_percent avg_cost current_price : Q)
| PositionUpdated (trader_id symbol side : string) (new_quantity : Z)
| OrderApprovedLog (order_id : string)
| OrderRejectedLog (order_id symbol : string)
| OrderRejectedBecause (order_id : string) (reason : fstring)
| IgnoringLowConfidence (confidence : Q)
| NoPriceCannotTrade (symbol : string)
| InsufficientCashFor (symbol : string)
| PlacedOrder (side order_id symbol : string) (quantity : Z) (price : Q)
| TradeExecutedLog (order_id : string).

Definition log_record : Type := log_level * log_event.

Definition M (S A : Type) : Type := S -> result A * S * list log_record.

Section Monad.
Context {S : Type}.

Definition ret {A} (a : A) : M S A := fun s => (Return a, s, []).

Definition bind {A B} (m : M S A) (k : A -> M S B) : M S B :=
  fun s =>
    match m s with
    | (Return a, s1, l1) =>
        let '(r, s2, l2) := k a s1 in (r, s2, l1 ++ l2)
    | (Raised e, s1, l1) => (Raised e, s1, l1)
    end.

Definition raise {A} (e : exn) : M S A := fun s => (Raised e, s, []).

(** [try: m  except Exception as e: h e] *)
Definition try_except {A} (m : M S A) (h : exn -> M S A) : M S A :=
  fun s =>
    match m s with
    | (Return a, s1, l1) => (Return a, s1, l1)
    | (Raised e, s1, l1) =>
        let '(r, s2, l2) := h e s1 in (r, s2, l1 ++ l2)
    end.

Definition get : M S S := fun s => (Return s, s, []).
Definition modify (f : S -> S) : M S unit := fun s => (Return tt, f s, []).
Definition log (lv : log_level) (ev : log_event) : M S unit :=
  fun s => (Return tt, s, [(lv, ev)]).

(** Float division [x / y]: raises on a zero divisor. *)
Definition py_div (x y : Q) : M S Q :=
  if Qeq_bool y 0 then raise ZeroDivisionError else ret (x / y)%Q.
End Monad.

Notation "'let*' x ':=' m 'in' k" := (bind m (fun x => k))
  (at level 10, x name, m at level 100, k at level 200).
Notation "m ';;;' k" := (bind m (fun _ => k))
  (at level 100, k at level 200, right associativity).

(** ** core/schemas.py *)

Inductive OrderSide : Type := BUY | SELL.

Inductive OrderStatus : Type :=
| PENDING | APPROVED | REJECTED | EXECUTED | CANCELLED.

#[global] Instance OrderSide_eq_dec : EqDecision OrderSide.
Proof. solve_decision. Defined.
#[global] Instance OrderStatus_eq_dec : EqDecision OrderStatus.
Proof. solve_decision. Defined.

(** [side.value] *)
Definition side_value (s : OrderSide) : string :=
  match s with BUY => "BUY" | SELL => "SELL" end.

Module Order.
Record t : Type := mk {
  id : string;
  timestamp : Z;
  trader_id : string;
  symbol : string;
  side : OrderSide;
  quantity : Z;
  price : option Q;
  status : OrderStatus;
  signal_id : option string;
  rejection_reason : option fstring
}.

Definition set_status (o : t) (s : OrderStatus) : t :=
  mk (id o) (timestamp o) (trader_id o) (symbol o) (side o) (quantity o)
     (price o) s (signal_id o) (rejection_reason o).

Definition set_rejection_reason (o : t) (r : option fstring) : t :=
  mk (id o) (timestamp o) (trader_id o) (symbol o) (side o) (quantity o)
     (price o) (status o) (signal_id o) r.

(** The field constraints of the model ([quantity] gt 0, [price] gt 0). *)
Definition valid (o : t) : Prop :=
  (0 < quantity o)%Z /\ match price o with Some p => (0 < p)%Q | None => True end.
End Order.

Module Trade.
Record t : Type := mk {
  id : string;
  timestamp : Z;
  order_id : string;
  symbol : string;
  side : OrderSide;
  quantity : Z;
  execution_price : Q;
  commission : Q;
  trader_id : string
}.

(** The field constraints of the model: [quantity] gt 0,
    [execution_price] gt 0, [commission] ge 0. *)
Definition valid (t : t) : Prop :=
  (0 < quantity t)%Z /\ (0 < execution_price t)%Q /\ (0 <= commission t)%Q.

Definition validb (t : t) : bool :=
  (0 <? quantity t)%Z && Qltb 0 (execution_price t) && Qle_bool 0 (commission t).
End Trade.

Module Position.
Record t : Type := mk {
  symbol : string;
  quantity : Z;
  avg_cost : Q;
  current_price : Q;
  unrealized_pnl : Q
}.

Definition set_quantity (p : t) (q : Z) : t :=
  mk (symbol p) q (avg_cost p) (current_price p) (unrealized_pnl p).
Definition set_avg_cost (p : t) (a : Q) : t :=
  mk (symbol p) (quantity p) a (current_price p) (unrealized_pnl p).
Definition set_current_price (p : t) (c : Q) : t :=
  mk (symbol p) (quantity p) (avg_cost p) c (unrealized_pnl p).
Definition set_unrealized_pnl (p : t) (u : Q) : t :=
  mk (symbol p) (quantity p) (avg_cost p) (current_price p) u.

Definition update_price (self : t) (new_price : Q) : t :=
  let self := set_current_price self new_price in
  set_unrealized_pnl self ((new_price - avg_cost self) * inject_Z (quantity self))%Q.
End Position.

(** [Position(...)]: the model validates its fields when it is built
    ([avg_cost] and [current_price] gt 0); later assignments to the fields
    are not validated. *)
Definition Position_new {S} (symbol : string) (quantity : Z)
    (avg_cost current_price unrealized_pnl : Q) : M S Position.t :=
  if Qltb 0 avg_cost && Qltb 0 current_price then
    ret (Position.mk symbol quantity avg_cost current_price unrealized_pnl)
  else raise ValidationError.

(** ** core/portfolio.py *)

Module Portfolio.
Record t : Type := mk {
  initial_cash : Q;
  cash : Q;
  positions : gmap string Position.t;
  realized_pnl : Q;
  trades_history : list Trade.t
}.

Definition set_cash (p : t) (c : Q) : t :=
  mk (initial_cash p) c (positions p) (realized_pnl p) (trades_history p).
Definition set_positions (p : t) (ps : gmap string Position.t) : t :=
  mk (initial_cash p) (cash p) ps (realized_pnl p) (trades_history p).
Definition set_realized_pnl (p : t) (r : Q) : t :=
  mk (initial_cash p) (cash p) (positions p) r (trades_history p).
Definition set_trades_history (p : t) (h : list Trade.t) : t :=
  mk (initial_cash p) (cash p) (positions p) (realized_pnl p) h.

(** [self.positions[symbol] = f(self.positions[symbol])]: a mutation of the
    position object stored under [symbol]. *)
Definition set_position (symbol : string) (pos : Position.t) (p : t) : t :=
  set_positions p (<[symbol := pos]> (positions p)).

Definition __init__ (initial_cash : Q) : t :=
  mk initial_cash initial_cash ∅ 0%Q [].

Definition update_price (self : t) (symbol : string) (current_price : Q) : t :=
  match positions self !! symbol with
  | Some pos => set_position symbol (Position.update_price pos current_price) self
  | None => self
  end.

Definition update_all_prices (self : t) (prices : gmap string Q) : t :=
  map_fold (fun symbol price acc => update_price acc symbol price) self prices.

Definition _execute_buy (trade : Trade.t) : M t bool :=
  let total_cost :=
    (Trade.execution_price trade * inject_Z (Trade.quantity trade)
     + Trade.commission trade)%Q in
  let* self := get in
  if Qgtb total_cost (cash self) then
    log WARNING (InsufficientCashForBuy total_cost (cash self));;;
    ret false
  else
    modify (fun self => set_cash self (cash self - total_cost)%Q);;;
    match positions self !! Trade.symbol trade with
    | Some position =>
        let total_cost_basis :=
          (Position.avg_cost position * inject_Z (Position.quantity position)
           + Trade.execution_price trade * inject_Z (Trade.quantity trade))%Q in
        let position :=
          Position.set_quantity position
            (Position.quantity position + Trade.quantity trade)%Z in
        modify (set_position (Trade.symbol trade) position);;;
        let* avg := py_div total_cost_basis (inject_Z (Position.quantity position)) in
        let position := Position.set_avg_cost position avg in
        let position :=
          Position.set_current_price position (Trade.execution_price trade) in
        let position :=
          Position.set_unrealized_pnl position
            ((Position.current_price position - Position.avg_cost position)
             * inject_Z (Position.quantity position))%Q in
        modify (set_position (Trade.symbol trade) position)
    | None =>
        let* position :=
          Position_new (Trade.symbol trade) (Trade.quantity trade)
            (Trade.execution_price trade) (Trade.execution_price trade) 0%Q in
        modify (set_position (Trade.symbol trade) position)
    end;;;
    modify (fun self => set_trades_history self (trades_history self ++ [trade]));;;
    let* self := get in
    log INFO (BuyExecuted (Trade.quantity trade) (Trade.symbol trade)
                (Trade.execution_price trade) (cash self));;;
    ret true.

Definition _execute_sell (trade : Trade.t) : M t bool :=
  let* self := get in
  match positions self !! Trade.symbol trade with
  | None =>
      log WARNING (NoPositionToSell (Trade.symbol trade));;;
      ret false
  | Some position =>
      if (Trade.quantity trade >? Position.quantity position)%Z then
        log WARNING (InsufficientSharesToSell (Trade.quantity trade)
                       (Position.quantity position));;;
        ret false
      else
        let proceeds :=
          (Trade.execution_price trade * inject_Z (Trade.quantity trade)
           - Trade.commission trade)%Q in
        modify (fun self => set_cash self (cash self + proceeds)%Q);;;
        let pnl :=
          ((Trade.execution_price trade - Position.avg_cost position)
           * inject_Z (Trade.quantity trade))%Q in
        modify (fun self => set_realized_pnl self (realized_pnl self + pnl)%Q);;;
        let position :=
          Position.set_quantity position
            (Position.quantity position - Trade.quantity trade)%Z in
        modify (set_position (Trade.symbol trade) position);;;
        (if (Position.quantity position =? 0)%Z then
           modify (fun self =>
                     set_positions self (delete (Trade.symbol trade) (positions self)))
         else
           let position :=
             Position.set_current_price position (Trade.execution_price trade) in
           let position :=
             Position.set_unrealized_pnl position
               ((Position.current_price position - Position.avg_cost position)
                * inject_Z (Position.quantity position))%Q in
           modify (set_position (Trade.symbol trade) position));;;
        modify (fun self => set_trades_history self (trades_history self ++ [trade]));;;
        let* self := get in
        log INFO (SellExecuted (Trade.quantity trade) (Trade.symbol trade)
                    (Trade.execution_price trade) pnl (cash self));;;
        ret true
  end.

Definition execute_trade (trade : Trade.t) : M t bool :=
  try_except
    (match Trade.side trade with
     | BUY => _execute_buy trade
     | SELL => _execute_sell trade
     end)
    (fun e =>
       log ERROR (FailedToExecuteTrade (Trade.id trade) e);;;
       ret false).

(** [self.positions.values()] *)
Definition values (self : t) : list Position.t := (map_to_list (positions self)).*2.

Definition positions_value (self : t) : Q :=
  py_sum (map (fun pos => inject_Z (Position.quantity pos) * Position.current_price pos)%Q
            (values self)).

(** [if current_prices:] is false for [None] and for the empty dict. *)
Definition truthy (current_prices : option (gmap string Q)) : option (gmap string Q) :=
  match current_prices with
  | Some prices => if decide (prices = ∅) then None else Some prices
  | None => None
  end.

Definition get_total_value (current_prices : option (gmap string Q)) : M t Q :=
  match truthy current_prices with
  | Some prices => modify (fun self => update_all_prices self prices)
  | None => ret tt
  end;;;
  let* self := get in
  ret (cash self + positions_value self)%Q.

Definition get_unrealized_pnl (self : t) : Q :=
  py_sum (map Position.unrealized_pnl (values self)).

Definition get_total_pnl (self : t) : Q :=
  (realized_pnl self + get_unrealized_pnl self)%Q.

Record summary : Type := mk_summary {
  s_cash : Q;
  s_positions_count : nat;
  s_positions_value : Q;
  s_total_value : Q;
  s_realized_pnl : Q;
  s_unrealized_pnl : Q;
  s_total_pnl : Q;
  s_total_return_pct : Q;
  s_trades_count : nat
}.

Definition get_summary : M t summary :=
  let* total_value := get_total_value None in
  let* self := get in
  let* ratio := py_div (total_value - initial_cash self) (initial_cash self) in
  ret (mk_summary (cash self) (size (positions self)) (positions_value self)
         total_value (realized_pnl self) (get_unrealized_pnl self)
         (get_total_pnl self) (ratio * 100)%Q (length (trades_history self))).
End Portfolio.

(** ** Messages on the bus *)

(** The payloads the components publish, one constructor per value of the
    ["type"] key. *)
Inductive message : Type :=
| market_update (timestamp : Z) (symbol : string) (open high low close : Q) (volume : Z)
| signal (signal_id : string) (timestamp : Z) (agent_id symbol signal_type : string)
    (confidence : Q)
| order_request (order_id : string) (timestamp : Z) (trader_id symbol side : string)
    (quantity : Z) (price : option Q) (signal_id : option string)
| risk_decision (order_id : string) (approved : bool) (reason : fstring) (timestamp : Z)
| order_approved (order_id trader_id symbol side : string) (quantity : Z)
    (price : option Q) (timestamp : Z)
| trade_executed (trade_id order_id symbol side : string) (quantity : Z)
    (execution_price commission : Q) (timestamp : Z) (trader_id : string)
| stop_loss (trader_id symbol : string) (quantity : Z)
    (avg_cost current_price loss_percent : Q) (timestamp : Z)
| portfolio_snapshot (date : Z) (total_value realized_pnl unrealized_pnl : Q).

(** What has been handed to [message_bus.publish], oldest first. *)
Definition outbox : Type := list (string * message).

(** ** Equality of model objects and [list.remove] *)

Definition option_eqb {A} (eqb : A -> A -> bool) (x y : option A) : bool :=
  match x, y with
  | Some a, Some b => eqb a b
  | None, None => true
  | _, _ => false
  end.

(** [a == b] on two orders: field by field, floats compared numerically. *)
Definition Order_eqb (a b : Order.t) : bool :=
  bool_decide (Order.id a = Order.id b)
  && bool_decide (Order.timestamp a = Order.timestamp b)
  && bool_decide (Order.trader_id a = Order.trader_id b)
  && bool_decide (Order.symbol a = Order.symbol b)
  && bool_decide (Order.side a = Order.side b)
  && bool_decide (Order.quantity a = Order.quantity b)
  && option_eqb Qeq_bool (Order.price a) (Order.price b)
  && bool_decide (Order.status a = Order.status b)
  && bool_decide (Order.signal_id a = Order.signal_id b)
  && option_eqb fstring_eqb (Order.rejection_reason a) (Order.rejection_reason b).

(** [l.remove(x)]: drops the first item equal to [x]; [None] stands for the
    [ValueError] of a missing item. *)
Fixpoint py_remove {A} (eqb : A -> A -> bool) (x : A) (l : list A) : option (list A) :=
  match l with
  | [] => None
  | y :: l' =>
      if eqb y x then Some l'
      else match py_remove eqb x l' with
           | Some r => Some (y :: r)
           | None => None
           end
  end.

(** [Trade(...)]: the model validates its fields when it is built. *)
Definition Trade_new {S} (id : string) (timestamp : option Z) (order_id symbol : string)
    (side : OrderSide) (quantity : Z) (execution_price commission : Q)
    (trader_id : string) : M S Trade.t :=
  match timestamp with
  | None => raise ValidationError
  | Some ts =>
      let trade :=
        Trade.mk id ts order_id symbol side quantity execution_price commission
          trader_id in
      if Trade.validb trade then ret trade else raise ValidationError
  end.

(** ** core/market_environment.py *)

Module MarketData.
Record t : Type := mk {
  timestamp : Z;
  symbol : string;
  open : Q;
  high : Q;
  low : Q;
  close : Q;
  volume : Z
}.

Definition valid (d : t) : Prop :=
  (0 < open d)%Q /\ (0 < high d)%Q /\ (0 < low d)%Q /\ (0 < close d)%Q
  /\ (0 <= volume d)%Z.
End MarketData.

Module MarketEnvironment.
Record t : Type := mk {
  message_bus : outbox;
  commission_rate : Q;
  current_time : option Z;
  current_prices : gmap string Q;
  pending_orders : list Order.t;
  executed_trades : list Trade.t;
  (** per trading day, the day's data in the order the symbols were loaded *)
  data_by_date : gmap Z (list (string * MarketData.t))
}.

Definition set_message_bus (e : t) (b : outbox) : t :=
  mk b (commission_rate e) (current_time e) (current_prices e) (pending_orders e)
     (executed_trades e) (data_by_date e).
Definition set_current_time (e : t) (c : option Z) : t :=
  mk (message_bus e) (commission_rate e) c (current_prices e) (pending_orders e)
     (executed_trades e) (data_by_date e).
Definition set_current_prices (e : t) (ps : gmap string Q) : t :=
  mk (message_bus e) (commission_rate e) (current_time e) ps (pending_orders e)
     (executed_trades e) (data_by_date e).
Definition set_pending_orders (e : t) (os : list Order.t) : t :=
  mk (message_bus e) (commission_rate e) (current_time e) (current_prices e) os
     (executed_trades e) (data_by_date e).
Definition set_executed_trades (e : t) (ts : list Trade.t) : t :=
  mk (message_bus e) (commission_rate e) (current_time e) (current_prices e)
     (pending_orders e) ts (data_by_date e).

(** [await self.message_bus.publish(channel, message)] *)
Definition publish (channel : string) (msg : message) : M t unit :=
  modify (fun self => set_message_bus self (message_bus self ++ [(channel, msg)])).

(** The constructor, given the table [_prepare_market_data] builds from the
    historical series. *)
Definition __init__ (message_bus : outbox)
    (data_by_date : gmap Z (list (string * MarketData.t)))
    (commission_rate : Q) : t :=
  mk message_bus commission_rate None ∅ [] [] data_by_date.

Fixpoint advance_day (day_data : list (string * MarketData.t)) : M t unit :=
  match day_data with
  | [] => ret tt
  | (symbol, market_data) :: rest =>
      modify (fun self =>
                set_current_prices self
                  (<[symbol := MarketData.close market_data]> (current_prices self)));;;
      publish "market_data"
        (market_update (MarketData.timestamp market_data) symbol
           (MarketData.open market_data) (MarketData.high market_data)
           (MarketData.low market_data) (MarketData.close market_data)
           (MarketData.volume market_data));;;
      advance_day rest
  end.

Definition advance_time (target_date : Z) : M t unit :=
  let* self := get in
  match data_by_date self !! target_date with
  | None =>
      log WARNING (NoMarketDataFor target_date);;;
      ret tt
  | Some day_data =>
      modify (fun self => set_current_time self (Some target_date));;;
      advance_day day_data;;;
      log INFO (MarketAdvanced target_date (length day_data))
  end.

Definition submit_order (order : Order.t) : M t unit :=
  if bool_decide (Order.status order <> APPROVED) then
    log WARNING (RejectingNonApprovedOrder (Order.id order));;;
    ret tt
  else
    modify (fun self => set_pending_orders self (pending_orders self ++ [order]));;;
    log DEBUG (OrderQueued (Order.id order)).

(** The two [continue]s of a limit order. *)
Definition limit_blocks (order : Order.t) (execution_price : Q) : bool :=
  match Order.price order with
  | Some limit =>
      match Order.side order with
      | BUY => Qgtb execution_price limit
      | SELL => Qltb execution_price limit
      end
  | None => false
  end.

(** The body of [for order in self.pending_orders[:]], over what is left of
    the copy. *)
Fixpoint sweep (orders : list Order.t) (executed_count : nat) : M t nat :=
  match orders with
  | [] => ret executed_count
  | order :: rest =>
      let* self := get in
      match current_prices self !! Order.symbol order with
      | None =>
          log WARNING (NoPriceDataSkipping (Order.symbol order) (Order.id order));;;
          sweep rest executed_count
      | Some execution_price =>
          if limit_blocks order execution_price then sweep rest executed_count
          else
            let commission :=
              (execution_price * inject_Z (Order.quantity order)
               * commission_rate self)%Q in
            let* trade :=
              Trade_new ("trade_" +:+ Order.id order) (current_time self)
                (Order.id order) (Order.symbol order) (Order.side order)
                (Order.quantity order) execution_price commission
                (Order.trader_id order) in
            modify (fun self =>
                      set_executed_trades self (executed_trades self ++ [trade]));;;
            let* self := get in
            match py_remove Order_eqb order (pending_orders self) with
            | None => raise ValueError
            | Some os => modify (fun self => set_pending_orders self os)
            end;;;
            publish "trades"
              (trade_executed (Trade.id trade) (Trade.order_id trade)
                 (Trade.symbol trade) (side_value (Trade.side trade))
                 (Trade.quantity trade) (Trade.execution_price trade)
                 (Trade.commission trade) (Trade.timestamp trade)
                 (Trade.trader_id trade));;;
            log INFO (ExecutedTrade (Trade.id trade));;;
            sweep rest (S executed_count)
      end
  end.

Definition execute_pending_orders : M t unit :=
  let* self := get in
  let* executed_count := sweep (pending_orders self) 0 in
  if (0 <? executed_count)%nat then log INFO (ExecutedOrders executed_count)
  else ret tt.

Definition get_current_price (self : t) (symbol : string) : option Q :=
  current_prices self !! symbol.

Definition get_all_current_prices (self : t) : gmap string Q :=
  current_prices self.
End MarketEnvironment.

(** ** Insertion-ordered dictionaries *)

(** A [dict] whose iteration order matters: the items in insertion order,
    at most one per key. *)
Definition odict (V : Type) : Type := list (string * V).

Section ODict.
Context {V : Type}.

(** [d.get(k)] *)
Fixpoint od_get (k : string) (d : odict V) : option V :=
  match d with
  | [] => None
  | (k', v) :: d' => if bool_decide (k' = k) then Some v else od_get k d'
  end.

(** [d[k] = v]: in place for a key that is there, at the end for a new one. *)
Fixpoint od_set (k : string) (v : V) (d : odict V) : odict V :=
  match d with
  | [] => [(k, v)]
  | (k', v') :: d' =>
      if bool_decide (k' = k) then (k', v) :: d' else (k', v') :: od_set k v d'
  end.

(** [del d[k]] for a key that is there. *)
Fixpoint od_del (k : string) (d : odict V) : odict V :=
  match d with
  | [] => []
  | (k', v') :: d' =>
      if bool_decide (k' = k) then d' else (k', v') :: od_del k d'
  end.

(** [d.values()] *)
Definition od_values (d : odict V) : list V := map snd d.
End ODict.

(** ** agents/risk_manager_agent.py *)

(** An entry of [current_positions]: the dict with the keys ["trader_id"],
    ["symbol"], ["quantity"] and ["avg_cost"]. *)
Module ShadowPosition.
Record t : Type := mk {
  trader_id : string;
  symbol : string;
  quantity : Z;
  avg_cost : Q
}.

Definition set_quantity (p : t) (q : Z) : t :=
  mk (trader_id p) (symbol p) q (avg_cost p).
Definition set_avg_cost (p : t) (a : Q) : t :=
  mk (trader_id p) (symbol p) (quantity p) a.
End ShadowPosition.

Module RiskManagerAgent.
Record t : Type := mk {
  agent_id : string;
  message_bus : outbox;
  initial_portfolio_value : Q;
  max_position_size : Q;
  stop_loss_percent : Q;
  max_portfolio_risk : Q;
  current_positions : odict ShadowPosition.t;
  current_prices : gmap string Q;
  trader_cash : gmap string Q;
  approved_count : Z;
  rejected_count : Z
}.

Definition set_message_bus (r : t) (b : outbox) : t :=
  mk (agent_id r) b (initial_portfolio_value r) (max_position_size r)
     (stop_loss_percent r) (max_portfolio_risk r) (current_positions r)
     (current_prices r) (trader_cash r) (approved_count r) (rejected_count r).
Definition set_current_positions (r : t) (ps : odict ShadowPosition.t) : t :=
  mk (agent_id r) (message_bus r) (initial_portfolio_value r) (max_position_size r)
     (stop_loss_percent r) (max_portfolio_risk r) ps
     (current_prices r) (trader_cash r) (approved_count r) (rejected_count r).
Definition set_current_prices (r : t) (ps : gmap string Q) : t :=
  mk (agent_id r) (message_bus r) (initial_portfolio_value r) (max_position_size r)
     (stop_loss_percent r) (max_portfolio_risk r) (current_positions r)
     ps (trader_cash r) (approved_count r) (rejected_count r).
Definition set_trader_cash (r : t) (c : gmap string Q) : t :=
  mk (agent_id r) (message_bus r) (initial_portfolio_value r) (max_position_size r)
     (stop_loss_percent r) (max_portfolio_risk r) (current_positions r)
     (current_prices r) c (approved_count r) (rejected_count r).
Definition set_approved_count (r : t) (n : Z) : t :=
  mk (agent_id r) (message_bus r) (initial_portfolio_value r) (max_position_size r)
     (stop_loss_percent r) (max_portfolio_risk r) (current_positions r)
     (current_prices r) (trader_cash r) n (rejected_count r).
Definition set_rejected_count (r : t) (n : Z) : t :=
  mk (agent_id r) (message_bus r) (initial_portfolio_value r) (max_position_size r)
     (stop_loss_percent r) (max_portfolio_risk r) (current_positions r)
     (current_prices r) (trader_cash r) (approved_count r) n.

(** [BaseAgent.publish]: a failure of the bus is caught and logged there;
    the in-process bus appends. *)
Definition publish (channel : string) (msg : message) : M t unit :=
  modify (fun self => set_message_bus self (message_bus self ++ [(channel, msg)])).

Definition __init__ (agent_id : string) (message_bus : outbox)
    (initial_portfolio_value max_position_size stop_loss_percent
       max_portfolio_risk : Q) : t :=
  mk agent_id message_bus initial_portfolio_value max_position_size
     stop_loss_percent max_portfolio_risk [] ∅ ∅ 0 0.

(** [f"{trader_id}_{symbol}"] *)
Definition trader_key (trader_id symbol : string) : string :=
  trader_id +:+ "_" +:+ symbol.

Definition _on_market_update (msg : message) : M t unit :=
  match msg with
  | market_update _ symbol _ _ _ close_price _ =>
      if negb (bool_decide (symbol = "")) && negb (Qeq_bool close_price 0) then
        modify (fun self =>
                  set_current_prices self (<[symbol := close_price]> (current_prices self)))
      else ret tt
  | _ => ret tt
  end.

(** The sum under [total_exposure]. *)
Definition total_exposure (self : t) : Q :=
  py_sum (map (fun pos =>
                 inject_Z (ShadowPosition.quantity pos)
                 * default 0%Q (current_prices self !! ShadowPosition.symbol pos))%Q
            (od_values (current_positions self))).

Definition _validate_order (self : t) (trader_id symbol side : string)
    (quantity : Z) (price : option Q) : bool * fstring :=
  match current_prices self !! symbol with
  | None => (false, [Lit "No market data available for symbol"])
  | Some current_price =>
      let order_value := (inject_Z quantity * current_price)%Q in
      if Qgtb order_value (max_position_size self) then
        (false, [Lit "Order value $"; Fmt2f order_value;
                 Lit " exceeds max position size $"; Fmt2f (max_position_size self)])
      else
        let trader_cash :=
          default (initial_portfolio_value self / 4)%Q (trader_cash self !! trader_id) in
        if bool_decide (side = "BUY") && Qgtb order_value trader_cash then
          (false, [Lit "Insufficient cash: need $"; Fmt2f order_value;
                   Lit ", have $"; Fmt2f trader_cash])
        else
          let current_position :=
            match od_get (trader_key trader_id symbol) (current_positions self) with
            | Some pos => ShadowPosition.quantity pos
            | None => 0%Z
            end in
          if negb (bool_decide (side = "BUY")) && bool_decide (side = "SELL")
             && (quantity >? current_position)%Z then
            (false, [Lit "Insufficient shares: trying to sell "; FmtInt quantity;
                     Lit ", have "; FmtInt current_position])
          else
            let total_exposure := total_exposure self in
            let max_allowed_exposure :=
              (initial_portfolio_value self * max_portfolio_risk self)%Q in
            if bool_decide (side = "BUY")
               && Qgtb (total_exposure + order_value) max_allowed_exposure then
              (false, [Lit "Portfolio risk limit exceeded: $";
                       Fmt2f (total_exposure + order_value)%Q;
                       Lit " > $"; Fmt2f max_allowed_exposure])
            else (true, [Lit "Order approved"])
  end.

Definition _on_order_request (now : Z) (msg : message) : M t unit :=
  match msg with
  | order_request order_id _ trader_id symbol side quantity price _ =>
      let* self := get in
      let '(approved, reason) :=
        _validate_order self trader_id symbol side quantity price in
      (if approved then
         modify (fun self => set_approved_count self (approved_count self + 1)%Z);;;
         log INFO (OrderApprovedLog order_id)
       else
         modify (fun self => set_rejected_count self (rejected_count self + 1)%Z);;;
         log WARNING (OrderRejectedLog order_id symbol));;;
      publish "risk_decisions" (risk_decision order_id approved reason now)
  | _ => ret tt
  end.

Definition _on_trade_executed (msg : message) : M t unit :=
  match msg with
  | trade_executed _ _ symbol side quantity execution_price commission _ trader_id =>
      let trader_key := trader_key trader_id symbol in
      let* self := get in
      match od_get trader_key (current_positions self) with
      | Some _ => ret tt
      | None =>
          modify (fun self =>
                    set_current_positions self
                      (od_set trader_key (ShadowPosition.mk trader_id symbol 0 0)
                         (current_positions self)))
      end;;;
      let* self := get in
      match od_get trader_key (current_positions self) with
      | None => raise KeyError
      | Some position =>
          (if bool_decide (side = "BUY") then
             let total_cost :=
               (inject_Z (ShadowPosition.quantity position)
                * ShadowPosition.avg_cost position
                + inject_Z quantity * execution_price)%Q in
             let position :=
               ShadowPosition.set_quantity position
                 (ShadowPosition.quantity position + quantity)%Z in
             let position :=
               ShadowPosition.set_avg_cost position
                 (if (ShadowPosition.quantity position >? 0)%Z
                  then (total_cost / inject_Z (ShadowPosition.quantity position))%Q
                  else 0%Q) in
             modify (fun self =>
                       set_current_positions self
                         (od_set trader_key position (current_positions self)));;;
             let* self := get in
             let current_cash :=
               default (initial_portfolio_value self / 4)%Q
                 (trader_cash self !! trader_id) in
             modify (fun self =>
                       set_trader_cash self
                         (<[trader_id :=
                              (current_cash
                               - (execution_price * inject_Z quantity + commission))%Q]>
                            (trader_cash self)))
           else if bool_decide (side = "SELL") then
             let position :=
               ShadowPosition.set_quantity position
                 (ShadowPosition.quantity position - quantity)%Z in
             modify (fun self =>
                       set_current_positions self
                         (od_set trader_key position (current_positions self)));;;
             (if (ShadowPosition.quantity position <=? 0)%Z then
                modify (fun self =>
                          set_current_positions self
                            (od_del trader_key (current_positions self)))
              else ret tt);;;
             let* self := get in
             let current_cash :=
               default (initial_portfolio_value self / 4)%Q
                 (trader_cash self !! trader_id) in
             modify (fun self =>
                       set_trader_cash self
                         (<[trader_id :=
                              (current_cash
                               + (execution_price * inject_Z quantity - commission))%Q]>
                            (trader_cash self)))
           else ret tt);;;
          let* self := get in
          log DEBUG (PositionUpdated trader_id symbol side
                       match od_get trader_key (current_positions self) with
                       | Some pos => ShadowPosition.quantity pos
                       | None => 0%Z
                       end)
      end
  | _ => ret tt
  end.

(** The body of [for trader_key, position in list(self.current_positions.items())]. *)
Fixpoint stop_loss_loop (now : Z) (items : list (string * ShadowPosition.t)) : M t unit :=
  match items with
  | [] => ret tt
  | (trader_key, position) :: rest =>
      let symbol := ShadowPosition.symbol position in
      let quantity := ShadowPosition.quantity position in
      let avg_cost := ShadowPosition.avg_cost position in
      let* self := get in
      match current_prices self !! symbol with
      | None => stop_loss_loop now rest
      | Some current_price =>
          if (quantity <=? 0)%Z then stop_loss_loop now rest
          else
            let* loss_percent := py_div (avg_cost - current_price) avg_cost in
            (if Qgtb loss_percent (stop_loss_percent self) then
               let trader_id := ShadowPosition.trader_id position in
               log WARNING (StopLossTriggered symbol trader_id loss_percent avg_cost
                              current_price);;;
               publish "stop_loss_alerts"
                 (stop_loss trader_id symbol quantity avg_cost current_price
                    loss_percent now)
             else ret tt);;;
            stop_loss_loop now rest
      end
  end.

Definition _check_stop_losses (now : Z) : M t unit :=
  let* self := get in
  stop_loss_loop now (current_positions self).
End RiskManagerAgent.

(** ** agents/base_agent.py *)

(** An asyncio task as the agent's owner sees it. *)
Inductive task_state : Type :=
| TaskRunning
| TaskCancelled
| TaskFailed (e : exn)
| TaskFinished.

#[global] Instance task_state_eq_dec : EqDecision task_state.
Proof. solve_decision. Defined.

(** What the abstract methods of an agent class come to for the
    lifecycle: the channels [_setup_subscriptions] subscribes to, each
    with the name of the handler.  [_run] is, in every agent class, a loop
    [while self._running] around a sleep, and is represented by the task
    it runs in. *)
Class AgentClass : Type := {
  _setup_subscriptions : list (string * string)
}.

Definition AnalystAgent_class : AgentClass :=
  {| _setup_subscriptions :=
       [("market_data", "_on_market_update"); ("news_feed", "_on_news")] |}.

Definition TraderAgent_class : AgentClass :=
  {| _setup_subscriptions :=
       [("signals", "_on_signal"); ("market_data", "_on_market_update");
        ("risk_decisions", "_on_risk_decision"); ("trades", "_on_trade_executed")] |}.

Definition RiskManagerAgent_class : AgentClass :=
  {| _setup_subscriptions :=
       [("orders", "_on_order_request"); ("market_data", "_on_market_update");
        ("trades", "_on_trade_executed")] |}.

Definition ReporterAgent_class : AgentClass :=
  {| _setup_subscriptions :=
       [("trades", "_on_trade"); ("risk_decisions", "_on_risk_decision");
        ("stop_loss_alerts", "_on_stop_loss");
        ("portfolio_update", "_on_portfolio_update")] |}.

Module BaseAgent.
(** The agent's own fields, with the two objects its lifecycle acts on:
    the subscriber registry of the bus (channel, then subscriber and
    handler, in registration order) and the task table of the event loop
    (a task is named by its index). *)
Record t : Type := mk {
  agent_id : string;
  _running : bool;
  _task : option nat;
  bus_channels : list (string * (string * string));
  loop_tasks : list task_state
}.

Definition set_running (a : t) (r : bool) : t :=
  mk (agent_id a) r (_task a) (bus_channels a) (loop_tasks a).
Definition set_task (a : t) (h : option nat) : t :=
  mk (agent_id a) (_running a) h (bus_channels a) (loop_tasks a).
Definition set_bus_channels (a : t) (cs : list (string * (string * string))) : t :=
  mk (agent_id a) (_running a) (_task a) cs (loop_tasks a).
Definition set_loop_tasks (a : t) (ts : list task_state) : t :=
  mk (agent_id a) (_running a) (_task a) (bus_channels a) ts.

Definition __init__ (agent_id : string)
    (bus_channels : list (string * (string * string)))
    (loop_tasks : list task_state) : t :=
  mk agent_id false None bus_channels loop_tasks.

(** [self.subscribe(channel, callback)], on the in-process bus: the
    callback is appended to the channel's list. *)
Definition subscribe (channel handler : string) : M t unit :=
  modify (fun self =>
            set_bus_channels self
              (bus_channels self ++ [(channel, (agent_id self, handler))]));;;
  log INFO (SubscribedToChannel channel).

Fixpoint subscribe_all (subs : list (string * string)) : M t unit :=
  match subs with
  | [] => ret tt
  | (channel, handler) :: rest => subscribe channel handler;;; subscribe_all rest
  end.

(** [asyncio.create_task(self._run())] *)
Definition create_task : M t nat :=
  let* self := get in
  let handle := length (loop_tasks self) in
  modify (fun self => set_loop_tasks self (loop_tasks self ++ [TaskRunning]));;;
  ret handle.

Definition start `{AgentClass} : M t unit :=
  let* self := get in
  if _running self then
    log WARNING AgentAlreadyRunning;;;
    ret tt
  else
    modify (fun self => set_running self true);;;
    subscribe_all _setup_subscriptions;;;
    let* handle := create_task in
    modify (fun self => set_task self (Some handle));;;
    let* self := get in
    log INFO (AgentStarted (agent_id self)).

(** [task.cancel()] followed by [await task]: a task that still runs ends
    cancelled; a task that is done stays as it ended. *)
Definition cancel (handle : nat) (tasks : list task_state) : list task_state :=
  match tasks !! handle with
  | Some TaskRunning => <[handle := TaskCancelled]> tasks
  | _ => tasks
  end.

Definition stop : M t unit :=
  modify (fun self => set_running self false);;;
  let* self := get in
  match _task self with
  | Some handle =>
      modify (fun self => set_loop_tasks self (cancel handle (loop_tasks self)));;;
      let* self := get in
      match loop_tasks self !! handle with
      | Some (TaskFailed e) => raise e
      | _ => ret tt
      end
  | None => ret tt
  end;;;
  let* self := get in
  log INFO (AgentStopped (agent_id self)).
End BaseAgent.

(** ** agents/trader_agent.py *)

(** [Order(...)]: the model validates its fields when it is built. *)
Definition Order_new {S} (id : string) (timestamp : Z) (trader_id symbol : string)
    (side : OrderSide) (quantity : Z) (price : option Q) (status : OrderStatus)
    (signal_id : option string) : M S Order.t :=
  let order :=
    Order.mk id timestamp trader_id symbol side quantity price status signal_id None in
  if (0 <? quantity)%Z
     && match price with Some p => Qltb 0 p | None => true end
  then ret order else raise ValidationError.

Module TraderAgent.
(** [orders] holds every [Order] object the trader has built, by address;
    [pending_orders] is the list of the addresses it still tracks.  The
    status of an order is a field of the object, shared by whoever holds
    the address. *)
Record t : Type := mk {
  agent_id : string;
  message_bus : outbox;
  symbols : list string;
  cash : Q;
  max_position_value : Q;
  positions : gmap string Z;
  current_prices : gmap string Q;
  orders : list Order.t;
  pending_orders : list nat;
  order_count : Z
}.

Definition set_message_bus (a : t) (b : outbox) : t :=
  mk (agent_id a) b (symbols a) (cash a) (max_position_value a) (positions a)
     (current_prices a) (orders a) (pending_orders a) (order_count a).
Definition set_cash (a : t) (c : Q) : t :=
  mk (agent_id a) (message_bus a) (symbols a) c (max_position_value a) (positions a)
     (current_prices a) (orders a) (pending_orders a) (order_count a).
Definition set_positions (a : t) (ps : gmap string Z) : t :=
  mk (agent_id a) (message_bus a) (symbols a) (cash a) (max_position_value a) ps
     (current_prices a) (orders a) (pending_orders a) (order_count a).
Definition set_current_prices (a : t) (ps : gmap string Q) : t :=
  mk (agent_id a) (message_bus a) (symbols a) (cash a) (max_position_value a)
     (positions a) ps (orders a) (pending_orders a) (order_count a).
Definition set_orders (a : t) (os : list Order.t) : t :=
  mk (agent_id a) (message_bus a) (symbols a) (cash a) (max_position_value a)
     (positions a) (current_prices a) os (pending_orders a) (order_count a).
Definition set_pending_orders (a : t) (ps : list nat) : t :=
  mk (agent_id a) (message_bus a) (symbols a) (cash a) (max_position_value a)
     (positions a) (current_prices a) (orders a) ps (order_count a).
Definition set_order_count (a : t) (n : Z) : t :=
  mk (agent_id a) (message_bus a) (symbols a) (cash a) (max_position_value a)
     (positions a) (current_prices a) (orders a) (pending_orders a) n.

Definition publish (channel : string) (msg : message) : M t unit :=
  modify (fun self => set_message_bus self (message_bus self ++ [(channel, msg)])).

Definition __init__ (agent_id : string) (message_bus : outbox) (symbols : list string)
    (initial_cash max_position_value : Q) : t :=
  mk agent_id message_bus symbols initial_cash max_position_value
     (list_to_map (map (fun symbol => (symbol, 0%Z)) symbols)) ∅ [] [] 0.

(** [self.pending_orders.append(order)] for a fresh object. *)
Definition append_order (order : Order.t) : M t unit :=
  modify (fun self =>
            set_pending_orders
              (set_orders self (orders self ++ [order]))
              (pending_orders self ++ [length (orders self)])).

(** [next((o for o in self.pending_orders if o.id == order_id), None)] *)
Fixpoint find_order (orders : list Order.t) (order_id : string) (pending : list nat)
    : option nat :=
  match pending with
  | [] => None
  | a :: rest =>
      match orders !! a with
      | Some o =>
          if bool_decide (Order.id o = order_id) then Some a
          else find_order orders order_id rest
      | None => find_order orders order_id rest
      end
  end.

(** [item == value] as [list.remove] tests it: the same object, or equal
    fields. *)
Definition same_order (orders : list Order.t) (item value : nat) : bool :=
  bool_decide (item = value)
  || match orders !! item, orders !! value with
     | Some x, Some y => Order_eqb x y
     | _, _ => false
     end.

(** [self.pending_orders.remove(matching_order)] *)
Definition remove_order (a : nat) : M t unit :=
  let* self := get in
  match py_remove (same_order (orders self)) a (pending_orders self) with
  | Some ps => modify (fun self => set_pending_orders self ps)
  | None => raise ValueError
  end.

(** An assignment to a field of the order object at address [a]. *)
Definition update_order (a : nat) (f : Order.t -> Order.t) : M t unit :=
  modify (fun self =>
            match orders self !! a with
            | Some o => set_orders self (<[a := f o]> (orders self))
            | None => self
            end).

Definition _on_market_update (msg : message) : M t unit :=
  match msg with
  | market_update _ symbol _ _ _ close_price _ =>
      if negb (bool_decide (symbol = "")) && negb (Qeq_bool close_price 0) then
        modify (fun self =>
                  set_current_prices self (<[symbol := close_price]> (current_prices self)))
      else ret tt
  | _ => ret tt
  end.

Definition _place_buy_order (now : Z) (symbol : string) (current_price : Q)
    (signal_id : option string) : M t unit :=
  let* self := get in
  let available_capital :=
    py_min (cash self * (1 # 10))%Q (max_position_value self * (3 # 10))%Q in
  if Qltb available_capital current_price then
    log DEBUG (InsufficientCashFor symbol);;;
    ret tt
  else
    let* ratio := py_div available_capital current_price in
    let quantity := py_int ratio in
    if (quantity <? 1)%Z then ret tt
    else
      modify (fun self => set_order_count self (order_count self + 1)%Z);;;
      let* self := get in
      let* order :=
        Order_new (agent_id self +:+ "_order_" +:+ pretty (order_count self)) now
          (agent_id self) symbol BUY quantity (Some (current_price * (101 # 100))%Q)
          PENDING signal_id in
      append_order order;;;
      publish "orders"
        (order_request (Order.id order) (Order.timestamp order) (Order.trader_id order)
           (Order.symbol order) (side_value (Order.side order)) (Order.quantity order)
           (Order.price order) signal_id);;;
      log INFO (PlacedOrder "BUY" (Order.id order) symbol quantity current_price).

Definition _place_sell_order (now : Z) (symbol : string) (current_price : Q)
    (signal_id : option string) : M t unit :=
  let* self := get in
  let current_position := default 0%Z (positions self !! symbol) in
  if (current_position <=? 0)%Z then ret tt
  else
    let quantity := py_max 1 (py_int (inject_Z current_position * (1 # 2))%Q) in
    modify (fun self => set_order_count self (order_count self + 1)%Z);;;
    let* self := get in
    let* order :=
      Order_new (agent_id self +:+ "_order_" +:+ pretty (order_count self)) now
        (agent_id self) symbol SELL quantity (Some (current_price * (99 # 100))%Q)
        PENDING signal_id in
    append_order order;;;
    publish "orders"
      (order_request (Order.id order) (Order.timestamp order) (Order.trader_id order)
         (Order.symbol order) (side_value (Order.side order)) (Order.quantity order)
         (Order.price order) signal_id);;;
    log INFO (PlacedOrder "SELL" (Order.id order) symbol quantity current_price).

Definition _on_signal (now : Z) (msg : message) : M t unit :=
  match msg with
  | signal signal_id _ _ symbol signal_type confidence =>
      let* self := get in
      if negb (bool_decide (symbol ∈ symbols self)) then ret tt
      else if Qltb confidence (6 # 10) then
        log DEBUG (IgnoringLowConfidence confidence);;;
        ret tt
      else
        match current_prices self !! symbol with
        | None =>
            log WARNING (NoPriceCannotTrade symbol);;;
            ret tt
        | Some current_price =>
            let current_position := default 0%Z (positions self !! symbol) in
            if bool_decide (signal_type = "BULLISH") && Qgtb confidence (65 # 100) then
              let position_value := (inject_Z current_position * current_price)%Q in
              if Qltb position_value (max_position_value self) then
                _place_buy_order now symbol current_price (Some signal_id)
              else ret tt
            else if bool_decide (signal_type = "BEARISH")
                    && Qgtb confidence (65 # 100) then
              if (current_position >? 0)%Z then
                _place_sell_order now symbol current_price (Some signal_id)
              else ret tt
            else ret tt
        end
  | _ => ret tt
  end.

Definition _on_risk_decision (now : Z) (msg : message) : M t unit :=
  match msg with
  | risk_decision order_id approved reason _ =>
      let* self := get in
      match find_order (orders self) order_id (pending_orders self) with
      | None => ret tt
      | Some a =>
          if approved then
            update_order a (fun o => Order.set_status o APPROVED);;;
            let* self := get in
            match orders self !! a with
            | Some matching_order =>
                publish "approved_orders"
                  (order_approved (Order.id matching_order)
                     (Order.trader_id matching_order) (Order.symbol matching_order)
                     (side_value (Order.side matching_order))
                     (Order.quantity matching_order) (Order.price matching_order) now)
            | None => ret tt
            end;;;
            log INFO (OrderApprovedLog order_id)
          else
            update_order a (fun o => Order.set_status o REJECTED);;;
            update_order a (fun o => Order.set_rejection_reason o (Some reason));;;
            remove_order a;;;
            log WARNING (OrderRejectedBecause order_id reason)
      end
  | _ => ret tt
  end.

Definition _on_trade_executed (msg : message) : M t unit :=
  match msg with
  | trade_executed _ order_id symbol side quantity execution_price commission _ _ =>
      let* self := get in
      match find_order (orders self) order_id (pending_orders self) with
      | None => ret tt
      | Some a =>
          (if bool_decide (side = "BUY") then
             modify (fun self =>
                       set_positions self
                         (<[symbol := (default 0 (positions self !! symbol) + quantity)%Z]>
                            (positions self)));;;
             modify (fun self =>
                       set_cash self
                         (cash self - (execution_price * inject_Z quantity + commission))%Q)
           else if bool_decide (side = "SELL") then
             modify (fun self =>
                       set_positions self
                         (<[symbol := (default 0 (positions self !! symbol) - quantity)%Z]>
                            (positions self)));;;
             modify (fun self =>
                       set_cash self
                         (cash self + (execution_price * inject_Z quantity - commission))%Q)
           else ret tt);;;
          remove_order a;;;
          let* self := get in
          (* the log line reads [self.positions[symbol]] *)
          match positions self !! symbol with
          | Some _ => log INFO (TradeExecutedLog order_id)
          | None => raise KeyError
          end
      end
  | _ => ret tt
  end.

(** What the trader does with a message delivered on a channel it is
    subscribed to. *)
Definition deliver (now : Z) (channel : string) (msg : message) : M t unit :=
  if bool_decide (channel = "signals") then _on_signal now msg
  else if bool_decide (channel = "market_data") then _on_market_update msg
  else if bool_decide (channel = "risk_decisions") then _on_risk_decision now msg
  else if bool_decide (channel = "trades") then _on_trade_executed msg
  else ret tt.

Definition get_portfolio_value (self : t) : Q :=
  (cash self
   + py_sum (map (fun '(symbol, qty) =>
                    inject_Z qty * default 0%Q (current_prices self !! symbol))%Q
               (map_to_list (positions self))))%Q.
End TraderAgent.

(** ** agents/analyst_agent.py *)

Inductive SignalType : Type := BULLISH | BEARISH | NEUTRAL.

Definition signal_type_value (s : SignalType) : string :=
  match s with BULLISH => "BULLISH" | BEARISH => "BEARISH" | NEUTRAL => "NEUTRAL" end.

(** [abs(x)] on a float. *)
Definition py_abs (x : Q) : Q := if Qltb x 0 then (- x)%Q else x.

Module Signal.
Record t : Type := mk {
  id : string;
  timestamp : Z;
  agent_id : string;
  symbol : string;
  signal_type : SignalType;
  confidence : Q;
  reasoning : option fstring
}.

(** The field constraint of the model: [confidence] ge 0 and le 1. *)
Definition validb (s : t) : bool :=
  Qle_bool 0 (confidence s) && Qle_bool (confidence s) 1.
End Signal.

(** [Signal(...)]: the model validates its fields when it is built. *)
Definition Signal_new {S} (id : string) (timestamp : Z) (agent_id symbol : string)
    (signal_type : SignalType) (confidence : Q) (reasoning : option fstring)
    : M S Signal.t :=
  let s := Signal.mk id timestamp agent_id symbol signal_type confidence reasoning in
  if Signal.validb s then ret s else raise ValidationError.

Module News.
Record t : Type := mk {
  id : string;
  timestamp : Z;
  symbol : string;
  headline : string;
  content : option string;
  source : string;
  sentiment_score : option Q
}.
End News.

(** The analyst.  Its [logger] lines are not modelled: a method of this
    class yields no log record.  The [reasoning] text of a signal is a
    field of the [Signal] object; the [signal] message of this model
    carries the entries a subscriber reads, and not that text. *)
Module AnalystAgent.
Record t : Type := mk {
  agent_id : string;
  message_bus : outbox;
  symbols : list string;
  news_cache : list News.t;
  signal_count : Z
}.

Definition set_message_bus (a : t) (b : outbox) : t :=
  mk (agent_id a) b (symbols a) (news_cache a) (signal_count a).
Definition set_signal_count (a : t) (n : Z) : t :=
  mk (agent_id a) (message_bus a) (symbols a) (news_cache a) n.

Definition publish (channel : string) (msg : message) : M t unit :=
  modify (fun self => set_message_bus self (message_bus self ++ [(channel, msg)])).

Definition __init__ (agent_id : string) (message_bus : outbox) (symbols : list string)
    : t :=
  mk agent_id message_bus symbols [] 0.

(** The tail shared by [_generate_signal] and [_generate_signal_from_news]:
    count, build the [Signal], publish it. *)
Definition emit (timestamp : Z) (symbol : string) (signal_type : SignalType)
    (confidence : Q) (reasoning : fstring) : M t unit :=
  modify (fun self => set_signal_count self (signal_count self + 1)%Z);;;
  let* self := get in
  let* sig :=
    Signal_new (agent_id self +:+ "_signal_" +:+ pretty (signal_count self)) timestamp
      (agent_id self) symbol signal_type confidence (Some reasoning) in
  publish "signals"
    (signal (Signal.id sig) (Signal.timestamp sig) (Signal.agent_id sig)
       (Signal.symbol sig) (signal_type_value (Signal.signal_type sig))
       (Signal.confidence sig)).

(** [timestamp] is the text of the message when there is one; [now] is
    [datetime.utcnow()]. *)
Definition _generate_signal (now : Z) (symbol : string) (price_change : Q)
    (timestamp : option Z) : M t unit :=
  if Qltb (py_abs price_change) (1 # 100) then ret tt
  else
    let '(signal_type, confidence, reasoning) :=
      if Qgtb price_change (2 # 100) then
        (BULLISH, py_min (9 # 10) ((5 # 10) + py_abs price_change * 10)%Q,
         [Lit "Strong upward momentum: "; Fmt2f (price_change * 100)%Q; Lit "%"])
      else if Qltb price_change (- (2 # 100)) then
        (BEARISH, py_min (9 # 10) ((5 # 10) + py_abs price_change * 10)%Q,
         [Lit "Downward pressure: "; Fmt2f (price_change * 100)%Q; Lit "%"])
      else
        (NEUTRAL, (3 # 10)%Q,
         [Lit "Minimal movement: "; Fmt2f (price_change * 100)%Q; Lit "%"]) in
    emit (match timestamp with Some ts => ts | None => now end) symbol signal_type
      confidence reasoning.

(** [draw] is the value of [random.random()]. *)
Definition _on_market_update (now : Z) (draw : Q) (msg : message) : M t unit :=
  match msg with
  | market_update timestamp symbol open_price _ _ close_price _ =>
      let* self := get in
      if negb (bool_decide (symbol ∈ symbols self)) then ret tt
      else if Qeq_bool close_price 0 || Qeq_bool open_price 0 then ret tt
      else
        let* price_change := py_div (close_price - open_price) open_price in
        if Qltb draw (3 # 10) then
          _generate_signal now symbol price_change (Some timestamp)
        else ret tt
  | _ => ret tt
  end.

Definition _generate_signal_from_news (now : Z) (news : News.t) : M t unit :=
  match News.sentiment_score news with
  | None => ret tt
  | Some sentiment_score =>
      let reasoning :=
        [Lit "News sentiment: "; Lit (String.substring 0 50 (News.headline news)); Lit "..."] in
      if Qgtb sentiment_score (3 # 10) then
        emit now (News.symbol news) BULLISH
          (py_min (85 # 100) ((5 # 10) + sentiment_score * (5 # 10))%Q) reasoning
      else if Qltb sentiment_score (- (3 # 10)) then
        emit now (News.symbol news) BEARISH
          (py_min (85 # 100) ((5 # 10) + py_abs sentiment_score * (5 # 10))%Q) reasoning
      else ret tt
  end.
End AnalystAgent.

(** ** agents/reporter_agent.py *)

(** [max(a, b)] on floats. *)
Definition py_maxQ (a b : Q) : Q := if Qgtb b a then b else a.

(** The reporter.  Its handlers only update its fields and are state
    transformers; its [logger] lines and the files it writes are not
    modelled.  The dicts it stores are records of their entries. *)
Module ReporterAgent.
Record trade_row : Type := mk_trade_row {
  tr_trade_id : string;
  tr_order_id : string;
  tr_timestamp : Z;
  tr_symbol : string;
  tr_side : string;
  tr_quantity : Z;
  tr_execution_price : Q;
  tr_commission : Q;
  tr_trader_id : string
}.

Record decision_row : Type := mk_decision_row {
  dr_order_id : string;
  dr_approved : bool;
  dr_reason : fstring;
  dr_timestamp : Z
}.

Record stop_loss_row : Type := mk_stop_loss_row {
  sl_trader_id : string;
  sl_symbol : string;
  sl_quantity : Z;
  sl_avg_cost : Q;
  sl_current_price : Q;
  sl_loss_percent : Q;
  sl_timestamp : Z
}.

Record snapshot : Type := mk_snapshot {
  sn_date : Z;
  sn_total_value : Q;
  sn_realized_pnl : Q;
  sn_unrealized_pnl : Q
}.

Record stats : Type := mk_stats {
  total_trades : Z;
  buy_orders : Z;
  sell_orders : Z;
  approved_orders : Z;
  rejected_orders : Z;
  stop_losses_triggered : Z
}.

Record t : Type := mk {
  agent_id : string;
  trades : list trade_row;
  stop_losses : list stop_loss_row;
  risk_decisions : list decision_row;
  portfolio_snapshots : list snapshot;
  daily_stats : stats
}.

Definition __init__ (agent_id : string) : t :=
  mk agent_id [] [] [] [] (mk_stats 0 0 0 0 0 0).

Definition _on_trade (msg : message) (self : t) : t :=
  match msg with
  | trade_executed trade_id order_id symbol side quantity execution_price commission
      timestamp trader_id =>
      let s := daily_stats self in
      mk (agent_id self)
        (trades self
         ++ [mk_trade_row trade_id order_id timestamp symbol side quantity
               execution_price commission trader_id])
        (stop_losses self) (risk_decisions self) (portfolio_snapshots self)
        (mk_stats (total_trades s + 1)
           (if bool_decide (side = "BUY") then buy_orders s + 1 else buy_orders s)
           (if bool_decide (side = "BUY") then sell_orders s
            else if bool_decide (side = "SELL") then sell_orders s + 1
                 else sell_orders s)
           (approved_orders s) (rejected_orders s) (stop_losses_triggered s))
  | _ => self
  end.

Definition _on_risk_decision (msg : message) (self : t) : t :=
  match msg with
  | risk_decision order_id approved reason timestamp =>
      let s := daily_stats self in
      mk (agent_id self) (trades self) (stop_losses self)
        (risk_decisions self ++ [mk_decision_row order_id approved reason timestamp])
        (portfolio_snapshots self)
        (mk_stats (total_trades s) (buy_orders s) (sell_orders s)
           (if approved then approved_orders s + 1 else approved_orders s)
           (if approved then rejected_orders s else rejected_orders s + 1)
           (stop_losses_triggered s))
  | _ => self
  end.

Definition _on_stop_loss (msg : message) (self : t) : t :=
  match msg with
  | stop_loss trader_id symbol quantity avg_cost current_price loss_percent timestamp =>
      let s := daily_stats self in
      mk (agent_id self) (trades self)
        (stop_losses self
         ++ [mk_stop_loss_row trader_id symbol quantity avg_cost current_price
               loss_percent timestamp])
        (risk_decisions self) (portfolio_snapshots self)
        (mk_stats (total_trades s) (buy_orders s) (sell_orders s) (approved_orders s)
           (rejected_orders s) (stop_losses_triggered s + 1))
  | _ => self
  end.

Definition _on_portfolio_update (msg : message) (self : t) : t :=
  match msg with
  | portfolio_snapshot date total_value realized_pnl unrealized_pnl =>
      mk (agent_id self) (trades self) (stop_losses self) (risk_decisions self)
        (portfolio_snapshots self
         ++ [mk_snapshot date total_value realized_pnl unrealized_pnl])
        (daily_stats self)
  | _ => self
  end.

(** The body of [for value in values]. *)
Fixpoint drawdown_loop (values : list Q) (peak max_dd : Q) : Q :=
  match values with
  | [] => max_dd
  | value :: rest =>
      let peak := if Qgtb value peak then value else peak in
      let dd := if Qgtb peak 0 then ((peak - value) / peak)%Q else 0%Q in
      drawdown_loop rest peak (py_maxQ max_dd dd)
  end.

Definition _calculate_max_drawdown (self : t) : Q :=
  if (length (portfolio_snapshots self) <? 2)%nat then 0%Q
  else
    let values := map sn_total_value (portfolio_snapshots self) in
    match values with
    | first :: _ => drawdown_loop values first 0
    | [] => 0%Q (* not reached: there are two snapshots or more *)
    end.

(** The dict [generate_daily_report] returns. *)
Record report : Type := mk_report {
  r_date : Z;
  r_timestamp : Z;
  r_total_portfolio_value : Q;
  r_realized_pnl : Q;
  r_unrealized_pnl : Q;
  r_total_pnl : Q;
  r_total_trades : Z;
  r_buy_orders : Z;
  r_sell_orders : Z;
  r_approved_orders : Z;
  r_rejected_orders : Z;
  r_rejected_orders_pct : Q;
  r_stop_losses_triggered : Z;
  r_max_drawdown : Q;
  r_trades : list trade_row;
  r_stop_losses : list stop_loss_row;
  r_rejected : list decision_row
}.

Definition generate_daily_report (now simulation_date : Z) (self : t) : report :=
  let '(total_value, realized_pnl, unrealized_pnl) :=
    match last (portfolio_snapshots self) with
    | Some latest_snapshot =>
        (sn_total_value latest_snapshot, sn_realized_pnl latest_snapshot,
         sn_unrealized_pnl latest_snapshot)
    | None => (0%Q, 0%Q, 0%Q)
    end in
  let s := daily_stats self in
  let total_orders := (approved_orders s + rejected_orders s)%Z in
  let rejected_orders_pct :=
    if (total_orders >? 0)%Z
    then (inject_Z (rejected_orders s) / inject_Z total_orders * 100)%Q
    else 0%Q in
  mk_report simulation_date now total_value realized_pnl unrealized_pnl
    (realized_pnl + unrealized_pnl)%Q (total_trades s) (buy_orders s) (sell_orders s)
    (approved_orders s) (rejected_orders s) rejected_orders_pct
    (stop_losses_triggered s) (_calculate_max_drawdown self) (trades self)
    (stop_losses self) (filter (fun dec => dr_approved dec = false) (risk_decisions self)).
End ReporterAgent.

(** ** src/main.py *)

(** [OrderSide[name]] *)
Definition OrderSide_getitem {S} (name : string) : M S OrderSide :=
  if bool_decide (name = "BUY") then ret BUY
  else if bool_decide (name = "SELL") then ret SELL
  else raise KeyError.

(** [l[start:end]] for two non-negative indices. *)
Definition py_slice {A} (l : list A) (start_idx end_idx : nat) : list A :=
  take (end_idx - start_idx) (drop start_idx l).

Inductive agent : Type :=
| Analyst (a : AnalystAgent.t)
| Trader (a : TraderAgent.t)
| RiskManager (a : RiskManagerAgent.t)
| Reporter (a : ReporterAgent.t).

(** The simulation.  The module's [logger] lines are not modelled. *)
Module TradingSimulation.

(** The symbols of the [i]-th of the agents that share the list, when
    each gets [per_agent] of them. *)
Definition agent_symbols (symbols : list string) (per_agent i : nat) : list string :=
  let start_idx := (i * per_agent)%nat in
  let end_idx := Nat.min ((i + 1) * per_agent) (length symbols) in
  py_slice symbols start_idx end_idx.

(** The agents [_create_agents] appends to [self.agents], in order.  The
    method ends by subscribing [_on_approved_order] to the channel
    [approved_orders]. *)
Definition _create_agents (message_bus : outbox) (symbols : list string)
    (initial_cash : Q) : list agent :=
  let symbols_per_analyst := (length symbols / 3 + 1)%nat in
  let analysts :=
    map (fun i =>
           Analyst (AnalystAgent.__init__ ("analyst_" +:+ pretty (Z.of_nat i + 1)%Z)
                      message_bus (agent_symbols symbols symbols_per_analyst i)))
      (seq 0 3) in
  let symbols_per_trader := (length symbols / 4 + 1)%nat in
  let traders :=
    map (fun i =>
           Trader (TraderAgent.__init__ ("trader_" +:+ pretty (Z.of_nat i + 1)%Z)
                     message_bus (agent_symbols symbols symbols_per_trader i)
                     (initial_cash / 4)%Q 20000))
      (seq 0 4) in
  let risk_managers :=
    map (fun i =>
           RiskManager
             (RiskManagerAgent.__init__ ("risk_manager_" +:+ pretty (Z.of_nat i + 1)%Z)
                message_bus initial_cash 50000 (5 # 100) (20 # 100)))
      (seq 0 2) in
  analysts ++ traders ++ risk_managers ++ [Reporter (ReporterAgent.__init__ "reporter_1")].

(** The handler of the approved orders: it acts on [self.market_env]. *)
Definition _on_approved_order (msg : message) : M MarketEnvironment.t unit :=
  match msg with
  | order_approved order_id trader_id symbol side quantity price timestamp =>
      let* side := OrderSide_getitem side in
      let* order :=
        Order_new order_id timestamp trader_id symbol side quantity price APPROVED None in
      MarketEnvironment.submit_order order
  | _ => ret tt
  end.

(** The sum [run] makes over the traders among the agents. *)
Definition portfolio_value (agents : list agent) : Q :=
  fold_left (fun acc a =>
               match a with
               | Trader t => (acc + TraderAgent.get_portfolio_value t)%Q
               | _ => acc
               end) agents 0%Q.

(** The message [run] publishes on [portfolio_update] every tenth day. *)
Definition snapshot_message (trading_day : Z) (agents : list agent) : message :=
  portfolio_snapshot trading_day (portfolio_value agents) 0 0.
End TradingSimulation.

(** * Specification vocabulary *)

(** The object a call leaves behind, its result and its log. *)
Definition state_of {S A} (x : result A * S * list log_record) : S := snd (fst x).
Definition result_of {S A} (x : result A * S * list log_record) : result A := fst (fst x).
Definition logs_of {S A} (x : result A * S * list log_record) : list log_record := snd x.

(** ** Ledger *)

(** [sum(f(pos) for pos in positions.values())] *)
Definition sum_over (f : Position.t -> Q) (m : gmap string Position.t) : Q :=
  py_sum (map f (map snd (map_to_list m))).

(** A stored position is well formed: it holds shares, and its stored
    unrealized PnL is the one of its stored price. *)
Definition position_ok (pos : Position.t) : Prop :=
  (0 < Position.quantity pos)%Z /\
  (Position.unrealized_pnl pos ==
   (Position.current_price pos - Position.avg_cost pos)
   * inject_Z (Position.quantity pos))%Q.

Definition cost_basis (m : gmap string Position.t) : Q :=
  sum_over (fun pos => Position.avg_cost pos * inject_Z (Position.quantity pos))%Q m.

(** Commissions of the fills that were applied. *)
Definition commissions_paid (p : Portfolio.t) : Q :=
  py_sum (map Trade.commission (Portfolio.trades_history p)).

Definition ledger_inv (p : Portfolio.t) : Prop :=
  map_Forall (fun _ pos => position_ok pos) (Portfolio.positions p) /\
  (Portfolio.cash p + cost_basis (Portfolio.positions p) ==
   Portfolio.initial_cash p + Portfolio.realized_pnl p - commissions_paid p)%Q.

(** The calls a ledger's owner can make on it. *)
Inductive ledger_call : Type :=
| CallExecuteTrade (trade : Trade.t)
| CallUpdatePrice (symbol : string) (current_price : Q)
| CallUpdateAllPrices (prices : gmap string Q)
| CallGetTotalValue (current_prices : option (gmap string Q))
| CallGetSummary.

Definition run_call (c : ledger_call) (p : Portfolio.t) : Portfolio.t :=
  match c with
  | CallExecuteTrade trade => state_of (Portfolio.execute_trade trade p)
  | CallUpdatePrice symbol price => Portfolio.update_price p symbol price
  | CallUpdateAllPrices prices => Portfolio.update_all_prices p prices
  | CallGetTotalValue prices => state_of (Portfolio.get_total_value prices p)
  | CallGetSummary => state_of (Portfolio.get_summary p)
  end.

Definition run_calls (cs : list ledger_call) (p : Portfolio.t) : Portfolio.t :=
  fold_left (fun p c => run_call c p) cs p.

(** Trades are validated when they are built. *)
Definition call_valid (c : ledger_call) : Prop :=
  match c with
  | CallExecuteTrade trade => Trade.valid trade
  | _ => True
  end.

(** The value [get_total_value()] returns when no prices are passed. *)
Definition total_value (p : Portfolio.t) : Q :=
  (Portfolio.cash p + Portfolio.positions_value p)%Q.

(** The accounting identity as the specification words it. *)
Definition pnl_identity (p : Portfolio.t) : Prop :=
  (total_value p - Portfolio.initial_cash p ==
   Portfolio.realized_pnl p + Portfolio.get_unrealized_pnl p)%Q.

(** One share bought at 100 with a commission of 1, on a ledger of 1000. *)
Definition commission_buy : Trade.t :=
  Trade.mk "trade_o1" 0 "o1" "AAPL" BUY 1 100 1 "trader_1".

(** Ten shares held at an average cost of 100, priced at 100. *)
Definition held_ledger : Portfolio.t :=
  Portfolio.mk 2000 1000
    {[ "AAPL" := Position.mk "AAPL" 10 100 100 0 ]} 0 [].

(** A sale of [q] shares at 110 without commission. *)
Definition sale_of (q : Z) : Trade.t :=
  Trade.mk "trade_o2" 0 "o2" "AAPL" SELL q 110 0 "trader_1".

(** Five more shares bought at 130 with a commission of 2. *)
Definition second_buy : Trade.t :=
  Trade.mk "trade_o3" 0 "o3" "AAPL" BUY 5 130 2 "trader_1".

(** A buy, a price move and a partial sale. *)
Definition sample_calls : list ledger_call :=
  [CallExecuteTrade commission_buy; CallExecuteTrade second_buy;
   CallUpdatePrice "AAPL" 90; CallExecuteTrade (sale_of 3);
   CallGetTotalValue None].

(** A fresh quote of 110 for the held symbol. *)
Definition fresh_quotes : gmap string Q := {[ "AAPL" := 110%Q ]}.

(** ** Execution engine *)

(** An order the sweep executes: its symbol has a price and its limit, if
    it has one, does not hold it back. *)
Definition executable (e : MarketEnvironment.t) (o : Order.t) : bool :=
  match MarketEnvironment.current_prices e !! Order.symbol o with
  | Some execution_price => negb (MarketEnvironment.limit_blocks o execution_price)
  | None => false
  end.

(** The trade the sweep builds for an order at a price. *)
Definition fill_of (e : MarketEnvironment.t) (ts : Z) (o : Order.t)
    (execution_price : Q) : Trade.t :=
  Trade.mk ("trade_" +:+ Order.id o) ts (Order.id o) (Order.symbol o) (Order.side o)
    (Order.quantity o) execution_price
    (execution_price * inject_Z (Order.quantity o)
     * MarketEnvironment.commission_rate e)%Q
    (Order.trader_id o).

Definition fill_for (e : MarketEnvironment.t) (o : Order.t) : option Trade.t :=
  match MarketEnvironment.current_time e,
        MarketEnvironment.current_prices e !! Order.symbol o with
  | Some ts, Some execution_price =>
      if MarketEnvironment.limit_blocks o execution_price then None
      else Some (fill_of e ts o execution_price)
  | _, _ => None
  end.

(** The fills of a queue: one per executable order, in queue order. *)
Definition fills (e : MarketEnvironment.t) (os : list Order.t) : list Trade.t :=
  omap (fill_for e) os.

Definition trade_message (t : Trade.t) : message :=
  trade_executed (Trade.id t) (Trade.order_id t) (Trade.symbol t)
    (side_value (Trade.side t)) (Trade.quantity t) (Trade.execution_price t)
    (Trade.commission t) (Trade.timestamp t) (Trade.trader_id t).

Definition broadcasts (ts : list Trade.t) : outbox :=
  map (fun t => ("trades", trade_message t)) ts.

(** What holds of an engine built by its constructor and driven through
    [advance_time], [submit_order] and [execute_pending_orders] with
    validated data: the clock is set once there are prices, prices are
    positive, queued orders have a positive quantity.  The commission rate
    is a constructor argument and is taken non-negative. *)
Definition engine_ok (e : MarketEnvironment.t) : Prop :=
  (0 <= MarketEnvironment.commission_rate e)%Q /\
  (MarketEnvironment.current_time e = None -> MarketEnvironment.current_prices e = ∅) /\
  map_Forall (fun _ p => 0 < p)%Q (MarketEnvironment.current_prices e) /\
  Forall Order.valid (MarketEnvironment.pending_orders e).

(** The engine after a sweep, as the specification describes it. *)
Definition swept (e : MarketEnvironment.t) : MarketEnvironment.t :=
  let done := fills e (MarketEnvironment.pending_orders e) in
  MarketEnvironment.mk
    (MarketEnvironment.message_bus e ++ broadcasts done)
    (MarketEnvironment.commission_rate e)
    (MarketEnvironment.current_time e)
    (MarketEnvironment.current_prices e)
    (filter (fun o => executable e o = false) (MarketEnvironment.pending_orders e))
    (MarketEnvironment.executed_trades e ++ done)
    (MarketEnvironment.data_by_date e).

(** The engine with its three mutable parts replaced. *)
Definition with_queue (e : MarketEnvironment.t) (bus : outbox)
    (pending : list Order.t) (trades : list Trade.t) : MarketEnvironment.t :=
  MarketEnvironment.mk bus (MarketEnvironment.commission_rate e)
    (MarketEnvironment.current_time e) (MarketEnvironment.current_prices e)
    pending trades (MarketEnvironment.data_by_date e).

(** A priced session with three queued orders: a market buy, a limit buy
    below the market, and an order for a symbol without a price. *)
Definition approved_order (id symbol : string) (side : OrderSide) (quantity : Z)
    (price : option Q) : Order.t :=
  Order.mk id 0 "trader_1" symbol side quantity price APPROVED None None.

Definition sample_engine : MarketEnvironment.t :=
  MarketEnvironment.mk [] (1 # 1000) (Some 7%Z) {[ "AAPL" := 100%Q ]}
    [approved_order "o1" "AAPL" BUY 10 None;
     approved_order "o2" "AAPL" BUY 5 (Some 99%Q);
     approved_order "o3" "MSFT" SELL 5 None]
    [] ∅.

Definition pending_order : Order.t :=
  Order.mk "o4" 0 "trader_1" "AAPL" BUY 10 None PENDING None None.

(** ** Risk validator *)

(** The outcome of one admission check: [None] when the order passes it,
    the rejection reason when it fails. *)
Definition check : Type := option fstring.

Definition shadowed_cash (self : RiskManagerAgent.t) (trader_id : string) : Q :=
  default (RiskManagerAgent.initial_portfolio_value self / 4)%Q
    (RiskManagerAgent.trader_cash self !! trader_id).

Definition held_quantity (self : RiskManagerAgent.t) (trader_id symbol : string) : Z :=
  match od_get (RiskManagerAgent.trader_key trader_id symbol)
          (RiskManagerAgent.current_positions self) with
  | Some pos => ShadowPosition.quantity pos
  | None => 0%Z
  end.

(** (1) price availability *)
Definition check_price (self : RiskManagerAgent.t) (symbol : string) : check :=
  match RiskManagerAgent.current_prices self !! symbol with
  | None => Some [Lit "No market data available for symbol"]
  | Some _ => None
  end.

(** (2) position-size cap *)
Definition check_position_size (self : RiskManagerAgent.t) (quantity : Z)
    (known_price : Q) : check :=
  let order_value := (inject_Z quantity * known_price)%Q in
  if Qgtb order_value (RiskManagerAgent.max_position_size self) then
    Some [Lit "Order value $"; Fmt2f order_value;
          Lit " exceeds max position size $";
          Fmt2f (RiskManagerAgent.max_position_size self)]
  else None.

(** (3) cash sufficiency, BUY only *)
Definition check_cash (self : RiskManagerAgent.t) (trader_id side : string)
    (quantity : Z) (known_price : Q) : check :=
  let order_value := (inject_Z quantity * known_price)%Q in
  if bool_decide (side = "BUY") && Qgtb order_value (shadowed_cash self trader_id) then
    Some [Lit "Insufficient cash: need $"; Fmt2f order_value;
          Lit ", have $"; Fmt2f (shadowed_cash self trader_id)]
  else None.

(** (4) share sufficiency, SELL only *)
Definition check_shares (self : RiskManagerAgent.t) (trader_id symbol side : string)
    (quantity : Z) : check :=
  if bool_decide (side = "SELL")
     && (quantity >? held_quantity self trader_id symbol)%Z then
    Some [Lit "Insufficient shares: trying to sell "; FmtInt quantity;
          Lit ", have "; FmtInt (held_quantity self trader_id symbol)]
  else None.

(** (5) portfolio exposure cap, BUY only *)
Definition check_exposure (self : RiskManagerAgent.t) (side : string)
    (quantity : Z) (known_price : Q) : check :=
  let order_value := (inject_Z quantity * known_price)%Q in
  let max_allowed :=
    (RiskManagerAgent.initial_portfolio_value self
     * RiskManagerAgent.max_portfolio_risk self)%Q in
  if bool_decide (side = "BUY")
     && Qgtb (RiskManagerAgent.total_exposure self + order_value) max_allowed then
    Some [Lit "Portfolio risk limit exceeded: $";
          Fmt2f (RiskManagerAgent.total_exposure self + order_value)%Q;
          Lit " > $"; Fmt2f max_allowed]
  else None.

(** The five checks in their order.  Without a price the later four have
    nothing to compute with; the first one has failed by then. *)
Definition admission_checks (self : RiskManagerAgent.t)
    (trader_id symbol side : string) (quantity : Z) : list check :=
  check_price self symbol ::
  match RiskManagerAgent.current_prices self !! symbol with
  | Some known_price =>
      [check_position_size self quantity known_price;
       check_cash self trader_id side quantity known_price;
       check_shares self trader_id symbol side quantity;
       check_exposure self side quantity known_price]
  | None => []
  end.

(** First failing check wins; no failing check approves. *)
Fixpoint first_failure (checks : list check) : bool * fstring :=
  match checks with
  | [] => (true, [Lit "Order approved"])
  | Some reason :: _ => (false, reason)
  | None :: rest => first_failure rest
  end.

(** ** Stop-loss sweep *)

Definition loss_percent (avg_cost current_price : Q) : Q :=
  ((avg_cost - current_price) / avg_cost)%Q.

(** The alert the sweep owes for a position, if any. *)
Definition alert_for (self : RiskManagerAgent.t) (now : Z)
    (pos : ShadowPosition.t) : option message :=
  match RiskManagerAgent.current_prices self !! ShadowPosition.symbol pos with
  | Some current_price =>
      let loss := loss_percent (ShadowPosition.avg_cost pos) current_price in
      if Qgtb loss (RiskManagerAgent.stop_loss_percent self) then
        Some (stop_loss (ShadowPosition.trader_id pos) (ShadowPosition.symbol pos)
                (ShadowPosition.quantity pos) (ShadowPosition.avg_cost pos)
                current_price loss now)
      else None
  | None => None
  end.

Definition alerts (self : RiskManagerAgent.t) (now : Z) : list message :=
  omap (alert_for self now) (od_values (RiskManagerAgent.current_positions self)).

Definition on_alert_channel (ms : list message) : outbox :=
  map (fun m => ("stop_loss_alerts", m)) ms.

(** What the trade handler maintains of the shadow: every shadowed
    position holds shares at a positive average cost. *)
Definition shadow_position_ok (pos : ShadowPosition.t) : Prop :=
  (0 < ShadowPosition.quantity pos)%Z /\ (0 < ShadowPosition.avg_cost pos)%Q.

Definition shadow_ok (self : RiskManagerAgent.t) : Prop :=
  Forall shadow_position_ok (od_values (RiskManagerAgent.current_positions self)).

(** Scenario: ten shares bought at 100, then a close of 90, under a
    stop-loss threshold of 5%. *)
Definition scenario_buy : Trade.t :=
  Trade.mk "trade_o1" 1 "o1" "AAPL" BUY 10 100 1 "trader_1".

Definition scenario_risk_manager : RiskManagerAgent.t :=
  let r0 :=
    RiskManagerAgent.__init__ "risk_manager_1" [] 1000000 50000 (5 # 100) (20 # 100) in
  let r1 := state_of (RiskManagerAgent._on_trade_executed (trade_message scenario_buy) r0) in
  state_of (RiskManagerAgent._on_market_update
              (market_update 2 "AAPL" 95 96 89 90 1000) r1).

(** ** Agent lifecycle *)

(** The registry entries an agent's [_setup_subscriptions] adds. *)
Definition registrations `{AgentClass} (agent_id : string)
    : list (string * (string * string)) :=
  map (fun '(channel, handler) => (channel, (agent_id, handler))) _setup_subscriptions.

(** Tasks of the loop that are still running. *)
Definition active_loops (a : BaseAgent.t) : nat :=
  length (filter (fun t => t = TaskRunning) (BaseAgent.loop_tasks a)).

Definition fresh_trader_runtime : BaseAgent.t := BaseAgent.__init__ "trader_1" [] [].

(** ** Order status *)

(** The edges of the state machine of the specification. *)
Definition fsm_edge (s s' : OrderStatus) : Prop :=
  (s = PENDING /\ s' = APPROVED) \/ (s = PENDING /\ s' = REJECTED) \/
  (s = APPROVED /\ s' = EXECUTED) \/ (s = APPROVED /\ s' = CANCELLED).

(** The edges the trader's handlers take. *)
Definition trader_edge (s s' : OrderStatus) : Prop :=
  (s = PENDING /\ s' = APPROVED) \/ (s = PENDING /\ s' = REJECTED) \/
  (s = APPROVED /\ s' = REJECTED).

(** Every two consecutive items are related. *)
Fixpoint chain {A} (R : A -> A -> Prop) (l : list A) : Prop :=
  match l with
  | x :: (y :: _) as t => R x y /\ chain R t
  | _ => True
  end.

(** The steps of a trace at which the value changes. *)
Fixpoint changes (l : list OrderStatus) : list (OrderStatus * OrderStatus) :=
  match l with
  | x :: (y :: _) as t => if decide (x = y) then changes t else (x, y) :: changes t
  | _ => []
  end.

Definition rank (s : OrderStatus) : nat :=
  match s with
  | PENDING => 0
  | APPROVED => 1
  | REJECTED => 2
  | EXECUTED => 3
  | CANCELLED => 3
  end.

(** A delivery to the trader: the time it happens, the channel, the
    message. *)
Definition delivery : Type := Z * string * message.

Definition deliver_to (st : TraderAgent.t) (d : delivery) : TraderAgent.t :=
  let '(now, channel, msg) := d in
  state_of (TraderAgent.deliver now channel msg st).

(** The states the trader goes through, the first one included. *)
Fixpoint run_trader (ds : list delivery) (st : TraderAgent.t) : list TraderAgent.t :=
  st :: match ds with
        | [] => []
        | d :: ds' => run_trader ds' (deliver_to st d)
        end.

Definition status_at (st : TraderAgent.t) (a : nat) : option OrderStatus :=
  Order.status <$> TraderAgent.orders st !! a.

(** The statuses of the order object at address [a] along a run. *)
Definition status_trace (ds : list delivery) (st : TraderAgent.t) (a : nat)
    : list OrderStatus :=
  omap (fun st => status_at st a) (run_trader ds st).

(** The tracked orders are distinct objects that exist and are undecided
    or approved. *)
Definition trader_inv (st : TraderAgent.t) : Prop :=
  NoDup (TraderAgent.pending_orders st) /\
  forall a, a ∈ TraderAgent.pending_orders st ->
    exists o, TraderAgent.orders st !! a = Some o /\
              (Order.status o = PENDING \/ Order.status o = APPROVED).

(** A trader that has seen a price of 100 and a bullish signal, and has
    placed its first order. *)
Definition placed_trader : TraderAgent.t :=
  let t0 := TraderAgent.__init__ "trader_1" [] ["AAPL"] 100000 20000 in
  let t1 := deliver_to t0 (1%Z, "market_data", market_update 1 "AAPL" 99 101 98 100 1000) in
  deliver_to t1 (2%Z, "signals", signal "sig_1" 2 "analyst_1" "AAPL" "BULLISH" (8 # 10)).

(** Two risk decisions for that order: an approval, then a rejection. *)
Definition conflicting_decisions : list delivery :=
  [(3%Z, "risk_decisions", risk_decision "trader_1_order_1" true [Lit "Order approved"] 3);
   (4%Z, "risk_decisions",
    risk_decision "trader_1_order_1" false
      [Lit "No market data available for symbol"] 4)].

(** What one delivery can do to the order objects and to the list of
    tracked orders. *)
Inductive effect (st st' : TraderAgent.t) : Prop :=
| effect_none :
    TraderAgent.orders st' = TraderAgent.orders st ->
    TraderAgent.pending_orders st' = TraderAgent.pending_orders st ->
    effect st st'
| effect_placed (o : Order.t) :
    Order.status o = PENDING ->
    TraderAgent.orders st' = TraderAgent.orders st ++ [o] ->
    TraderAgent.pending_orders st' =
    TraderAgent.pending_orders st ++ [length (TraderAgent.orders st)] ->
    effect st st'
| effect_approved (a : nat) (o : Order.t) :
    a ∈ TraderAgent.pending_orders st ->
    TraderAgent.orders st !! a = Some o ->
    TraderAgent.orders st' = <[a := Order.set_status o APPROVED]> (TraderAgent.orders st) ->
    TraderAgent.pending_orders st' = TraderAgent.pending_orders st ->
    effect st st'
| effect_rejected (a : nat) (o : Order.t) (reason : fstring) (pre post : list nat) :
    TraderAgent.pending_orders st = pre ++ a :: post ->
    TraderAgent.orders st !! a = Some o ->
    TraderAgent.orders st' =
    <[a := Order.set_rejection_reason (Order.set_status o REJECTED) (Some reason)]>
      (TraderAgent.orders st) ->
    TraderAgent.pending_orders st' = pre ++ post ->
    effect st st'
| effect_filled (a : nat) (pre post : list nat) :
    TraderAgent.pending_orders st = pre ++ a :: post ->
    TraderAgent.orders st' = TraderAgent.orders st ->
    TraderAgent.pending_orders st' = pre ++ post ->
    effect st st'.

(** One step of a status: it stays, or moves along an edge of the trader. *)
Definition trader_step (s s' : OrderStatus) : Prop := s = s' \/ trader_edge s s'.

(** The same for the state machine of the specification. *)
Definition fsm_step (s s' : OrderStatus) : Prop := s = s' \/ fsm_edge s s'.

(** What a later status can be, given an earlier one. *)
Definition later_status (s s' : OrderStatus) : Prop :=
  (rank s <= rank s')%nat /\
  (s = REJECTED -> s' = REJECTED) /\
  (s' = s \/ s' = APPROVED \/ s' = REJECTED).

(** Two approvals of the same order. *)
Definition repeated_approvals : list delivery :=
  [(3%Z, "risk_decisions", risk_decision "trader_1_order_1" true [Lit "Order approved"] 3);
   (4%Z, "risk_decisions", risk_decision "trader_1_order_1" true [Lit "Order approved"] 4)].

(** The approvals the trader has published. *)
Definition approvals_published (st : TraderAgent.t) : list message :=
  map snd (filter (fun cm => fst cm = "approved_orders") (TraderAgent.message_bus st)).

(** The trader after a sequence of deliveries. *)
Definition after_deliveries (ds : list delivery) (st : TraderAgent.t) : TraderAgent.t :=
  fold_left deliver_to ds st.

(** * Further properties: vocabulary *)

(** ** Ledger *)

(** Every stored position is filed under its own symbol, holds shares, has
    a positive average cost, and stores the unrealized PnL of its stored
    price. *)
Definition ledger_shape (p : Portfolio.t) : Prop :=
  map_Forall
    (fun symbol pos =>
       Position.symbol pos = symbol /\
       (0 < Position.quantity pos)%Z /\
       (0 < Position.avg_cost pos)%Q /\
       (Position.unrealized_pnl pos ==
        (Position.current_price pos - Position.avg_cost pos)
        * inject_Z (Position.quantity pos))%Q)
    (Portfolio.positions p).

(** A trade whose commission does not exceed its gross amount. *)
Definition commission_covered (t : Trade.t) : Prop :=
  (Trade.commission t <= Trade.execution_price t * inject_Z (Trade.quantity t))%Q.

Definition call_covered (c : ledger_call) : Prop :=
  match c with
  | CallExecuteTrade trade => Trade.valid trade /\ commission_covered trade
  | _ => True
  end.

(** A purchase and the sale of the same shares. *)
Definition buy_of (symbol : string) (q : Z) (price commission : Q) : Trade.t :=
  Trade.mk "trade_buy" 0 "buy" symbol BUY q price commission "trader_1".
Definition sell_of (symbol : string) (q : Z) (price commission : Q) : Trade.t :=
  Trade.mk "trade_sell" 0 "sell" symbol SELL q price commission "trader_1".

(** The value of the holdings when each held symbol is priced at its quote,
    or at its stored price where there is no quote. *)
Definition quoted_value (quotes : gmap string Q) (m : gmap string Position.t) : Q :=
  py_sum (map (fun kv =>
                 inject_Z (Position.quantity (snd kv))
                 * default (Position.current_price (snd kv)) (quotes !! fst kv))%Q
            (map_to_list m)).

(** ** Market clock and execution engine *)

(** The price message of one entry of a day's data. *)
Definition update_of (entry : string * MarketData.t) : string * message :=
  ("market_data",
   market_update (MarketData.timestamp (snd entry)) (fst entry)
     (MarketData.open (snd entry)) (MarketData.high (snd entry))
     (MarketData.low (snd entry)) (MarketData.close (snd entry))
     (MarketData.volume (snd entry))).

(** The price table after a day's closes have been written into it. *)
Definition day_prices (day : list (string * MarketData.t)) (prices : gmap string Q)
    : gmap string Q :=
  fold_left (fun ps entry => <[fst entry := MarketData.close (snd entry)]> ps) day prices.

(** A fill is inside the limit of its order. *)
Definition within_limit (o : Order.t) (t : Trade.t) : Prop :=
  match Order.price o with
  | Some limit =>
      match Order.side o with
      | BUY => (Trade.execution_price t <= limit)%Q
      | SELL => (limit <= Trade.execution_price t)%Q
      end
  | None => True
  end.

(** A call of the simulation on the engine. *)
Inductive engine_call : Type :=
| CallAdvanceTime (target_date : Z)
| CallSubmitOrder (order : Order.t)
| CallExecutePendingOrders.

Definition engine_call_run (c : engine_call) : M MarketEnvironment.t unit :=
  match c with
  | CallAdvanceTime target_date => MarketEnvironment.advance_time target_date
  | CallSubmitOrder order => MarketEnvironment.submit_order order
  | CallExecutePendingOrders => MarketEnvironment.execute_pending_orders
  end.

(** The calls one after the other; an exception ends the run. *)
Fixpoint engine_run (calls : list engine_call) : M MarketEnvironment.t unit :=
  match calls with
  | [] => ret tt
  | c :: rest => engine_call_run c;;; engine_run rest
  end.

(** The ids of the orders the engine holds: those still queued, then those
    of the trades made. *)
Definition order_ids (e : MarketEnvironment.t) : list string :=
  map Order.id (MarketEnvironment.pending_orders e)
  ++ map Trade.order_id (MarketEnvironment.executed_trades e).

(** The ids of the submissions the engine accepts. *)
Definition accepted_ids (calls : list engine_call) : list string :=
  omap (fun c =>
          match c with
          | CallSubmitOrder order =>
              if bool_decide (Order.status order = APPROVED)
              then Some (Order.id order) else None
          | _ => None
          end) calls.

Definition submission_valid (c : engine_call) : Prop :=
  match c with
  | CallSubmitOrder order => Order.valid order
  | _ => True
  end.

Definition data_valid (e : MarketEnvironment.t) : Prop :=
  map_Forall (fun _ day => Forall (fun d => MarketData.valid (snd d)) day)
    (MarketEnvironment.data_by_date e).

(** A trade is the fill of an order at the price of the table. *)
Definition fill_matches (e : MarketEnvironment.t) (o : Order.t) (t : Trade.t) : Prop :=
  Trade.id t = "trade_" +:+ Order.id o /\
  Trade.order_id t = Order.id o /\
  Trade.symbol t = Order.symbol o /\
  Trade.side t = Order.side o /\
  Trade.quantity t = Order.quantity o /\
  Trade.trader_id t = Order.trader_id o /\
  MarketEnvironment.current_time e = Some (Trade.timestamp t) /\
  MarketEnvironment.current_prices e !! Order.symbol o = Some (Trade.execution_price t).

Definition sample_calls_engine : list engine_call :=
  [CallSubmitOrder (approved_order "o9" "AAPL" SELL 3 None);
   CallSubmitOrder pending_order;
   CallAdvanceTime 8;
   CallExecutePendingOrders].

(** An engine with one day of data for two symbols. *)
Definition sample_day : list (string * MarketData.t) :=
  [("AAPL", MarketData.mk 8 "AAPL" 100 103 99 102 5000);
   ("MSFT", MarketData.mk 8 "MSFT" 250 251 245 246 3000)].

Definition dated_engine : MarketEnvironment.t :=
  MarketEnvironment.__init__ [] {[ 8%Z := sample_day ]} (1 # 1000).

(** ** Risk manager *)

(** What the risk manager does with a message delivered on a channel it
    is subscribed to ([_setup_subscriptions]). *)
Definition risk_deliver (now : Z) (channel : string) (msg : message)
    : M RiskManagerAgent.t unit :=
  if bool_decide (channel = "orders") then RiskManagerAgent._on_order_request now msg
  else if bool_decide (channel = "market_data") then
    RiskManagerAgent._on_market_update msg
  else if bool_decide (channel = "trades") then RiskManagerAgent._on_trade_executed msg
  else ret tt.

(** The deliveries one after the other; an exception ends the run. *)
Fixpoint risk_run (ds : list delivery) : M RiskManagerAgent.t unit :=
  match ds with
  | [] => ret tt
  | (now, channel, msg) :: rest => risk_deliver now channel msg;;; risk_run rest
  end.

(** The order requests among the deliveries, by order id. *)
Definition request_id (d : delivery) : option string :=
  match d with
  | (_, channel, order_request order_id _ _ _ _ _ _ _) =>
      if bool_decide (channel = "orders") then Some order_id else None
  | _ => None
  end.

Definition request_ids (ds : list delivery) : list string := omap request_id ds.

(** A published risk decision: its order id and its answer. *)
Definition decision_of (cm : string * message) : option (string * bool) :=
  match cm with
  | (channel, risk_decision order_id approved _ _) =>
      if bool_decide (channel = "risk_decisions") then Some (order_id, approved)
      else None
  | _ => None
  end.

Definition count_answers (answer : bool) (ds : list (string * bool)) : Z :=
  Z.of_nat (length (filter (fun d => snd d = answer) ds)).

(** A run with a request for a symbol that has no price yet, a price, and
    the request again. *)
Definition sample_risk_run : list delivery :=
  [(1%Z, "orders",
    order_request "trader_1_order_1" 1 "trader_1" "AAPL" "BUY" 10 (Some 101%Q) None);
   (2%Z, "market_data", market_update 2 "AAPL" 99 101 98 100 1000);
   (3%Z, "orders",
    order_request "trader_1_order_2" 3 "trader_1" "AAPL" "BUY" 10 (Some 101%Q) None);
   (4%Z, "trades",
    trade_executed "trade_trader_1_order_2" "trader_1_order_2" "AAPL" "BUY" 10 100 1 4
      "trader_1")].

Definition fresh_risk_manager : RiskManagerAgent.t :=
  RiskManagerAgent.__init__ "risk_manager_1" [] 1000000 50000 (5 # 100) (20 # 100).

(** An alert without its timestamp. *)
Definition alert_body (m : message) : option (string * string * Z * Q * Q * Q) :=
  match m with
  | stop_loss trader_id symbol quantity avg_cost current_price loss _ =>
      Some (trader_id, symbol, quantity, avg_cost, current_price, loss)
  | _ => None
  end.

(** What the trades channel carries: the messages of validated trades. *)
Definition trade_delivery_valid (d : delivery) : Prop :=
  snd (fst d) = "trades" -> exists t, snd d = trade_message t /\ Trade.valid t.

(** ** Trader *)

(** What a BUY may cost: a tenth of the cash, capped at three tenths of
    the position cap. *)
Definition buy_budget (st : TraderAgent.t) : Q :=
  py_min (TraderAgent.cash st * (1 # 10))%Q (TraderAgent.max_position_value st * (3 # 10))%Q.

(** [f"{agent_id}_order_{k}"] *)
Definition order_id_of (agent_id : string) (k : Z) : string :=
  agent_id +:+ "_order_" +:+ pretty k.

(** The trader after it has built, tracked and published an order. *)
Definition placed (st : TraderAgent.t) (order : Order.t) : TraderAgent.t :=
  TraderAgent.mk (TraderAgent.agent_id st)
    (TraderAgent.message_bus st
     ++ [("orders",
          order_request (Order.id order) (Order.timestamp order) (Order.trader_id order)
            (Order.symbol order) (side_value (Order.side order)) (Order.quantity order)
            (Order.price order) (Order.signal_id order))])
    (TraderAgent.symbols st) (TraderAgent.cash st) (TraderAgent.max_position_value st)
    (TraderAgent.positions st) (TraderAgent.current_prices st)
    (TraderAgent.orders st ++ [order])
    (TraderAgent.pending_orders st ++ [length (TraderAgent.orders st)])
    (TraderAgent.order_count st + 1).

(** The next order of a trader. *)
Definition next_order (st : TraderAgent.t) (now : Z) (symbol : string) (side : OrderSide)
    (quantity : Z) (limit : Q) (signal_id : option string) : Order.t :=
  Order.mk (order_id_of (TraderAgent.agent_id st) (TraderAgent.order_count st + 1)) now
    (TraderAgent.agent_id st) symbol side quantity (Some limit) PENDING signal_id None.

Definition held (st : TraderAgent.t) (symbol : string) : Z :=
  default 0%Z (TraderAgent.positions st !! symbol).

(** A trader with 40 shares and a price. *)
Definition holding_trader : TraderAgent.t :=
  TraderAgent.mk "trader_1" [] ["AAPL"] 100000 20000 {[ "AAPL" := 40%Z ]}
    {[ "AAPL" := 100%Q ]} [] [] 0.

(** The ids of the orders a trader has built, oldest first. *)
Definition built_ids (st : TraderAgent.t) : list string :=
  map Order.id (TraderAgent.orders st).

(** What one delivery can do to the numbering of the orders: nothing, or
    one more order under the next number.  (An order whose construction
    fails uses up its number.) *)
Definition numbering_step (st st2 : TraderAgent.t) : Prop :=
  TraderAgent.agent_id st2 = TraderAgent.agent_id st /\
  (TraderAgent.order_count st <= TraderAgent.order_count st2)%Z /\
  (built_ids st2 = built_ids st \/
   (built_ids st2 =
    built_ids st
    ++ [order_id_of (TraderAgent.agent_id st) (TraderAgent.order_count st + 1)] /\
    TraderAgent.order_count st2 = (TraderAgent.order_count st + 1)%Z)).

(** A trader that tracks one approved BUY order. *)
Definition tracking_trader : TraderAgent.t :=
  TraderAgent.mk "trader_1" [] ["AAPL"] 100000 20000 {[ "AAPL" := 40%Z ]}
    {[ "AAPL" := 100%Q ]}
    [Order.mk "trader_1_order_1" 2 "trader_1" "AAPL" BUY 60 (Some 101%Q) APPROVED
       (Some "sig_1") None]
    [0%nat] 1.

Definition sample_fill : message :=
  trade_executed "trade_trader_1_order_1" "trader_1_order_1" "AAPL" "BUY" 60 100 6 3
    "trader_1".

(** ** Analyst *)

(** [f"{agent_id}_signal_{k}"] *)
Definition signal_id_of (agent_id : string) (k : Z) : string :=
  agent_id +:+ "_signal_" +:+ pretty k.

(** The signal an analyst publishes next. *)
Definition next_signal (a : AnalystAgent.t) (timestamp : Z) (symbol : string)
    (signal_type : SignalType) (confidence : Q) : message :=
  signal (signal_id_of (AnalystAgent.agent_id a) (AnalystAgent.signal_count a + 1))
    timestamp (AnalystAgent.agent_id a) symbol (signal_type_value signal_type) confidence.

(** The analyst after it has counted and published a signal. *)
Definition emitted (a : AnalystAgent.t) (timestamp : Z) (symbol : string)
    (signal_type : SignalType) (confidence : Q) : AnalystAgent.t :=
  AnalystAgent.mk (AnalystAgent.agent_id a)
    (AnalystAgent.message_bus a
     ++ [("signals", next_signal a timestamp symbol signal_type confidence)])
    (AnalystAgent.symbols a) (AnalystAgent.news_cache a)
    (AnalystAgent.signal_count a + 1).

(** The confidence of a signal drawn from a price move. *)
Definition momentum_confidence (price_change : Q) : Q :=
  py_min (9 # 10) ((5 # 10) + py_abs price_change * 10)%Q.

(** The confidence of a signal drawn from a news item. *)
Definition sentiment_confidence (sentiment_score : Q) : Q :=
  py_min (85 # 100) ((5 # 10) + py_abs sentiment_score * (5 # 10))%Q.

Definition sample_analyst : AnalystAgent.t :=
  AnalystAgent.__init__ "analyst_1" [] ["AAPL"; "MSFT"].

(** What a trader that follows the symbol and has a price for it does on
    a signal that passes its confidence tests. *)
Definition trader_reaction (now : Z) (symbol : string) (current_price : Q)
    (signal_id : string) (signal_type : SignalType) : M TraderAgent.t unit :=
  fun st =>
    match signal_type with
    | BULLISH =>
        if Qltb (inject_Z (held st symbol) * current_price)
             (TraderAgent.max_position_value st)
        then TraderAgent._place_buy_order now symbol current_price (Some signal_id) st
        else (Return tt, st, [])
    | BEARISH =>
        if (held st symbol >? 0)%Z
        then TraderAgent._place_sell_order now symbol current_price (Some signal_id) st
        else (Return tt, st, [])
    | NEUTRAL => (Return tt, st, [])
    end.

(** The type of the signal a price change gives. *)
Definition momentum_type (price_change : Q) : SignalType :=
  if Qgtb price_change (2 # 100) then BULLISH
  else if Qltb price_change (- (2 # 100)) then BEARISH
  else NEUTRAL.

(** ** Reporter *)

(** What the reporter does with a message delivered on a channel it is
    subscribed to ([_setup_subscriptions]). *)
Definition reporter_deliver (channel : string) (msg : message)
    (self : ReporterAgent.t) : ReporterAgent.t :=
  if bool_decide (channel = "trades") then ReporterAgent._on_trade msg self
  else if bool_decide (channel = "risk_decisions") then
    ReporterAgent._on_risk_decision msg self
  else if bool_decide (channel = "stop_loss_alerts") then
    ReporterAgent._on_stop_loss msg self
  else if bool_decide (channel = "portfolio_update") then
    ReporterAgent._on_portfolio_update msg self
  else self.

Definition reporter_run (ds : list (string * message)) (self : ReporterAgent.t)
    : ReporterAgent.t :=
  fold_left (fun s d => reporter_deliver (fst d) (snd d) s) ds self.

Definition count_where {A} (P : A -> bool) (l : list A) : Z :=
  Z.of_nat (length (filter (fun x => P x = true) l)).

(** The counters agree with the records kept. *)
Definition tallied (self : ReporterAgent.t) : Prop :=
  let s := ReporterAgent.daily_stats self in
  ReporterAgent.total_trades s = Z.of_nat (length (ReporterAgent.trades self)) /\
  ReporterAgent.buy_orders s =
  count_where (fun r => bool_decide (ReporterAgent.tr_side r = "BUY"))
    (ReporterAgent.trades self) /\
  ReporterAgent.sell_orders s =
  count_where (fun r => bool_decide (ReporterAgent.tr_side r = "SELL"))
    (ReporterAgent.trades self) /\
  ReporterAgent.approved_orders s =
  count_where ReporterAgent.dr_approved (ReporterAgent.risk_decisions self) /\
  ReporterAgent.rejected_orders s =
  count_where (fun r => negb (ReporterAgent.dr_approved r))
    (ReporterAgent.risk_decisions self) /\
  ReporterAgent.stop_losses_triggered s
  = Z.of_nat (length (ReporterAgent.stop_losses self)).

(** The total values of the snapshots, oldest first. *)
Definition snapshot_values (self : ReporterAgent.t) : list Q :=
  map ReporterAgent.sn_total_value (ReporterAgent.portfolio_snapshots self).

(** The portfolio update channel carries the snapshots of the simulation. *)
Definition from_simulation (d : string * message) : Prop :=
  fst d = "portfolio_update" ->
  exists trading_day agents,
    snd d = TradingSimulation.snapshot_message trading_day agents.

(** A reporter that has seen a portfolio go from 100 to 120, down to 90
    and back to 110. *)
Definition sample_reporter : ReporterAgent.t :=
  reporter_run
    [("portfolio_update", portfolio_snapshot 1 100 0 0);
     ("portfolio_update", portfolio_snapshot 2 120 0 0);
     ("risk_decisions", risk_decision "o1" true [Lit "Order approved"] 2);
     ("risk_decisions", risk_decision "o2" false [Lit "No market data available for symbol"] 2);
     ("portfolio_update", portfolio_snapshot 3 90 0 0);
     ("trades", trade_executed "trade_o1" "o1" "AAPL" "BUY" 10 100 1 3 "trader_1");
     ("portfolio_update", portfolio_snapshot 4 110 0 0)]
    (ReporterAgent.__init__ "reporter_1").

(** A snapshot without profit or loss. *)
Definition flat (s : ReporterAgent.snapshot) : Prop :=
  ReporterAgent.sn_realized_pnl s = 0%Q /\ ReporterAgent.sn_unrealized_pnl s = 0%Q.

(** Deliveries to the reporter during a simulation with one trader. *)
Definition simulated_deliveries : list (string * message) :=
  [("trades", trade_executed "trade_o1" "o1" "AAPL" "BUY" 10 100 1 3 "trader_1");
   ("portfolio_update",
    TradingSimulation.snapshot_message 10 [Trader holding_trader]);
   ("portfolio_update",
    TradingSimulation.snapshot_message 20 [Trader tracking_trader])].

(** ** Simulation *)

Definition analyst_symbols (agents : list agent) : list (list string) :=
  omap (fun a => match a with Analyst x => Some (AnalystAgent.symbols x) | _ => None end)
    agents.

Definition traders (agents : list agent) : list TraderAgent.t :=
  omap (fun a => match a with Trader x => Some x | _ => None end) agents.

Definition risk_managers (agents : list agent) : list RiskManagerAgent.t :=
  omap (fun a => match a with RiskManager x => Some x | _ => None end) agents.

(** The order the simulation builds from an approval. *)
Definition order_of_approval (order_id trader_id symbol : string) (side : OrderSide)
    (quantity : Z) (price : option Q) (timestamp : Z) : Order.t :=
  Order.mk order_id timestamp trader_id symbol side quantity price APPROVED None None.

Definition sample_approval : message :=
  order_approved "trader_1_order_1" "trader_1" "AAPL" "BUY" 60 (Some 101%Q) 3.

(** * Proofs *)

(** ** Comparisons and sums *)

Lemma Qltb_lt (a b : Q) : Qltb a b = true <-> (a < b)%Q.
Proof.
  unfold Qltb. rewrite negb_true_iff, <- not_true_iff_false, Qle_bool_iff.
  split; [apply Qnot_le_lt | apply Qlt_not_le].
Qed.

Lemma Qltb_ge (a b : Q) : Qltb a b = false <-> (b <= a)%Q.
Proof.
  unfold Qltb. rewrite negb_false_iff. apply Qle_bool_iff.
Qed.

Lemma Qgtb_gt (a b : Q) : Qgtb a b = true <-> (b < a)%Q.
Proof. apply Qltb_lt. Qed.

Lemma Qgtb_le (a b : Q) : Qgtb a b = false <-> (a <= b)%Q.
Proof. apply Qltb_ge. Qed.

Lemma fold_left_Qplus_acc (l : list Q) (a : Q) :
  (fold_left Qplus l a == a + fold_left Qplus l 0)%Q.
Proof.
  revert a. induction l as [|x l IH]; intros a; simpl.
  - ring.
  - rewrite (IH (a + x)%Q), (IH (0 + x)%Q). ring.
Qed.

Lemma py_sum_nil : py_sum [] = 0%Q.
Proof. reflexivity. Qed.

Lemma py_sum_cons (x : Q) (l : list Q) : (py_sum (x :: l) == x + py_sum l)%Q.
Proof.
  unfold py_sum. simpl. rewrite fold_left_Qplus_acc. ring.
Qed.

Lemma py_sum_app (l1 l2 : list Q) : (py_sum (l1 ++ l2) == py_sum l1 + py_sum l2)%Q.
Proof.
  induction l1 as [|x l1 IH]; simpl.
  - rewrite py_sum_nil. ring.
  - rewrite !py_sum_cons, IH. ring.
Qed.

Lemma py_sum_perm (l1 l2 : list Q) : l1 ≡ₚ l2 -> (py_sum l1 == py_sum l2)%Q.
Proof.
  induction 1 as [|x l1 l2 _ IH|x y l|l1 l2 l3 _ IH1 _ IH2].
  - reflexivity.
  - rewrite !py_sum_cons, IH. reflexivity.
  - rewrite !py_sum_cons. ring.
  - rewrite IH1. exact IH2.
Qed.

(** ** Sums over the positions of a ledger *)

Section SumOver.
Variable f : Position.t -> Q.

Lemma sum_over_empty : sum_over f ∅ = 0%Q.
Proof. unfold sum_over. rewrite map_to_list_empty. reflexivity. Qed.

Lemma sum_over_insert_fresh (m : gmap string Position.t) k v :
  m !! k = None -> (sum_over f (<[k := v]> m) == f v + sum_over f m)%Q.
Proof.
  intros Hk. unfold sum_over.
  rewrite (py_sum_perm _ (f v :: map f (map snd (map_to_list m)))).
  - apply py_sum_cons.
  - change (f v :: map f (map snd (map_to_list m)))
      with (map f (map snd ((k, v) :: map_to_list m))).
    do 2 apply Permutation_map. by apply map_to_list_insert.
Qed.

Lemma sum_over_delete (m : gmap string Position.t) k v :
  m !! k = Some v -> (sum_over f m == f v + sum_over f (delete k m))%Q.
Proof.
  intros Hk. rewrite <- (sum_over_insert_fresh (delete k m) k v).
  - by rewrite insert_delete_id.
  - apply lookup_delete_eq.
Qed.

Lemma sum_over_insert (m : gmap string Position.t) k old v :
  m !! k = Some old ->
  (sum_over f (<[k := v]> m) == sum_over f m - f old + f v)%Q.
Proof.
  intros Hk. rewrite <- insert_delete_eq.
  rewrite sum_over_insert_fresh by apply lookup_delete_eq.
  rewrite (sum_over_delete m k old Hk). ring.
Qed.
End SumOver.

Lemma sum_over_ext (f g : Position.t -> Q) (m : gmap string Position.t) :
  map_Forall (fun _ pos => f pos == g pos)%Q m -> (sum_over f m == sum_over g m)%Q.
Proof.
  induction m as [|k v m Hk IH] using map_ind; intros Hall.
  - by rewrite !sum_over_empty.
  - rewrite !sum_over_insert_fresh by done.
    apply map_Forall_insert in Hall as [Hv Hm]; [|done].
    rewrite Hv, (IH Hm). reflexivity.
Qed.

Lemma sum_over_minus (f g : Position.t -> Q) (m : gmap string Position.t) :
  (sum_over (fun pos => f pos - g pos) m == sum_over f m - sum_over g m)%Q.
Proof.
  induction m as [|k v m Hk IH] using map_ind.
  - rewrite !sum_over_empty. ring.
  - rewrite !sum_over_insert_fresh by done. rewrite IH. ring.
Qed.

(** ** Fills *)

Ltac run_monad :=
  unfold Portfolio.execute_trade, Portfolio._execute_buy, Portfolio._execute_sell,
    Portfolio.get_total_value, Portfolio.get_summary;
  unfold try_except, py_div, Position_new;
  unfold bind, get, modify, log, ret, raise; simpl.

(** C5. A BUY whose cost (price times quantity, plus commission) exceeds the
    cash, and a SELL of a symbol that is not held or of more shares than
    are held, return failure with the matching warning and leave the whole
    ledger as it was. *)
Theorem execute_trade_refusal_leaves_ledger (p : Portfolio.t) (trade : Trade.t) :
  (Trade.side trade = BUY ->
   (Portfolio.cash p <
    Trade.execution_price trade * inject_Z (Trade.quantity trade)
    + Trade.commission trade)%Q ->
   Portfolio.execute_trade trade p =
   (Return false, p,
    [(WARNING,
      InsufficientCashForBuy
        (Trade.execution_price trade * inject_Z (Trade.quantity trade)
         + Trade.commission trade)%Q
        (Portfolio.cash p))])) /\
  (Trade.side trade = SELL ->
   Portfolio.positions p !! Trade.symbol trade = None ->
   Portfolio.execute_trade trade p =
   (Return false, p, [(WARNING, NoPositionToSell (Trade.symbol trade))])) /\
  (Trade.side trade = SELL ->
   forall pos,
     Portfolio.positions p !! Trade.symbol trade = Some pos ->
     (Position.quantity pos < Trade.quantity trade)%Z ->
     Portfolio.execute_trade trade p =
     (Return false, p,
      [(WARNING,
        InsufficientSharesToSell (Trade.quantity trade) (Position.quantity pos))])).
Proof.
  split; [|split].
  - intros Hside Hcash. run_monad. rewrite Hside. run_monad.
    apply Qgtb_gt in Hcash. rewrite Hcash. reflexivity.
  - intros Hside Hnone. run_monad. rewrite Hside. run_monad.
    rewrite Hnone. reflexivity.
  - intros Hside pos Hpos Hlt. run_monad. rewrite Hside. run_monad.
    rewrite Hpos.
    assert (Hgt : (Trade.quantity trade >? Position.quantity pos)%Z = true)
      by (apply Z.gtb_lt; exact Hlt).
    rewrite Hgt. reflexivity.
Qed.

Lemma execute_trade_refusal_leaves_ledger_witness :
  Portfolio.execute_trade commission_buy (Portfolio.__init__ 100) =
  (Return false, Portfolio.__init__ 100,
   [(WARNING, InsufficientCashForBuy (100 * inject_Z 1 + 1)%Q 100)]) /\
  Portfolio.execute_trade (sale_of 5) (Portfolio.__init__ 100) =
  (Return false, Portfolio.__init__ 100, [(WARNING, NoPositionToSell "AAPL")]) /\
  Portfolio.execute_trade (sale_of 11) held_ledger =
  (Return false, held_ledger, [(WARNING, InsufficientSharesToSell 11 10)]).
Proof.
  split; [|split].
  - apply (proj1 (execute_trade_refusal_leaves_ledger
                    (Portfolio.__init__ 100) commission_buy)); reflexivity.
  - apply (proj1 (proj2 (execute_trade_refusal_leaves_ledger
                           (Portfolio.__init__ 100) (sale_of 5)))); reflexivity.
  - apply (proj2 (proj2 (execute_trade_refusal_leaves_ledger
                           held_ledger (sale_of 11)))
             eq_refl (Position.mk "AAPL" 10 100 100 0)).
    + vm_compute. reflexivity.
    + reflexivity.
Defined.

(** What a successful call did, read off the code path it took. *)
Lemma execute_buy_success (p p' : Portfolio.t) (trade : Trade.t) logs :
  Trade.side trade = BUY ->
  Portfolio.execute_trade trade p = (Return true, p', logs) ->
  let total_cost :=
    (Trade.execution_price trade * inject_Z (Trade.quantity trade)
     + Trade.commission trade)%Q in
  (total_cost <= Portfolio.cash p)%Q /\
  Portfolio.initial_cash p' = Portfolio.initial_cash p /\
  Portfolio.cash p' = (Portfolio.cash p - total_cost)%Q /\
  Portfolio.realized_pnl p' = Portfolio.realized_pnl p /\
  Portfolio.trades_history p' = Portfolio.trades_history p ++ [trade] /\
  match Portfolio.positions p !! Trade.symbol trade with
  | Some pos =>
      let q' := (Position.quantity pos + Trade.quantity trade)%Z in
      let avg' :=
        ((Position.avg_cost pos * inject_Z (Position.quantity pos)
          + Trade.execution_price trade * inject_Z (Trade.quantity trade))
         / inject_Z q')%Q in
      q' <> 0%Z /\
      Portfolio.positions p' =
      <[Trade.symbol trade :=
          Position.mk (Position.symbol pos) q' avg' (Trade.execution_price trade)
            ((Trade.execution_price trade - avg') * inject_Z q')%Q]>
        (Portfolio.positions p)
  | None =>
      Portfolio.positions p' =
      <[Trade.symbol trade :=
          Position.mk (Trade.symbol trade) (Trade.quantity trade)
            (Trade.execution_price trade) (Trade.execution_price trade) 0%Q]>
        (Portfolio.positions p)
  end.
Proof.
  intros Hside. run_monad. rewrite Hside. run_monad.
  destruct (Qgtb _ (Portfolio.cash p)) eqn:Hcash; [discriminate|].
  apply Qgtb_le in Hcash.
  destruct (Portfolio.positions p !! Trade.symbol trade) as [pos|] eqn:Hpos; simpl.
  - destruct (Qeq_bool _ 0) eqn:Hz; simpl; [discriminate|].
    intros [= <- _]. simpl. repeat split; try done.
    + intros Hq. rewrite Hq in Hz. discriminate.
    + by rewrite insert_insert_eq.
  - destruct (Qltb 0 (Trade.execution_price trade)); simpl; [|discriminate].
    intros [= <- _]. simpl. repeat split; done.
Qed.

Lemma execute_sell_success (p p' : Portfolio.t) (trade : Trade.t) logs :
  Trade.side trade = SELL ->
  Portfolio.execute_trade trade p = (Return true, p', logs) ->
  exists pos,
    Portfolio.positions p !! Trade.symbol trade = Some pos /\
    (Trade.quantity trade <= Position.quantity pos)%Z /\
    Portfolio.initial_cash p' = Portfolio.initial_cash p /\
    Portfolio.cash p' =
    (Portfolio.cash p
     + (Trade.execution_price trade * inject_Z (Trade.quantity trade)
        - Trade.commission trade))%Q /\
    Portfolio.realized_pnl p' =
    (Portfolio.realized_pnl p
     + (Trade.execution_price trade - Position.avg_cost pos)
       * inject_Z (Trade.quantity trade))%Q /\
    Portfolio.trades_history p' = Portfolio.trades_history p ++ [trade] /\
    let q' := (Position.quantity pos - Trade.quantity trade)%Z in
    Portfolio.positions p' =
    if decide (q' = 0%Z) then delete (Trade.symbol trade) (Portfolio.positions p)
    else
      <[Trade.symbol trade :=
          Position.mk (Position.symbol pos) q' (Position.avg_cost pos)
            (Trade.execution_price trade)
            ((Trade.execution_price trade - Position.avg_cost pos) * inject_Z q')%Q]>
        (Portfolio.positions p).
Proof.
  intros Hside. run_monad. rewrite Hside. run_monad.
  destruct (Portfolio.positions p !! Trade.symbol trade) as [pos|] eqn:Hpos; simpl;
    [|discriminate].
  destruct (Trade.quantity trade >? Position.quantity pos)%Z eqn:Hgt; simpl;
    [discriminate|].
  assert (Hle : (Trade.quantity trade <= Position.quantity pos)%Z).
  { destruct (Z.gtb_spec (Trade.quantity trade) (Position.quantity pos)); [done|lia]. }
  destruct (Position.quantity pos - Trade.quantity trade =? 0)%Z eqn:Hz; simpl;
    intros [= <- _]; simpl; exists pos; repeat split; try done.
  - apply Z.eqb_eq in Hz. rewrite decide_True by done. by rewrite delete_insert_eq.
  - apply Z.eqb_neq in Hz. rewrite decide_False by done. by rewrite insert_insert_eq.
Qed.

(** C4. A fill that was applied.  On a BUY of a symbol already held the
    quantity grows by the fill quantity and the average cost becomes
    (avgCost*quantity + price*fillQty) / (quantity + fillQty).  On a SELL
    the realized PnL grows by (price - avgCost)*fillQty, the quantity
    shrinks by the fill quantity, the average cost stays, and the position
    is absent afterwards exactly when the remaining quantity is zero. *)
Theorem fill_position_arithmetic (p p' : Portfolio.t) (trade : Trade.t) logs :
  Portfolio.execute_trade trade p = (Return true, p', logs) ->
  match Trade.side trade with
  | BUY =>
      forall pos,
        Portfolio.positions p !! Trade.symbol trade = Some pos ->
        exists pos',
          Portfolio.positions p' !! Trade.symbol trade = Some pos' /\
          Position.quantity pos' = (Position.quantity pos + Trade.quantity trade)%Z /\
          (Position.avg_cost pos' ==
           (Position.avg_cost pos * inject_Z (Position.quantity pos)
            + Trade.execution_price trade * inject_Z (Trade.quantity trade))
           / (inject_Z (Position.quantity pos) + inject_Z (Trade.quantity trade)))%Q
  | SELL =>
      exists pos,
        Portfolio.positions p !! Trade.symbol trade = Some pos /\
        (Portfolio.realized_pnl p' ==
         Portfolio.realized_pnl p
         + (Trade.execution_price trade - Position.avg_cost pos)
           * inject_Z (Trade.quantity trade))%Q /\
        ((Position.quantity pos - Trade.quantity trade = 0)%Z ->
         Portfolio.positions p' !! Trade.symbol trade = None) /\
        ((Position.quantity pos - Trade.quantity trade <> 0)%Z ->
         exists pos',
           Portfolio.positions p' !! Trade.symbol trade = Some pos' /\
           Position.quantity pos' =
           (Position.quantity pos - Trade.quantity trade)%Z /\
           Position.avg_cost pos' = Position.avg_cost pos)
  end.
Proof.
  intros Hrun. destruct (Trade.side trade) eqn:Hside.
  - intros pos Hpos.
    destruct (execute_buy_success _ _ _ _ Hside Hrun) as (_ & _ & _ & _ & _ & Hps).
    rewrite Hpos in Hps. destruct Hps as [_ ->].
    eexists. split; [apply lookup_insert_eq|]. simpl. split; [done|].
    rewrite inject_Z_plus. reflexivity.
  - destruct (execute_sell_success _ _ _ _ Hside Hrun)
      as (pos & Hpos & _ & _ & _ & Hpnl & _ & Hps).
    exists pos. split; [done|]. split; [by rewrite Hpnl|]. split.
    + intros Hz. rewrite Hps, decide_True by done. apply lookup_delete_eq.
    + intros Hnz. rewrite Hps, decide_False by done.
      eexists. split; [apply lookup_insert_eq|]. done.
Qed.

Lemma fill_position_arithmetic_witness :
  (exists pos',
     Portfolio.positions (state_of (Portfolio.execute_trade second_buy held_ledger))
       !! "AAPL" = Some pos' /\
     Position.quantity pos' = 15%Z /\
     (Position.avg_cost pos' == 110)%Q) /\
  (exists pos,
     Portfolio.positions held_ledger !! "AAPL" = Some pos /\
     (Portfolio.realized_pnl (state_of (Portfolio.execute_trade (sale_of 10) held_ledger))
      == 100)%Q /\
     Portfolio.positions (state_of (Portfolio.execute_trade (sale_of 10) held_ledger))
       !! "AAPL" = None).
Proof.
  split.
  - destruct (fill_position_arithmetic held_ledger
                (state_of (Portfolio.execute_trade second_buy held_ledger))
                second_buy
                (logs_of (Portfolio.execute_trade second_buy held_ledger))
                eq_refl (Position.mk "AAPL" 10 100 100 0) eq_refl)
      as (pos' & Hpos' & Hq & Havg).
    exists pos'. split; [exact Hpos'|]. split; [exact Hq|].
    rewrite Havg. reflexivity.
  - destruct (fill_position_arithmetic held_ledger
                (state_of (Portfolio.execute_trade (sale_of 10) held_ledger))
                (sale_of 10)
                (logs_of (Portfolio.execute_trade (sale_of 10) held_ledger))
                eq_refl)
      as (pos & Hpos & Hpnl & Hzero & _).
    exists pos. split; [exact Hpos|]. split.
    + rewrite Hpnl. assert (pos = Position.mk "AAPL" 10 100 100 0) as ->.
      { vm_compute in Hpos. congruence. }
      reflexivity.
    + apply Hzero. assert (pos = Position.mk "AAPL" 10 100 100 0) as ->.
      { vm_compute in Hpos. congruence. }
      reflexivity.
Defined.

(** ** The accounting invariant *)

Lemma inject_Z_nonzero (z : Z) : z <> 0%Z -> ~ (inject_Z z == 0)%Q.
Proof. intros Hz Heq. apply Hz. unfold Qeq in Heq. simpl in Heq. lia. Qed.

Lemma Qdiv_mult_cancel (a b : Q) : ~ (b == 0)%Q -> (a / b * b == a)%Q.
Proof. intros Hb. field. exact Hb. Qed.

Lemma commissions_paid_snoc (p : Portfolio.t) (trade : Trade.t) h :
  h = Portfolio.trades_history p ++ [trade] ->
  (py_sum (map Trade.commission h) == commissions_paid p + Trade.commission trade)%Q.
Proof.
  intros ->. unfold commissions_paid. rewrite map_app, py_sum_app. simpl.
  rewrite py_sum_cons, py_sum_nil. ring.
Qed.

Lemma ledger_inv_init (initial_cash : Q) : ledger_inv (Portfolio.__init__ initial_cash).
Proof.
  split; simpl.
  - apply map_Forall_empty.
  - unfold cost_basis, commissions_paid. rewrite sum_over_empty. simpl.
    rewrite py_sum_nil. ring.
Qed.

(** Under the invariant a validated trade never raises inside
    [execute_trade]: the call either refuses and changes nothing, or
    succeeds. *)
Lemma execute_trade_outcome (p : Portfolio.t) (trade : Trade.t) :
  ledger_inv p -> Trade.valid trade ->
  (exists logs, Portfolio.execute_trade trade p = (Return false, p, logs)) \/
  (exists p' logs, Portfolio.execute_trade trade p = (Return true, p', logs)).
Proof.
  intros [Hpos _] (Hq & Hprice & _). run_monad.
  apply Qltb_lt in Hprice.
  destruct (Trade.side trade); run_monad.
  - destruct (Qgtb _ (Portfolio.cash p)); [left; eauto|].
    destruct (Portfolio.positions p !! Trade.symbol trade) as [pos|] eqn:Hlk; simpl.
    + destruct (Qeq_bool _ 0) eqn:Hz; simpl; [|right; eauto].
      apply Qeq_bool_iff in Hz. exfalso. revert Hz. apply inject_Z_nonzero.
      apply Hpos in Hlk as [Hpq _]. lia.
    + rewrite Hprice. simpl. right; eauto.
  - destruct (Portfolio.positions p !! Trade.symbol trade) as [pos|]; simpl;
      [|left; eauto].
    destruct (Trade.quantity trade >? Position.quantity pos)%Z; simpl; [left; eauto|].
    destruct (Position.quantity pos - Trade.quantity trade =? 0)%Z; simpl;
      right; eauto.
Qed.

Lemma ledger_inv_buy (p p' : Portfolio.t) (trade : Trade.t) logs :
  ledger_inv p -> Trade.valid trade -> Trade.side trade = BUY ->
  Portfolio.execute_trade trade p = (Return true, p', logs) ->
  ledger_inv p'.
Proof.
  intros [Hpos Heq] (Hq & _ & _) Hside Hrun.
  destruct (execute_buy_success _ _ _ _ Hside Hrun)
    as (_ & Hic & Hcash & Hpnl & Hhist & Hps).
  unfold ledger_inv. rewrite Hic, Hcash, Hpnl.
  unfold commissions_paid at 1. rewrite (commissions_paid_snoc p trade _ Hhist).
  destruct (Portfolio.positions p !! Trade.symbol trade) as [pos|] eqn:Hlk.
  - destruct Hps as [Hnz ->]. split.
    + apply map_Forall_insert_2; [|done].
      destruct (Hpos _ _ Hlk) as [Hpq _]. split; simpl; [lia|reflexivity].
    + unfold cost_basis in *. rewrite (sum_over_insert _ _ _ pos) by done. simpl.
      assert (Hne := inject_Z_nonzero _ Hnz).
      rewrite (Qdiv_mult_cancel _ _ Hne).
      lra.
  - rewrite Hps. split.
    + apply map_Forall_insert_2; [|done]. split; simpl; [lia|ring].
    + unfold cost_basis in *. rewrite sum_over_insert_fresh by done. simpl. lra.
Qed.

Lemma ledger_inv_sell (p p' : Portfolio.t) (trade : Trade.t) logs :
  ledger_inv p -> Trade.valid trade -> Trade.side trade = SELL ->
  Portfolio.execute_trade trade p = (Return true, p', logs) ->
  ledger_inv p'.
Proof.
  intros [Hpos Heq] (Hq & _ & _) Hside Hrun.
  destruct (execute_sell_success _ _ _ _ Hside Hrun)
    as (pos & Hlk & Hle & Hic & Hcash & Hpnl & Hhist & Hps).
  unfold ledger_inv. rewrite Hic, Hcash, Hpnl.
  unfold commissions_paid at 1. rewrite (commissions_paid_snoc p trade _ Hhist).
  simpl in Hps. rewrite Hps. unfold cost_basis in *.
  destruct (decide (Position.quantity pos - Trade.quantity trade = 0)%Z) as [Hz|Hnz].
  - split; [by apply map_Forall_delete|].
    rewrite (sum_over_delete _ _ _ pos Hlk) in Heq.
    assert (Hqq : Position.quantity pos = Trade.quantity trade) by lia.
    rewrite Hqq in Heq. lra.
  - split.
    + apply map_Forall_insert_2; [|done]. split; simpl; [lia|reflexivity].
    + rewrite (sum_over_insert _ _ _ pos) by done. simpl.
      unfold Zminus. rewrite inject_Z_plus, inject_Z_opp. lra.
Qed.

Lemma ledger_inv_execute_trade (p : Portfolio.t) (trade : Trade.t) :
  ledger_inv p -> Trade.valid trade ->
  ledger_inv (state_of (Portfolio.execute_trade trade p)).
Proof.
  intros Hinv Hvalid.
  destruct (execute_trade_outcome p trade Hinv Hvalid)
    as [[logs Hrun]|(p' & logs & Hrun)].
  - rewrite Hrun. exact Hinv.
  - rewrite Hrun. unfold state_of; simpl.
    destruct (Trade.side trade) eqn:Hside.
    + by eapply ledger_inv_buy.
    + by eapply ledger_inv_sell.
Qed.

Lemma ledger_inv_update_price (p : Portfolio.t) (symbol : string) (price : Q) :
  ledger_inv p -> ledger_inv (Portfolio.update_price p symbol price).
Proof.
  intros [Hpos Heq]. unfold Portfolio.update_price.
  destruct (Portfolio.positions p !! symbol) as [pos|] eqn:Hlk; [|by split].
  split; simpl.
  - apply map_Forall_insert_2; [|done].
    destruct (Hpos _ _ Hlk) as [Hq _]. split; simpl; [done|reflexivity].
  - unfold cost_basis in *. rewrite (sum_over_insert _ _ _ pos) by done.
    unfold commissions_paid in *. simpl. lra.
Qed.

Lemma ledger_inv_update_all_prices (p : Portfolio.t) (prices : gmap string Q) :
  ledger_inv p -> ledger_inv (Portfolio.update_all_prices p prices).
Proof.
  intros Hinv. unfold Portfolio.update_all_prices.
  apply (map_fold_weak_ind (fun r _ => ledger_inv r)); [done|].
  intros symbol price _ r _ Hr. by apply ledger_inv_update_price.
Qed.

Lemma get_total_value_state (p : Portfolio.t) (prices : option (gmap string Q)) :
  Portfolio.get_total_value prices p =
  match Portfolio.truthy prices with
  | Some m =>
      (Return (total_value (Portfolio.update_all_prices p m)),
       Portfolio.update_all_prices p m, [])
  | None => (Return (total_value p), p, [])
  end.
Proof.
  run_monad. destruct (Portfolio.truthy prices); reflexivity.
Qed.

Lemma get_summary_state (p : Portfolio.t) :
  state_of (Portfolio.get_summary p) = p.
Proof.
  run_monad. destruct (Qeq_bool (Portfolio.initial_cash p) 0); reflexivity.
Qed.

Lemma ledger_inv_run_call (c : ledger_call) (p : Portfolio.t) :
  ledger_inv p -> call_valid c -> ledger_inv (run_call c p).
Proof.
  intros Hinv Hc. destruct c as [trade|symbol price|prices|prices|]; simpl.
  - by apply ledger_inv_execute_trade.
  - by apply ledger_inv_update_price.
  - by apply ledger_inv_update_all_prices.
  - rewrite get_total_value_state.
    destruct (Portfolio.truthy prices); [|done].
    by apply ledger_inv_update_all_prices.
  - by rewrite get_summary_state.
Qed.

Lemma ledger_inv_run_calls (cs : list ledger_call) (p : Portfolio.t) :
  ledger_inv p -> Forall call_valid cs -> ledger_inv (run_calls cs p).
Proof.
  revert p. induction cs as [|c cs IH]; intros p Hinv Hcs; [done|].
  inversion Hcs; subst. simpl. apply IH; [|done]. by apply ledger_inv_run_call.
Qed.

(** The identity the invariant gives: value gained is realized plus
    unrealized PnL, less the commissions paid. *)
Lemma ledger_inv_identity (p : Portfolio.t) :
  ledger_inv p ->
  (total_value p - Portfolio.initial_cash p ==
   Portfolio.realized_pnl p + Portfolio.get_unrealized_pnl p - commissions_paid p)%Q.
Proof.
  intros [Hpos Heq].
  unfold total_value, Portfolio.positions_value, Portfolio.get_unrealized_pnl,
    Portfolio.values.
  change (py_sum (map ?f (map_to_list (Portfolio.positions p)).*2))
    with (sum_over f (Portfolio.positions p)).
  rewrite (sum_over_ext Position.unrealized_pnl
             (fun pos =>
                inject_Z (Position.quantity pos) * Position.current_price pos
                - Position.avg_cost pos * inject_Z (Position.quantity pos))%Q).
  - rewrite sum_over_minus. unfold cost_basis in Heq. lra.
  - intros k pos Hlk. destruct (Hpos _ _ Hlk) as [_ ->]. ring.
Qed.

(** C1 as worded fails as soon as a fill carries a commission: the cash
    pays it, no PnL figure records it.  One share bought at 100 with a
    commission of 1 leaves a total value of 999 on a ledger opened with
    1000, while realized and unrealized PnL are both 0. *)
Lemma pnl_identity_fails_with_commission :
  result_of (Portfolio.execute_trade commission_buy (Portfolio.__init__ 1000))
  = Return true /\
  result_of (Portfolio.get_total_value None
               (state_of (Portfolio.execute_trade commission_buy
                            (Portfolio.__init__ 1000))))
  = Return 999%Q /\
  ~ pnl_identity (state_of (Portfolio.execute_trade commission_buy
                              (Portfolio.__init__ 1000))).
Proof.
  split; [reflexivity|]. split; [reflexivity|].
  vm_compute. discriminate.
Qed.

(** C1, amended.  From a freshly opened ledger, after any sequence of
    calls (fills of validated trades, applied or refused, price updates,
    value and summary reads), in exact arithmetic:
    totalValue - initialCash = realizedPnL + unrealizedPnL - commissions
    paid, where totalValue is what [get_total_value()] returns; so the
    equation without the commission term holds whenever no commission
    was paid, and across one fill the value moves by the change of
    realized and unrealized PnL less that fill's commission. *)
Theorem ledger_accounting_identity (initial_cash : Q) (calls : list ledger_call) :
  Forall call_valid calls ->
  let p := run_calls calls (Portfolio.__init__ initial_cash) in
  Portfolio.get_total_value None p = (Return (total_value p), p, []) /\
  (total_value p - Portfolio.initial_cash p ==
   Portfolio.realized_pnl p + Portfolio.get_unrealized_pnl p - commissions_paid p)%Q /\
  ((commissions_paid p == 0)%Q -> pnl_identity p) /\
  (forall trade,
      Trade.valid trade ->
      let p' := state_of (Portfolio.execute_trade trade p) in
      (total_value p' - total_value p ==
       (Portfolio.realized_pnl p' - Portfolio.realized_pnl p)
       + (Portfolio.get_unrealized_pnl p' - Portfolio.get_unrealized_pnl p)
       - (commissions_paid p' - commissions_paid p))%Q).
Proof.
  intros Hcalls p.
  assert (Hinv : ledger_inv p).
  { apply ledger_inv_run_calls; [apply ledger_inv_init|exact Hcalls]. }
  assert (Hid := ledger_inv_identity p Hinv).
  split; [apply (get_total_value_state p None)|].
  split; [exact Hid|]. split.
  - intros Hzero. unfold pnl_identity. rewrite Hid, Hzero. ring.
  - intros trade Hvalid p'.
    assert (Hinv' : ledger_inv p') by (by apply ledger_inv_execute_trade).
    assert (Hid' := ledger_inv_identity p' Hinv').
    assert (Hic : Portfolio.initial_cash p' = Portfolio.initial_cash p).
    { subst p'.
      destruct (execute_trade_outcome p trade Hinv Hvalid)
        as [[logs Hrun]|(p1 & logs & Hrun)]; rewrite Hrun; [done|].
      unfold state_of; simpl. destruct (Trade.side trade) eqn:Hside.
      - by destruct (execute_buy_success _ _ _ _ Hside Hrun) as (_ & ? & _).
      - by destruct (execute_sell_success _ _ _ _ Hside Hrun)
          as (? & _ & _ & ? & _). }
    rewrite Hic in Hid'. lra.
Qed.

Lemma ledger_accounting_identity_witness :
  let p := run_calls sample_calls (Portfolio.__init__ 1000) in
  (total_value p - Portfolio.initial_cash p ==
   Portfolio.realized_pnl p + Portfolio.get_unrealized_pnl p - commissions_paid p)%Q.
Proof.
  refine (proj1 (proj2 (ledger_accounting_identity 1000 sample_calls _))).
  unfold sample_calls.
  repeat (apply Forall_cons; split); try apply Forall_nil; simpl; try exact I;
    (split; [reflexivity|split; [reflexivity|discriminate]]).
Defined.

(** ** Reading the ledger *)

Lemma update_all_prices_spec (p : Portfolio.t) (prices : gmap string Q) :
  let p' := Portfolio.update_all_prices p prices in
  Portfolio.initial_cash p' = Portfolio.initial_cash p /\
  Portfolio.cash p' = Portfolio.cash p /\
  Portfolio.realized_pnl p' = Portfolio.realized_pnl p /\
  Portfolio.trades_history p' = Portfolio.trades_history p /\
  forall symbol,
    Portfolio.positions p' !! symbol =
    match Portfolio.positions p !! symbol with
    | Some pos =>
        Some match prices !! symbol with
             | Some price => Position.update_price pos price
             | None => pos
             end
    | None => None
    end.
Proof.
  unfold Portfolio.update_all_prices.
  apply (map_fold_weak_ind
           (fun r m =>
              Portfolio.initial_cash r = Portfolio.initial_cash p /\
              Portfolio.cash r = Portfolio.cash p /\
              Portfolio.realized_pnl r = Portfolio.realized_pnl p /\
              Portfolio.trades_history r = Portfolio.trades_history p /\
              forall symbol,
                Portfolio.positions r !! symbol =
                match Portfolio.positions p !! symbol with
                | Some pos =>
                    Some match m !! symbol with
                         | Some price => Position.update_price pos price
                         | None => pos
                         end
                | None => None
                end)).
  - repeat split. intros symbol. rewrite lookup_empty.
    by destruct (Portfolio.positions p !! symbol).
  - intros i x m r Hi (Hic & Hcash & Hpnl & Hhist & Hps).
    unfold Portfolio.update_price.
    assert (Hri := Hps i). rewrite Hi in Hri.
    destruct (Portfolio.positions r !! i) as [pos|] eqn:Hlk; simpl.
    + repeat split; try done. intros symbol.
      destruct (decide (i = symbol)) as [<-|Hne].
      * rewrite !lookup_insert_eq.
        destruct (Portfolio.positions p !! i); congruence.
      * rewrite !lookup_insert_ne by done. apply Hps.
    + repeat split; try done. intros symbol.
      destruct (decide (i = symbol)) as [<-|Hne].
      * rewrite Hlk, lookup_insert_eq.
        by destruct (Portfolio.positions p !! i).
      * rewrite lookup_insert_ne by done. apply Hps.
Qed.

(** C8 as worded fails: passing quotes to [get_total_value] is the price
    refresh.  With ten shares stored at a price of 100 and a quote of 110
    passed in, the stored price becomes 110 and the stored unrealized PnL
    100. *)
Lemma total_value_with_quotes_mutates :
  Portfolio.positions held_ledger !! "AAPL" = Some (Position.mk "AAPL" 10 100 100 0) /\
  Portfolio.positions
    (state_of (Portfolio.get_total_value (Some fresh_quotes) held_ledger))
    !! "AAPL" = Some (Position.mk "AAPL" 10 100 110 100) /\
  state_of (Portfolio.get_total_value (Some fresh_quotes) held_ledger) <> held_ledger.
Proof.
  split; [reflexivity|]. split; [reflexivity|].
  intros Heq.
  assert (Hlk : Portfolio.positions
                  (state_of (Portfolio.get_total_value (Some fresh_quotes) held_ledger))
                  !! "AAPL" = Portfolio.positions held_ledger !! "AAPL")
    by (by rewrite Heq).
  vm_compute in Hlk. discriminate.
Qed.

(** C8, amended.  [get_total_value] called without quotes (none, or an
    empty table) leaves the ledger as it is.  Called with quotes it first
    stores them: cash, realized PnL, history and the set of held symbols
    stay, and each held symbol that has a quote gets it as stored price,
    with the unrealized PnL recomputed from it.  [get_summary] leaves the
    ledger as it is, whether it returns or raises. *)
Theorem total_value_and_summary_frame (p : Portfolio.t) :
  state_of (Portfolio.get_total_value None p) = p /\
  state_of (Portfolio.get_total_value (Some ∅) p) = p /\
  (forall quotes,
      let p' := state_of (Portfolio.get_total_value (Some quotes) p) in
      p' = Portfolio.update_all_prices p quotes /\
      Portfolio.initial_cash p' = Portfolio.initial_cash p /\
      Portfolio.cash p' = Portfolio.cash p /\
      Portfolio.realized_pnl p' = Portfolio.realized_pnl p /\
      Portfolio.trades_history p' = Portfolio.trades_history p /\
      forall symbol,
        Portfolio.positions p' !! symbol =
        match Portfolio.positions p !! symbol with
        | Some pos =>
            Some match quotes !! symbol with
                 | Some price => Position.update_price pos price
                 | None => pos
                 end
        | None => None
        end) /\
  state_of (Portfolio.get_summary p) = p.
Proof.
  split; [by rewrite get_total_value_state|].
  split; [by rewrite get_total_value_state|].
  split; [|apply get_summary_state].
  intros quotes p'.
  assert (Hp' : p' = Portfolio.update_all_prices p quotes).
  { subst p'. rewrite get_total_value_state. simpl.
    destruct (decide (quotes = ∅)) as [->|]; [|done].
    unfold Portfolio.update_all_prices. by rewrite map_fold_empty. }
  split; [exact Hp'|]. rewrite Hp'. apply update_all_prices_spec.
Qed.

(** ** The execution sweep *)

Lemma Qle_bool_compat (a a' b b' : Q) :
  (a == a')%Q -> (b == b')%Q -> Qle_bool a b = Qle_bool a' b'.
Proof.
  intros Ha Hb. apply eq_true_iff_eq. rewrite !Qle_bool_iff, Ha, Hb. reflexivity.
Qed.

Lemma fstring_eqb_refl (a : fstring) : fstring_eqb a a = true.
Proof.
  induction a as [|x a IH]; [done|]. simpl. rewrite IH, andb_true_r.
  destruct x; simpl; try by apply bool_decide_eq_true_2.
  apply Qeq_bool_iff. reflexivity.
Qed.

Lemma Order_eqb_refl (o : Order.t) : Order_eqb o o = true.
Proof.
  assert (Hreason : option_eqb fstring_eqb (Order.rejection_reason o)
                      (Order.rejection_reason o) = true).
  { destruct (Order.rejection_reason o) as [r|]; simpl; [|reflexivity].
    apply fstring_eqb_refl. }
  assert (Hprice : option_eqb Qeq_bool (Order.price o) (Order.price o) = true).
  { destruct (Order.price o) as [p|]; simpl; [|reflexivity].
    apply Qeq_bool_iff. reflexivity. }
  unfold Order_eqb. rewrite Hprice, Hreason.
  rewrite !bool_decide_eq_true_2 by reflexivity. reflexivity.
Qed.

Lemma Order_eqb_fields (a b : Order.t) :
  Order_eqb a b = true ->
  Order.symbol a = Order.symbol b /\ Order.side a = Order.side b /\
  match Order.price a, Order.price b with
  | Some x, Some y => (x == y)%Q
  | None, None => True
  | _, _ => False
  end.
Proof.
  unfold Order_eqb. rewrite !andb_true_iff, !bool_decide_eq_true.
  intros [[[[[[[[[_ _] _] Hsym] Hside] _] Hprice] _] _] _].
  repeat split; try done.
  destruct (Order.price a), (Order.price b); simpl in Hprice; try done.
  by apply Qeq_bool_iff.
Qed.

Lemma Order_eqb_executable (e : MarketEnvironment.t) (a b : Order.t) :
  Order_eqb a b = true -> executable e a = executable e b.
Proof.
  intros Hab. destruct (Order_eqb_fields a b Hab) as (Hsym & Hside & Hprice).
  unfold executable, MarketEnvironment.limit_blocks. rewrite Hsym, Hside.
  destruct (MarketEnvironment.current_prices e !! Order.symbol b) as [p|]; [|done].
  destruct (Order.price a) as [x|], (Order.price b) as [y|]; try done.
  f_equal. unfold Qgtb, Qltb.
  destruct (Order.side b); f_equal; apply Qle_bool_compat; done.
Qed.

Lemma py_remove_middle {A} (eqb : A -> A -> bool) (x : A) (kept rest : list A) :
  Forall (fun y => eqb y x = false) kept -> eqb x x = true ->
  py_remove eqb x (kept ++ x :: rest) = Some (kept ++ rest).
Proof.
  intros Hkept Hxx. induction Hkept as [|y kept Hy _ IH]; simpl.
  - by rewrite Hxx.
  - by rewrite Hy, IH.
Qed.

Lemma fill_valid (e : MarketEnvironment.t) (ts : Z) (o : Order.t) (p : Q) :
  engine_ok e -> Order.valid o ->
  MarketEnvironment.current_prices e !! Order.symbol o = Some p ->
  Trade.validb (fill_of e ts o p) = true.
Proof.
  intros (Hrate & _ & Hprices & _) [Hq _] Hp.
  assert (Hpos : (0 < p)%Q) by exact (Hprices _ _ Hp).
  unfold Trade.validb; simpl. rewrite !andb_true_iff. repeat split.
  - by apply Z.ltb_lt.
  - by apply Qltb_lt.
  - apply Qle_bool_iff. apply Qmult_le_0_compat; [|done].
    apply Qmult_le_0_compat; [by apply Qlt_le_weak|].
    change 0%Q with (inject_Z 0). rewrite <- Zle_Qle. lia.
Qed.

Lemma fills_cons (e : MarketEnvironment.t) (o : Order.t) (os : list Order.t) :
  fills e (o :: os) =
  match fill_for e o with
  | Some t => t :: fills e os
  | None => fills e os
  end.
Proof. reflexivity. Qed.

(** One turn of the loop on an order that is not executed. *)
Lemma sweep_skip (e : MarketEnvironment.t) (order : Order.t) (rest : list Order.t) n :
  executable e order = false ->
  exists logs,
    MarketEnvironment.sweep (order :: rest) n e =
    let '(r, s, l) := MarketEnvironment.sweep rest n e in (r, s, logs ++ l).
Proof.
  unfold executable. intros Hex. cbn [MarketEnvironment.sweep].
  unfold bind at 1. unfold get at 1.
  destruct (MarketEnvironment.current_prices e !! Order.symbol order) as [p|].
  - apply negb_false_iff in Hex. rewrite Hex. exists [].
    by destruct (MarketEnvironment.sweep rest n e) as [[r s] l].
  - exists [(WARNING, NoPriceDataSkipping (Order.symbol order) (Order.id order))].
    unfold bind, log.
    by destruct (MarketEnvironment.sweep rest n e) as [[r s] l].
Qed.

(** One turn of the loop on an order that is executed. *)
Lemma sweep_exec (e : MarketEnvironment.t) (order : Order.t) (rest os : list Order.t)
    n ts p :
  MarketEnvironment.current_time e = Some ts ->
  MarketEnvironment.current_prices e !! Order.symbol order = Some p ->
  MarketEnvironment.limit_blocks order p = false ->
  Trade.validb (fill_of e ts order p) = true ->
  py_remove Order_eqb order (MarketEnvironment.pending_orders e) = Some os ->
  exists logs,
    MarketEnvironment.sweep (order :: rest) n e =
    let '(r, s, l) :=
      MarketEnvironment.sweep rest (S n)
        (with_queue e
           (MarketEnvironment.message_bus e
            ++ [("trades", trade_message (fill_of e ts order p))])
           os
           (MarketEnvironment.executed_trades e ++ [fill_of e ts order p])) in
    (r, s, logs ++ l).
Proof.
  intros Htime Hp Hblock Hvalid Hremove.
  exists [(INFO, ExecutedTrade ("trade_" +:+ Order.id order))].
  cbn [MarketEnvironment.sweep]. unfold bind at 1. unfold get at 1.
  rewrite Hp, Hblock, Htime. unfold Trade_new. fold (fill_of e ts order p).
  rewrite Hvalid.
  unfold bind, ret, modify, get, log, raise, MarketEnvironment.publish.
  cbn [MarketEnvironment.set_executed_trades MarketEnvironment.pending_orders].
  rewrite Hremove. unfold modify. cbn -[fill_of trade_message].
  match goal with
  | |- context [MarketEnvironment.sweep rest (S n) ?s] =>
      change s with
        (with_queue e
           (MarketEnvironment.message_bus e
            ++ [("trades", trade_message (fill_of e ts order p))])
           os
           (MarketEnvironment.executed_trades e ++ [fill_of e ts order p]))
  end.
  by destruct (MarketEnvironment.sweep rest (S n) _) as [[r s] l].
Qed.

Lemma sweep_spec (e0 : MarketEnvironment.t) (rest : list Order.t) :
  engine_ok e0 -> Forall Order.valid rest ->
  forall kept n bus trades,
    Forall (fun o => executable e0 o = false) kept ->
    exists logs,
      MarketEnvironment.sweep rest n (with_queue e0 bus (kept ++ rest) trades) =
      (Return (n + length (fills e0 rest))%nat,
       with_queue e0 (bus ++ broadcasts (fills e0 rest))
         (kept ++ filter (fun o => executable e0 o = false) rest)
         (trades ++ fills e0 rest),
       logs).
Proof.
  intros Hok Hvalid. induction Hvalid as [|order rest Hord _ IH];
    intros kept n bus trades Hkept.
  - exists []. simpl. unfold ret, broadcasts; simpl.
    by rewrite Nat.add_0_r, !app_nil_r.
  - rewrite fills_cons. destruct (executable e0 order) eqn:Hex.
    + rewrite filter_cons_False by congruence.
      unfold executable in Hex.
      destruct (MarketEnvironment.current_prices e0 !! Order.symbol order)
        as [p|] eqn:Hp; [|discriminate].
      apply negb_true_iff in Hex.
      destruct (MarketEnvironment.current_time e0) as [ts|] eqn:Htime.
      2:{ destruct Hok as (_ & Hclock & _). rewrite (Hclock Htime) in Hp.
          by rewrite lookup_empty in Hp. }
      assert (Hfill : fill_for e0 order = Some (fill_of e0 ts order p)).
      { unfold fill_for. by rewrite Htime, Hp, Hex. }
      rewrite Hfill.
      destruct (IH kept (S n) (bus ++ [("trades", trade_message (fill_of e0 ts order p))])
                  (trades ++ [fill_of e0 ts order p]) Hkept) as [logs Hrun].
      destruct (sweep_exec (with_queue e0 bus (kept ++ order :: rest) trades)
                  order rest (kept ++ rest) n ts p) as [logs0 Hstep]; try done.
      { exact (fill_valid e0 ts order p Hok Hord Hp). }
      { simpl. apply py_remove_middle; [|apply Order_eqb_refl].
        eapply Forall_impl; [exact Hkept|]. intros y Hy. simpl in Hy.
        destruct (Order_eqb y order) eqn:Hyo; [|done].
        rewrite (Order_eqb_executable e0 y order Hyo) in Hy.
        unfold executable in Hy. rewrite Hp, Hex in Hy. discriminate. }
      rewrite Hstep.
      change (with_queue (with_queue e0 bus (kept ++ order :: rest) trades) ?b ?q ?t)
        with (with_queue e0 b q t).
      change (fill_of (with_queue e0 bus (kept ++ order :: rest) trades) ts order p)
        with (fill_of e0 ts order p).
      change (MarketEnvironment.message_bus
                (with_queue e0 bus (kept ++ order :: rest) trades)) with bus.
      change (MarketEnvironment.executed_trades
                (with_queue e0 bus (kept ++ order :: rest) trades)) with trades.
      rewrite Hrun. eexists. f_equal. f_equal.
      * f_equal. simpl. lia.
      * unfold with_queue, broadcasts. simpl. rewrite <- !app_assoc. reflexivity.
    + rewrite filter_cons_True by done.
      assert (Hfill : fill_for e0 order = None).
      { unfold executable in Hex. unfold fill_for.
        destruct (MarketEnvironment.current_time e0); [|done].
        destruct (MarketEnvironment.current_prices e0 !! Order.symbol order); [|done].
        apply negb_false_iff in Hex. by rewrite Hex. }
      rewrite Hfill.
      destruct (IH (kept ++ [order]) n bus trades) as [logs Hrun].
      { apply Forall_app. split; [done|]. by constructor. }
      rewrite <- !app_assoc in Hrun. simpl in Hrun.
      destruct (sweep_skip (with_queue e0 bus (kept ++ order :: rest) trades)
                  order rest n Hex) as [logs0 Hstep].
      rewrite Hstep, Hrun. eauto.
Qed.

Lemma execute_pending_orders_swept (e : MarketEnvironment.t) :
  engine_ok e ->
  exists logs,
    MarketEnvironment.execute_pending_orders e = (Return tt, swept e, logs).
Proof.
  intros Hok.
  destruct (sweep_spec e (MarketEnvironment.pending_orders e) Hok
              (proj2 (proj2 (proj2 Hok))) [] 0%nat
              (MarketEnvironment.message_bus e)
              (MarketEnvironment.executed_trades e) (Forall_nil_2 _)) as [logs Hrun].
  assert (He : with_queue e (MarketEnvironment.message_bus e)
                 ([] ++ MarketEnvironment.pending_orders e)
                 (MarketEnvironment.executed_trades e) = e) by (by destruct e).
  rewrite He in Hrun.
  unfold MarketEnvironment.execute_pending_orders, bind, get. rewrite Hrun.
  unfold with_queue, swept. simpl.
  destruct (0 <? length (fills e (MarketEnvironment.pending_orders e)))%nat;
    unfold log, ret; eauto.
Qed.

Lemma fill_for_executable (e : MarketEnvironment.t) (o : Order.t) :
  engine_ok e ->
  match fill_for e o with
  | Some trade =>
      executable e o = true /\
      exists ts p,
        MarketEnvironment.current_time e = Some ts /\
        MarketEnvironment.current_prices e !! Order.symbol o = Some p /\
        trade = fill_of e ts o p
  | None => executable e o = false
  end.
Proof.
  intros (_ & Hclock & _). unfold fill_for, executable.
  destruct (MarketEnvironment.current_time e) as [ts|] eqn:Htime.
  - destruct (MarketEnvironment.current_prices e !! Order.symbol o) as [p|]; [|done].
    destruct (MarketEnvironment.limit_blocks o p); [done|]. split; [done|].
    by exists ts, p.
  - rewrite (Hclock eq_refl), lookup_empty. done.
Qed.

Lemma fills_length (e : MarketEnvironment.t) (os : list Order.t) :
  engine_ok e ->
  length (fills e os) = length (filter (fun o => executable e o = true) os).
Proof.
  intros Hok. induction os as [|o os IH]; [done|].
  rewrite fills_cons.
  pose proof (fill_for_executable e o Hok) as Hf.
  destruct (fill_for e o).
  - destruct Hf as [Hex _]. rewrite filter_cons_True by done. simpl. by rewrite IH.
  - rewrite filter_cons_False by congruence. done.
Qed.

(** C6. One sweep of the execution engine over its queue.  The call
    returns and leaves the engine as [swept] describes: the orders that
    are not executed stay queued in their order, one trade per executed
    order is appended to the executed trades and its message is published
    on the trades channel.  An order whose symbol has no price stays
    queued; a limit BUY stays queued when the price is above its limit, a
    limit SELL when the price is below; an executed order leaves the
    queue, and its single trade carries the commission price * quantity *
    commission rate. *)
Theorem execution_sweep_spec (e : MarketEnvironment.t) :
  engine_ok e ->
  (exists logs,
      MarketEnvironment.execute_pending_orders e = (Return tt, swept e, logs)) /\
  (forall o,
      o ∈ MarketEnvironment.pending_orders e ->
      MarketEnvironment.current_prices e !! Order.symbol o = None ->
      o ∈ MarketEnvironment.pending_orders (swept e) /\ fill_for e o = None) /\
  (forall o p limit,
      o ∈ MarketEnvironment.pending_orders e ->
      MarketEnvironment.current_prices e !! Order.symbol o = Some p ->
      Order.price o = Some limit ->
      (Order.side o = BUY /\ limit < p \/ Order.side o = SELL /\ p < limit)%Q ->
      o ∈ MarketEnvironment.pending_orders (swept e) /\ fill_for e o = None) /\
  (forall o,
      o ∈ MarketEnvironment.pending_orders e ->
      executable e o = true ->
      (o ∉ MarketEnvironment.pending_orders (swept e)) /\
      exists ts p,
        MarketEnvironment.current_time e = Some ts /\
        MarketEnvironment.current_prices e !! Order.symbol o = Some p /\
        fill_for e o = Some (fill_of e ts o p) /\
        (Trade.commission (fill_of e ts o p) =
         p * inject_Z (Order.quantity o) * MarketEnvironment.commission_rate e)%Q /\
        fill_of e ts o p ∈ MarketEnvironment.executed_trades (swept e) /\
        ("trades", trade_message (fill_of e ts o p))
          ∈ MarketEnvironment.message_bus (swept e)) /\
  length (fills e (MarketEnvironment.pending_orders e)) =
  length (filter (fun o => executable e o = true) (MarketEnvironment.pending_orders e)).
Proof.
  intros Hok.
  assert (Hskip : forall o,
             o ∈ MarketEnvironment.pending_orders e -> executable e o = false ->
             o ∈ MarketEnvironment.pending_orders (swept e) /\ fill_for e o = None).
  { intros o Hin Hex. split.
    - simpl. apply list_elem_of_filter. done.
    - pose proof (fill_for_executable e o Hok) as Hf.
      destruct (fill_for e o); [|done]. destruct Hf as [Hf _]. congruence. }
  split; [by apply execute_pending_orders_swept|].
  split; [|split; [|split]].
  - intros o Hin Hp. apply Hskip; [done|]. unfold executable. by rewrite Hp.
  - intros o p limit Hin Hp Hlimit Hside. apply Hskip; [done|].
    unfold executable, MarketEnvironment.limit_blocks. rewrite Hp, Hlimit.
    destruct Hside as [[-> Hlt]|[-> Hlt]]; apply negb_false_iff.
    + by apply Qgtb_gt.
    + by apply Qltb_lt.
  - intros o Hin Hex. split.
    + simpl. rewrite list_elem_of_filter. intros [Hno _]. congruence.
    + pose proof (fill_for_executable e o Hok) as Hf.
      destruct (fill_for e o) as [trade|] eqn:Hfill; [|congruence].
      destruct Hf as (_ & ts & p & Htime & Hp & ->).
      exists ts, p. repeat split; try done.
      * simpl. apply elem_of_app. right. unfold fills.
        apply list_elem_of_omap. by exists o.
      * simpl. apply elem_of_app. right. unfold broadcasts.
        apply (list_elem_of_fmap_2 (fun t => ("trades", trade_message t))).
        unfold fills. apply list_elem_of_omap. by exists o.
  - by apply fills_length.
Qed.

Lemma sample_engine_ok : engine_ok sample_engine.
Proof.
  split; [discriminate|]. split; [discriminate|]. split.
  - apply map_Forall_singleton. reflexivity.
  - unfold sample_engine, Order.valid; simpl.
    repeat (apply Forall_cons; split); try apply Forall_nil; simpl; split; done.
Qed.

Lemma execution_sweep_spec_witness :
  (exists logs,
      MarketEnvironment.execute_pending_orders sample_engine =
      (Return tt, swept sample_engine, logs)) /\
  approved_order "o3" "MSFT" SELL 5 None
    ∈ MarketEnvironment.pending_orders (swept sample_engine) /\
  approved_order "o2" "AAPL" BUY 5 (Some 99%Q)
    ∈ MarketEnvironment.pending_orders (swept sample_engine) /\
  (approved_order "o1" "AAPL" BUY 10 None
     ∉ MarketEnvironment.pending_orders (swept sample_engine)) /\
  MarketEnvironment.executed_trades (swept sample_engine) =
  [Trade.mk "trade_o1" 7 "o1" "AAPL" BUY 10 100 (100 * inject_Z 10 * (1 # 1000))%Q
     "trader_1"].
Proof.
  destruct (execution_sweep_spec sample_engine sample_engine_ok)
    as (Hrun & Hnoprice & Hlimit & Hexec & _).
  split; [exact Hrun|]. split; [|split; [|split]].
  - apply (Hnoprice (approved_order "o3" "MSFT" SELL 5 None)).
    + do 2 apply list_elem_of_further. apply list_elem_of_here.
    + reflexivity.
  - apply (Hlimit (approved_order "o2" "AAPL" BUY 5 (Some 99%Q)) 100%Q 99%Q).
    + apply list_elem_of_further. apply list_elem_of_here.
    + reflexivity.
    + reflexivity.
    + left. split; reflexivity.
  - apply (Hexec (approved_order "o1" "AAPL" BUY 10 None)).
    + apply list_elem_of_here.
    + reflexivity.
  - reflexivity.
Defined.

(** The engine stays well formed along its own calls. *)
Lemma engine_ok_init bus data rate :
  (0 <= rate)%Q -> engine_ok (MarketEnvironment.__init__ bus data rate).
Proof.
  intros Hrate. split; [done|]. split; [done|]. split; [apply map_Forall_empty|].
  constructor.
Qed.

Lemma engine_ok_submit_order (e : MarketEnvironment.t) (order : Order.t) :
  engine_ok e -> Order.valid order ->
  engine_ok (state_of (MarketEnvironment.submit_order order e)).
Proof.
  intros (Hrate & Hclock & Hprices & Hqueue) Hvalid.
  unfold MarketEnvironment.submit_order.
  destruct (bool_decide (Order.status order <> APPROVED)); simpl; [done|].
  repeat split; try done. simpl. apply Forall_app. split; [done|]. by constructor.
Qed.

Lemma engine_ok_swept (e : MarketEnvironment.t) : engine_ok e -> engine_ok (swept e).
Proof.
  intros (Hrate & Hclock & Hprices & Hqueue). repeat split; try done. simpl.
  rewrite Forall_forall in Hqueue. apply Forall_forall. intros o Ho.
  apply list_elem_of_filter in Ho as [_ Ho]. by apply Hqueue.
Qed.

Lemma engine_ok_advance_day (day_data : list (string * MarketData.t))
    (e : MarketEnvironment.t) :
  engine_ok e -> is_Some (MarketEnvironment.current_time e) ->
  Forall (fun d => MarketData.valid (snd d)) day_data ->
  engine_ok (state_of (MarketEnvironment.advance_day day_data e)).
Proof.
  revert e. induction day_data as [|[symbol d] rest IH]; intros e Hok Htime Hdata.
  - done.
  - inversion Hdata as [|? ? Hd Hrest]; subst. simpl in Hd.
    cbn [MarketEnvironment.advance_day]. unfold bind, modify, MarketEnvironment.publish.
    simpl.
    match goal with
    | |- context [MarketEnvironment.advance_day rest ?s] =>
        assert (Hs : engine_ok s /\ is_Some (MarketEnvironment.current_time s));
        [|specialize (IH s (proj1 Hs) (proj2 Hs) Hrest);
          destruct (MarketEnvironment.advance_day rest s) as [[r s'] l]; exact IH]
    end.
    destruct Hok as (Hrate & Hclock & Hprices & Hqueue). split; [|done].
    repeat split; simpl; try done.
    + intros Hnone. destruct Htime as [ts Hts]. congruence.
    + apply map_Forall_insert_2; [|done]. by destruct Hd as (_ & _ & _ & ? & _).
Qed.

Lemma engine_ok_advance_time (e : MarketEnvironment.t) (target_date : Z) :
  engine_ok e ->
  map_Forall (fun _ day => Forall (fun d => MarketData.valid (snd d)) day)
    (MarketEnvironment.data_by_date e) ->
  engine_ok (state_of (MarketEnvironment.advance_time target_date e)).
Proof.
  intros Hok Hdata. unfold MarketEnvironment.advance_time, bind, get.
  destruct (MarketEnvironment.data_by_date e !! target_date) as [day|] eqn:Hday;
    [|done].
  unfold modify, log.
  pose proof (engine_ok_advance_day day
                (MarketEnvironment.set_current_time e (Some target_date))) as Hadv.
  destruct (MarketEnvironment.advance_day day _) as [[r s'] l].
  assert (Hs' : engine_ok s').
  { apply Hadv; [|by eexists|exact (Hdata _ _ Hday)].
    destruct Hok as (Hrate & Hclock & Hprices & Hqueue). repeat split; done. }
  by destruct r.
Qed.

(** C10. An order whose status is not APPROVED is turned away by
    [submit_order]: the call logs a warning and returns with the engine,
    its queue included, as it was, so a sweep after the call does what a
    sweep without it does. *)
Theorem submit_order_requires_approval (e : MarketEnvironment.t) (order : Order.t) :
  Order.status order <> APPROVED ->
  MarketEnvironment.submit_order order e =
  (Return tt, e, [(WARNING, RejectingNonApprovedOrder (Order.id order))]) /\
  MarketEnvironment.pending_orders (state_of (MarketEnvironment.submit_order order e)) =
  MarketEnvironment.pending_orders e /\
  MarketEnvironment.execute_pending_orders
    (state_of (MarketEnvironment.submit_order order e)) =
  MarketEnvironment.execute_pending_orders e.
Proof.
  intros Hstatus.
  assert (Hrun : MarketEnvironment.submit_order order e =
                 (Return tt, e, [(WARNING, RejectingNonApprovedOrder (Order.id order))])).
  { unfold MarketEnvironment.submit_order. by rewrite bool_decide_eq_true_2. }
  rewrite Hrun. done.
Qed.

Lemma submit_order_requires_approval_witness :
  MarketEnvironment.submit_order pending_order sample_engine =
  (Return tt, sample_engine, [(WARNING, RejectingNonApprovedOrder "o4")]).
Proof.
  apply (submit_order_requires_approval sample_engine pending_order).
  discriminate.
Defined.

(** ** Admission checks *)

Lemma first_failure_spec (checks : list check) :
  (Forall (fun c => c = None) checks ->
   first_failure checks = (true, [Lit "Order approved"])) /\
  (forall i reason,
      checks !! i = Some (Some reason) ->
      (forall j, (j < i)%nat -> checks !! j = Some None) ->
      first_failure checks = (false, reason)).
Proof.
  split.
  - induction 1 as [|c checks -> _ IH]; [done|]. exact IH.
  - induction checks as [|c checks IH]; intros i reason Hi Hbefore; [done|].
    destruct i as [|i].
    + simpl in Hi. injection Hi as ->. done.
    + assert (Hc : c = None).
      { specialize (Hbefore 0%nat ltac:(lia)). simpl in Hbefore. congruence. }
      subst c. simpl. apply (IH i); [done|].
      intros j Hj. apply (Hbefore (S j)). lia.
Qed.

(** C2. [_validate_order] applies the five admission checks in their
    order: its answer is the reason of the first check that fails, and
    approval with the reason "Order approved" when none fails. *)
Theorem validate_order_first_failure (self : RiskManagerAgent.t)
    (trader_id symbol side : string) (quantity : Z) (price : option Q) :
  let checks := admission_checks self trader_id symbol side quantity in
  let answer :=
    RiskManagerAgent._validate_order self trader_id symbol side quantity price in
  answer = first_failure checks /\
  (Forall (fun c => c = None) checks <-> answer = (true, [Lit "Order approved"])) /\
  (forall i reason,
      checks !! i = Some (Some reason) ->
      (forall j, (j < i)%nat -> checks !! j = Some None) ->
      answer = (false, reason)) /\
  (fst answer = true -> snd answer = [Lit "Order approved"]).
Proof.
  intros checks answer.
  assert (Heq : answer = first_failure checks).
  { subst checks answer.
    unfold RiskManagerAgent._validate_order, admission_checks, check_price.
    destruct (RiskManagerAgent.current_prices self !! symbol) as [p|]; [|done].
    cbn [first_failure]. unfold check_position_size.
    destruct (Qgtb _ (RiskManagerAgent.max_position_size self)); [done|].
    cbn [first_failure]. unfold check_cash. fold (shadowed_cash self trader_id).
    destruct (bool_decide (side = "BUY") && Qgtb _ (shadowed_cash self trader_id))
      eqn:Hcash; [done|].
    cbn [first_failure]. unfold check_shares. fold (held_quantity self trader_id symbol).
    assert (Hsell : negb (bool_decide (side = "BUY")) && bool_decide (side = "SELL")
                    = bool_decide (side = "SELL")).
    { destruct (bool_decide_reflect (side = "SELL")) as [->|]; [done|].
      by rewrite andb_false_r. }
    rewrite Hsell.
    destruct (bool_decide (side = "SELL")
              && (quantity >? held_quantity self trader_id symbol)%Z); [done|].
    cbn [first_failure]. unfold check_exposure.
    destruct (bool_decide (side = "BUY")); simpl; [|done].
    match goal with |- context [Qgtb ?a ?b] => by destruct (Qgtb a b) end. }
  destruct (first_failure_spec checks) as [Hpass Hfail].
  split; [exact Heq|]. split; [|split].
  - split; [intros Hall; rewrite Heq; by apply Hpass|].
    rewrite Heq. clear. induction checks as [|[r|] checks IH]; simpl.
    + constructor.
    + discriminate.
    + intros H. constructor; [done|]. by apply IH.
  - intros i reason Hi Hbefore. rewrite Heq. by apply (Hfail i).
  - rewrite Heq. clear. induction checks as [|[r|] checks IH]; simpl; try done.
Qed.

Lemma validate_order_first_failure_witness :
  RiskManagerAgent._validate_order scenario_risk_manager "trader_1" "AAPL" "SELL" 50 None
  = (false, [Lit "Insufficient shares: trying to sell "; FmtInt 50;
             Lit ", have "; FmtInt 10]).
Proof.
  apply (proj1 (proj2 (proj2 (validate_order_first_failure scenario_risk_manager
                                "trader_1" "AAPL" "SELL" 50 None))) 3%nat).
  - vm_compute. reflexivity.
  - intros j Hj.
    destruct j as [|[|[|j]]]; [vm_compute; reflexivity ..|lia].
Defined.

(** ** Stop-loss sweep *)

Lemma Qeq_bool_false_pos (x : Q) : (0 < x)%Q -> Qeq_bool x 0 = false.
Proof.
  intros Hx. apply not_true_iff_false. intros Heq.
  apply Qeq_bool_iff in Heq. rewrite Heq in Hx. by apply Qlt_irrefl in Hx.
Qed.

(** One turn of the loop on a well-formed position. *)
Lemma stop_loss_loop_step (now : Z) (self : RiskManagerAgent.t) (key : string)
    (pos : ShadowPosition.t) (rest : list (string * ShadowPosition.t)) :
  shadow_position_ok pos ->
  exists logs,
    RiskManagerAgent.stop_loss_loop now ((key, pos) :: rest) self =
    let '(r, s, l) :=
      RiskManagerAgent.stop_loss_loop now rest
        (RiskManagerAgent.set_message_bus self
           (RiskManagerAgent.message_bus self
            ++ on_alert_channel (option_list (alert_for self now pos)))) in
    (r, s, logs ++ l).
Proof.
  intros [Hq Havg]. cbn [RiskManagerAgent.stop_loss_loop].
  unfold bind at 1. unfold get at 1. unfold alert_for.
  assert (Hself : RiskManagerAgent.set_message_bus self
                    (RiskManagerAgent.message_bus self ++ []) = self).
  { rewrite app_nil_r. by destruct self. }
  destruct (RiskManagerAgent.current_prices self !! ShadowPosition.symbol pos)
    as [cp|].
  - assert (Hle : (ShadowPosition.quantity pos <=? 0)%Z = false)
      by (apply Z.leb_gt; exact Hq).
    rewrite Hle. unfold py_div. rewrite (Qeq_bool_false_pos _ Havg).
    unfold bind at 1. unfold ret at 1. unfold bind at 1.
    fold (loss_percent (ShadowPosition.avg_cost pos) cp).
    destruct (Qgtb (loss_percent (ShadowPosition.avg_cost pos) cp)
                (RiskManagerAgent.stop_loss_percent self)).
    + exists [(WARNING,
               StopLossTriggered (ShadowPosition.symbol pos)
                 (ShadowPosition.trader_id pos)
                 (loss_percent (ShadowPosition.avg_cost pos) cp)
                 (ShadowPosition.avg_cost pos) cp)].
      unfold bind, log, RiskManagerAgent.publish, modify.
      change (on_alert_channel (option_list (Some ?m))) with [("stop_loss_alerts", m)].
      by destruct (RiskManagerAgent.stop_loss_loop now rest _) as [[r s] l].
    + exists []. unfold ret.
      change (on_alert_channel (option_list None)) with (@nil (string * message)).
      rewrite Hself.
      by destruct (RiskManagerAgent.stop_loss_loop now rest self) as [[r s] l].
  - exists [].
    change (on_alert_channel (option_list None)) with (@nil (string * message)).
    rewrite Hself.
    by destruct (RiskManagerAgent.stop_loss_loop now rest self) as [[r s] l].
Qed.

Lemma alert_for_set_message_bus (self : RiskManagerAgent.t) (bus : outbox) (now : Z)
    (pos : ShadowPosition.t) :
  alert_for (RiskManagerAgent.set_message_bus self bus) now pos = alert_for self now pos.
Proof. reflexivity. Qed.

Lemma omap_cons_option_list {A B} (f : A -> option B) (x : A) (l : list A) :
  omap f (x :: l) = option_list (f x) ++ omap f l.
Proof. simpl. by destruct (f x). Qed.

Lemma stop_loss_loop_spec (now : Z) (self : RiskManagerAgent.t)
    (items : list (string * ShadowPosition.t)) :
  Forall shadow_position_ok (map snd items) ->
  forall bus,
  exists logs,
    RiskManagerAgent.stop_loss_loop now items
      (RiskManagerAgent.set_message_bus self bus) =
    (Return tt,
     RiskManagerAgent.set_message_bus self
       (bus ++ on_alert_channel (omap (alert_for self now) (map snd items))),
     logs).
Proof.
  induction items as [|[key pos] rest IH]; intros Hok bus.
  - exists []. simpl. unfold ret, on_alert_channel. simpl. by rewrite app_nil_r.
  - inversion Hok as [|? ? Hpos Hrest]; subst.
    destruct (stop_loss_loop_step now (RiskManagerAgent.set_message_bus self bus)
                key pos rest Hpos) as [logs0 Hstep].
    rewrite Hstep. rewrite alert_for_set_message_bus.
    destruct (IH Hrest (bus ++ on_alert_channel (option_list (alert_for self now pos))))
      as [logs Hrun].
    change (RiskManagerAgent.set_message_bus
              (RiskManagerAgent.set_message_bus self bus)
              (RiskManagerAgent.message_bus (RiskManagerAgent.set_message_bus self bus)
               ++ on_alert_channel (option_list (alert_for self now pos))))
      with (RiskManagerAgent.set_message_bus self
              (bus ++ on_alert_channel (option_list (alert_for self now pos)))).
    rewrite Hrun. eexists. f_equal. f_equal.
    cbn [map]. rewrite omap_cons_option_list.
    unfold on_alert_channel. by rewrite map_app, app_assoc.
Qed.

(** *** Ordered dictionaries *)

Section ODictFacts.
Context {V : Type}.
Implicit Types (d : odict V) (k : string) (v w : V).

Lemma od_set_set k v w d : od_set k v (od_set k w d) = od_set k v d.
Proof.
  induction d as [|[k' v'] d IH]; simpl.
  - by rewrite bool_decide_eq_true_2.
  - destruct (bool_decide_reflect (k' = k)) as [Hk|Hk]; simpl.
    + by rewrite bool_decide_eq_true_2.
    + rewrite bool_decide_eq_false_2 by done. by rewrite IH.
Qed.

Lemma od_del_set k w d : od_del k (od_set k w d) = od_del k d.
Proof.
  induction d as [|[k' v'] d IH]; simpl.
  - by rewrite bool_decide_eq_true_2.
  - destruct (bool_decide_reflect (k' = k)) as [Hk|Hk]; simpl.
    + by rewrite bool_decide_eq_true_2.
    + rewrite bool_decide_eq_false_2 by done. by rewrite IH.
Qed.

Lemma od_del_missing k d : od_get k d = None -> od_del k d = d.
Proof.
  induction d as [|[k' v'] d IH]; simpl; [done|].
  destruct (bool_decide (k' = k)); [done|]. intros H. by rewrite IH.
Qed.

Lemma od_get_set k v d : od_get k (od_set k v d) = Some v.
Proof.
  induction d as [|[k' v'] d IH]; simpl.
  - by rewrite bool_decide_eq_true_2.
  - destruct (bool_decide_reflect (k' = k)) as [Hk|Hk]; simpl.
    + by rewrite bool_decide_eq_true_2.
    + by rewrite bool_decide_eq_false_2.
Qed.

Lemma od_get_values k v d : od_get k d = Some v -> v ∈ od_values d.
Proof.
  induction d as [|[k' v'] d IH]; simpl; [done|].
  destruct (bool_decide (k' = k)).
  - intros [= ->]. apply list_elem_of_here.
  - intros H. apply list_elem_of_further. by apply IH.
Qed.

Lemma Forall_od_set (P : V -> Prop) k v d :
  P v -> Forall P (od_values d) -> Forall P (od_values (od_set k v d)).
Proof.
  intros Hv. induction d as [|[k' v'] d IH]; simpl; intros Hd.
  - by repeat constructor.
  - inversion Hd; subst. destruct (bool_decide (k' = k)); simpl.
    + by constructor.
    + constructor; [done|]. by apply IH.
Qed.

Lemma Forall_od_del (P : V -> Prop) k d :
  Forall P (od_values d) -> Forall P (od_values (od_del k d)).
Proof.
  induction d as [|[k' v'] d IH]; simpl; intros Hd; [done|].
  inversion Hd; subst. destruct (bool_decide (k' = k)); simpl; [done|].
  constructor; [done|]. by apply IH.
Qed.
End ODictFacts.

(** *** The shadow stays well formed *)

(** The shadow positions after a trade message, in closed form. *)
Lemma on_trade_executed_positions (self : RiskManagerAgent.t) (t : Trade.t) :
  let key := RiskManagerAgent.trader_key (Trade.trader_id t) (Trade.symbol t) in
  let positions := RiskManagerAgent.current_positions self in
  let pos :=
    default (ShadowPosition.mk (Trade.trader_id t) (Trade.symbol t) 0 0)
      (od_get key positions) in
  let q := ShadowPosition.quantity pos in
  RiskManagerAgent.current_positions
    (state_of (RiskManagerAgent._on_trade_executed (trade_message t) self)) =
  match Trade.side t with
  | BUY =>
      od_set key
        (ShadowPosition.mk (ShadowPosition.trader_id pos) (ShadowPosition.symbol pos)
           (q + Trade.quantity t)
           (if (q + Trade.quantity t >? 0)%Z
            then ((inject_Z q * ShadowPosition.avg_cost pos
                   + inject_Z (Trade.quantity t) * Trade.execution_price t)
                  / inject_Z (q + Trade.quantity t))%Q
            else 0%Q))
        positions
  | SELL =>
      if (q - Trade.quantity t <=? 0)%Z then od_del key positions
      else od_set key (ShadowPosition.set_quantity pos (q - Trade.quantity t)) positions
  end.
Proof.
  intros key positions pos q. subst pos q positions.
  unfold RiskManagerAgent._on_trade_executed, trade_message.
  fold key. unfold bind at 1. unfold get at 1.
  destruct (od_get key (RiskManagerAgent.current_positions self)) as [pos|] eqn:Hget.
  - unfold ret at 1. unfold bind at 1. unfold bind at 1. unfold get at 1.
    rewrite Hget. destruct (Trade.side t); simpl.
    + reflexivity.
    + destruct (ShadowPosition.quantity pos - Trade.quantity t <=? 0)%Z; simpl.
      * by rewrite od_del_set.
      * reflexivity.
  - unfold modify at 1. unfold bind at 1. unfold bind at 1. unfold get at 1.
    cbn [RiskManagerAgent.current_positions RiskManagerAgent.set_current_positions].
    rewrite od_get_set. destruct (Trade.side t); simpl.
    + by rewrite od_set_set.
    + destruct (0 - Trade.quantity t <=? 0)%Z; simpl.
      * rewrite !od_del_set. reflexivity.
      * by rewrite od_set_set.
Qed.

Lemma shadow_ok_init agent_id bus ipv mps slp mpr :
  shadow_ok (RiskManagerAgent.__init__ agent_id bus ipv mps slp mpr).
Proof. constructor. Qed.

Lemma shadow_ok_on_trade_executed (self : RiskManagerAgent.t) (t : Trade.t) :
  shadow_ok self -> Trade.valid t ->
  shadow_ok (state_of (RiskManagerAgent._on_trade_executed (trade_message t) self)).
Proof.
  intros Hok (Hqty & Hprice & _). unfold shadow_ok in *.
  rewrite on_trade_executed_positions.
  set (key := RiskManagerAgent.trader_key (Trade.trader_id t) (Trade.symbol t)).
  assert (Hpos : forall pos,
             od_get key (RiskManagerAgent.current_positions self) = Some pos ->
             shadow_position_ok pos).
  { intros pos Hget. rewrite Forall_forall in Hok. apply Hok.
    by apply (od_get_values key). }
  assert (Hq0 : (0 <= ShadowPosition.quantity
                        (default (ShadowPosition.mk (Trade.trader_id t) (Trade.symbol t) 0 0)
                           (od_get key (RiskManagerAgent.current_positions self))))%Z
                /\ (0 <= ShadowPosition.avg_cost
                        (default (ShadowPosition.mk (Trade.trader_id t) (Trade.symbol t) 0 0)
                           (od_get key (RiskManagerAgent.current_positions self))))%Q).
  { destruct (od_get key (RiskManagerAgent.current_positions self)) as [pos|]; simpl.
    - destruct (Hpos pos eq_refl) as [? ?]. split; [lia|by apply Qlt_le_weak].
    - split; [lia|apply Qle_refl]. }
  destruct Hq0 as [Hq0 Havg0].
  set (pos := default _ _) in *.
  destruct (Trade.side t).
  - apply Forall_od_set; [|done]. split; simpl; [lia|].
    assert (Hgt : (ShadowPosition.quantity pos + Trade.quantity t >? 0)%Z = true)
      by (apply Z.gtb_lt; lia).
    rewrite Hgt. apply Qlt_shift_div_l.
    + change 0%Q with (inject_Z 0). rewrite <- Zlt_Qlt. lia.
    + assert (H1 : (0 <= inject_Z (ShadowPosition.quantity pos)
                         * ShadowPosition.avg_cost pos)%Q).
      { apply Qmult_le_0_compat; [|done].
        change 0%Q with (inject_Z 0). rewrite <- Zle_Qle. lia. }
      assert (H2 : (0 < inject_Z (Trade.quantity t) * Trade.execution_price t)%Q).
      { apply Qmult_lt_0_compat; [|done].
        change 0%Q with (inject_Z 0). rewrite <- Zlt_Qlt. lia. }
      lra.
  - destruct (ShadowPosition.quantity pos - Trade.quantity t <=? 0)%Z eqn:Hle.
    + by apply Forall_od_del.
    + apply Forall_od_set; [|done]. apply Z.leb_gt in Hle.
      split; simpl; [lia|].
      subst pos.
      destruct (od_get key (RiskManagerAgent.current_positions self)) as [pos|] eqn:Hget;
        simpl in *.
      * by destruct (Hpos pos eq_refl).
      * lia.
Qed.

Lemma shadow_ok_on_market_update (self : RiskManagerAgent.t) (msg : message) :
  shadow_ok self -> shadow_ok (state_of (RiskManagerAgent._on_market_update msg self)).
Proof.
  intros Hok. unfold RiskManagerAgent._on_market_update.
  destruct msg; try done.
  by destruct (negb _ && negb _).
Qed.

Lemma shadow_ok_on_order_request (self : RiskManagerAgent.t) (now : Z) (msg : message) :
  shadow_ok self ->
  shadow_ok (state_of (RiskManagerAgent._on_order_request now msg self)).
Proof.
  intros Hok. unfold RiskManagerAgent._on_order_request.
  destruct msg; try done. unfold bind, get.
  by destruct (RiskManagerAgent._validate_order _ _ _ _ _ _) as [[|] reason].
Qed.

Lemma check_stop_losses_run (self : RiskManagerAgent.t) (now : Z) :
  shadow_ok self ->
  exists logs,
    RiskManagerAgent._check_stop_losses now self =
    (Return tt,
     RiskManagerAgent.set_message_bus self
       (RiskManagerAgent.message_bus self ++ on_alert_channel (alerts self now)),
     logs).
Proof.
  intros Hok.
  destruct (stop_loss_loop_spec now self (RiskManagerAgent.current_positions self) Hok
              (RiskManagerAgent.message_bus self)) as [logs Hrun].
  assert (Hself : RiskManagerAgent.set_message_bus self
                    (RiskManagerAgent.message_bus self) = self) by (by destruct self).
  rewrite Hself in Hrun.
  unfold RiskManagerAgent._check_stop_losses, bind, get. rewrite Hrun. eauto.
Qed.

(** C7. One stop-loss sweep over a shadow whose positions hold shares at a
    positive average cost (what the trade handler maintains).  The sweep
    returns, and publishes on the stop-loss channel, in the order of the
    shadow, exactly the alerts owed: for a position whose symbol has a
    price, with lossPercent = (avgCost - currentPrice) / avgCost, the
    alert with trader, symbol, quantity, avgCost, currentPrice and
    lossPercent if lossPercent > threshold, and none otherwise; none for
    a position without a price.  In the scenario (bought at 100, priced
    at 90, threshold 5%) the sweep publishes one alert, with a loss of
    one tenth. *)
Theorem stop_loss_sweep_spec (self : RiskManagerAgent.t) (now : Z) :
  shadow_ok self ->
  (exists logs,
      RiskManagerAgent._check_stop_losses now self =
      (Return tt,
       RiskManagerAgent.set_message_bus self
         (RiskManagerAgent.message_bus self ++ on_alert_channel (alerts self now)),
       logs)) /\
  (forall pos current_price,
      pos ∈ od_values (RiskManagerAgent.current_positions self) ->
      RiskManagerAgent.current_prices self !! ShadowPosition.symbol pos
      = Some current_price ->
      let loss := loss_percent (ShadowPosition.avg_cost pos) current_price in
      let alert :=
        stop_loss (ShadowPosition.trader_id pos) (ShadowPosition.symbol pos)
          (ShadowPosition.quantity pos) (ShadowPosition.avg_cost pos)
          current_price loss now in
      ((RiskManagerAgent.stop_loss_percent self < loss)%Q ->
       alert_for self now pos = Some alert /\ alert ∈ alerts self now) /\
      (~ (RiskManagerAgent.stop_loss_percent self < loss)%Q ->
       alert_for self now pos = None)) /\
  (forall alert,
      alert ∈ alerts self now ->
      exists pos current_price,
        pos ∈ od_values (RiskManagerAgent.current_positions self) /\
        RiskManagerAgent.current_prices self !! ShadowPosition.symbol pos
        = Some current_price /\
        (RiskManagerAgent.stop_loss_percent self
         < loss_percent (ShadowPosition.avg_cost pos) current_price)%Q /\
        alert =
        stop_loss (ShadowPosition.trader_id pos) (ShadowPosition.symbol pos)
          (ShadowPosition.quantity pos) (ShadowPosition.avg_cost pos)
          current_price (loss_percent (ShadowPosition.avg_cost pos) current_price)
          now) /\
  (exists avg loss,
      RiskManagerAgent.message_bus
        (state_of (RiskManagerAgent._check_stop_losses 3 scenario_risk_manager)) =
      [("stop_loss_alerts", stop_loss "trader_1" "AAPL" 10 avg 90 loss 3)] /\
      (avg == 100)%Q /\ (loss == 1 # 10)%Q).
Proof.
  intros Hok. split; [by apply check_stop_losses_run|]. split; [|split].
  - intros pos cp Hin Hcp loss alert. split.
    + intros Hlt.
      assert (Hfor : alert_for self now pos = Some alert).
      { unfold alert_for. rewrite Hcp. fold loss.
        apply Qgtb_gt in Hlt. by rewrite Hlt. }
      split; [done|]. unfold alerts. apply list_elem_of_omap. by exists pos.
    + intros Hnlt. unfold alert_for. rewrite Hcp. fold loss.
      destruct (Qgtb loss (RiskManagerAgent.stop_loss_percent self)) eqn:Hgt; [|done].
      apply Qgtb_gt in Hgt. contradiction.
  - intros alert Hin. unfold alerts in Hin.
    apply list_elem_of_omap in Hin as (pos & Hpos & Hfor).
    unfold alert_for in Hfor.
    destruct (RiskManagerAgent.current_prices self !! ShadowPosition.symbol pos)
      as [cp|] eqn:Hcp; [|done].
    destruct (Qgtb _ (RiskManagerAgent.stop_loss_percent self)) eqn:Hgt; [|done].
    injection Hfor as <-. apply Qgtb_gt in Hgt. by exists pos, cp.
  - eexists _, _. split; [vm_compute; reflexivity|]. split; reflexivity.
Qed.

Lemma scenario_risk_manager_ok : shadow_ok scenario_risk_manager.
Proof.
  apply shadow_ok_on_market_update.
  apply shadow_ok_on_trade_executed; [apply shadow_ok_init|].
  split; [reflexivity|]. split; [reflexivity|discriminate].
Qed.

Lemma stop_loss_sweep_spec_witness :
  (exists logs,
      RiskManagerAgent._check_stop_losses 3 scenario_risk_manager =
      (Return tt,
       RiskManagerAgent.set_message_bus scenario_risk_manager
         (RiskManagerAgent.message_bus scenario_risk_manager
          ++ on_alert_channel (alerts scenario_risk_manager 3)),
       logs)) /\
  (exists pos,
      od_get "trader_1_AAPL" (RiskManagerAgent.current_positions scenario_risk_manager)
      = Some pos /\
      alert_for scenario_risk_manager 3 pos =
      Some (stop_loss "trader_1" "AAPL" 10 (ShadowPosition.avg_cost pos) 90
              (loss_percent (ShadowPosition.avg_cost pos) 90) 3)).
Proof.
  destruct (stop_loss_sweep_spec scenario_risk_manager 3 scenario_risk_manager_ok)
    as (Hrun & Halert & _).
  split; [exact Hrun|].
  destruct (od_get "trader_1_AAPL"
              (RiskManagerAgent.current_positions scenario_risk_manager))
    as [pos|] eqn:Hget; [|vm_compute in Hget; discriminate].
  exists pos. split; [reflexivity|].
  assert (Hin : pos ∈ od_values (RiskManagerAgent.current_positions scenario_risk_manager))
    by (by apply (od_get_values "trader_1_AAPL")).
  assert (Hpos : pos = ShadowPosition.mk "trader_1" "AAPL" 10 ((0 * 0 + 10 * 100) / 10)%Q).
  { vm_compute in Hget. injection Hget as <-. vm_compute. reflexivity. }
  destruct (Halert pos 90%Q Hin) as [Hyes _].
  { rewrite Hpos. reflexivity. }
  destruct Hyes as [Hfor _].
  { rewrite Hpos. reflexivity. }
  rewrite Hfor, Hpos. reflexivity.
Defined.

(** ** Agent lifecycle *)

Lemma subscribe_all_spec (subs : list (string * string)) (a : BaseAgent.t) :
  exists logs,
    BaseAgent.subscribe_all subs a =
    (Return tt,
     BaseAgent.set_bus_channels a
       (BaseAgent.bus_channels a
        ++ map (fun '(channel, handler) => (channel, (BaseAgent.agent_id a, handler)))
             subs),
     logs).
Proof.
  revert a. induction subs as [|[channel handler] subs IH]; intros a.
  - exists []. simpl. unfold ret. rewrite app_nil_r. by destruct a.
  - cbn [BaseAgent.subscribe_all]. unfold bind at 1.
    unfold BaseAgent.subscribe, bind, modify, log.
    destruct (IH (BaseAgent.set_bus_channels a
                    (BaseAgent.bus_channels a
                     ++ [(channel, (BaseAgent.agent_id a, handler))])))
      as [logs Hrun].
    rewrite Hrun. eexists. f_equal. f_equal. simpl.
    by rewrite <- app_assoc.
Qed.

Lemma start_when_stopped `{AgentClass} (a : BaseAgent.t) :
  BaseAgent._running a = false ->
  exists logs,
    BaseAgent.start a =
    (Return tt,
     BaseAgent.mk (BaseAgent.agent_id a) true (Some (length (BaseAgent.loop_tasks a)))
       (BaseAgent.bus_channels a ++ registrations (BaseAgent.agent_id a))
       (BaseAgent.loop_tasks a ++ [TaskRunning]),
     logs).
Proof.
  intros Hrun. unfold BaseAgent.start. unfold bind at 1. unfold get at 1.
  rewrite Hrun. unfold bind at 1. unfold modify at 1. unfold bind at 1.
  destruct (subscribe_all_spec _setup_subscriptions (BaseAgent.set_running a true))
    as [logs Hsub].
  rewrite Hsub. unfold BaseAgent.create_task, bind, get, modify, ret, log. simpl.
  eauto.
Qed.

Lemma start_when_running `{AgentClass} (a : BaseAgent.t) :
  BaseAgent._running a = true ->
  BaseAgent.start a = (Return tt, a, [(WARNING, AgentAlreadyRunning)]).
Proof.
  intros Hrun. unfold BaseAgent.start, bind, get, log, ret. rewrite Hrun. reflexivity.
Qed.

Lemma start_running `{AgentClass} (a : BaseAgent.t) :
  BaseAgent._running (state_of (BaseAgent.start a)) = true.
Proof.
  destruct (BaseAgent._running a) eqn:Hrun.
  - by rewrite start_when_running.
  - destruct (start_when_stopped a Hrun) as [logs ->]. reflexivity.
Qed.

Lemma cancel_cancel (h : nat) (tasks : list task_state) :
  BaseAgent.cancel h (BaseAgent.cancel h tasks) = BaseAgent.cancel h tasks.
Proof.
  unfold BaseAgent.cancel.
  destruct (tasks !! h) as [[| |e|]|] eqn:Hh; rewrite ?Hh; try done.
  rewrite list_lookup_insert_eq; [done|]. by eapply lookup_lt_Some.
Qed.

Lemma cancel_lookup_failed (h : nat) (tasks : list task_state) (e : exn) :
  BaseAgent.cancel h tasks !! h = Some (TaskFailed e) <-> tasks !! h = Some (TaskFailed e).
Proof.
  unfold BaseAgent.cancel.
  destruct (tasks !! h) as [[| |e'|]|] eqn:Hh; rewrite ?Hh; try done.
  rewrite list_lookup_insert_eq; [|by eapply lookup_lt_Some]. done.
Qed.

(** What [stop] leaves and returns. *)
Lemma stop_spec (a : BaseAgent.t) :
  let tasks' :=
    match BaseAgent._task a with
    | Some h => BaseAgent.cancel h (BaseAgent.loop_tasks a)
    | None => BaseAgent.loop_tasks a
    end in
  let a' :=
    BaseAgent.mk (BaseAgent.agent_id a) false (BaseAgent._task a)
      (BaseAgent.bus_channels a) tasks' in
  BaseAgent.stop a =
  match BaseAgent._task a with
  | Some h =>
      match BaseAgent.loop_tasks a !! h with
      | Some (TaskFailed e) => (Raised e, a', [])
      | _ => (Return tt, a', [(INFO, AgentStopped (BaseAgent.agent_id a))])
      end
  | None => (Return tt, a', [(INFO, AgentStopped (BaseAgent.agent_id a))])
  end.
Proof.
  destruct a as [id running task chans tasks].
  unfold BaseAgent.stop, bind, modify, get, log, ret, raise. simpl.
  destruct task as [h|]; simpl; [|done].
  unfold BaseAgent.cancel.
  destruct (tasks !! h) as [[| |e|]|] eqn:Hh; rewrite ?Hh; try done.
  rewrite list_lookup_insert_eq; [done|]. by eapply lookup_lt_Some.
Qed.

(** C9. A second [start] on an agent that runs logs a warning and does
    nothing else: no subscription is registered and no task is created,
    so an agent started twice from rest has registered its subscriptions
    once and owns one running loop.  A second [stop] leaves the agent, the
    registry and the tasks as the first one left them and ends as the
    first one did. *)
Theorem start_stop_idempotent `{AgentClass} (a : BaseAgent.t) :
  let started := state_of (BaseAgent.start a) in
  let stopped := state_of (BaseAgent.stop a) in
  BaseAgent.start started = (Return tt, started, [(WARNING, AgentAlreadyRunning)]) /\
  (BaseAgent._running a = false ->
   let twice := state_of (BaseAgent.start started) in
   BaseAgent._running twice = true /\
   BaseAgent._task twice = Some (length (BaseAgent.loop_tasks a)) /\
   BaseAgent.loop_tasks twice = BaseAgent.loop_tasks a ++ [TaskRunning] /\
   BaseAgent.bus_channels twice =
   BaseAgent.bus_channels a ++ registrations (BaseAgent.agent_id a) /\
   active_loops twice = S (active_loops a)) /\
  state_of (BaseAgent.stop stopped) = stopped /\
  result_of (BaseAgent.stop stopped) = result_of (BaseAgent.stop a) /\
  (result_of (BaseAgent.stop stopped) = Return tt ->
   logs_of (BaseAgent.stop stopped) = [(INFO, AgentStopped (BaseAgent.agent_id a))]).
Proof.
  intros started stopped.
  assert (Hagain : BaseAgent.start started =
                   (Return tt, started, [(WARNING, AgentAlreadyRunning)])).
  { apply start_when_running. apply start_running. }
  split; [exact Hagain|]. split.
  - intros Hrest twice. subst twice. rewrite Hagain. unfold state_of; simpl.
    subst started. destruct (start_when_stopped a Hrest) as [logs ->].
    unfold state_of; simpl. repeat split.
    unfold active_loops; simpl. rewrite filter_app, length_app. simpl. lia.
  - subst stopped. rewrite !(stop_spec a). rewrite !stop_spec.
    destruct (BaseAgent._task a) as [h|] eqn:Htask; simpl.
    + destruct (BaseAgent.loop_tasks a !! h) as [[| |e|]|] eqn:Hh; simpl;
        rewrite ?Htask; simpl; rewrite ?cancel_cancel;
        unfold BaseAgent.cancel; rewrite ?Hh; simpl; rewrite ?Hh;
        try rewrite list_lookup_insert_eq by (by eapply lookup_lt_Some); simpl;
        rewrite ?Hh; simpl; try done.
    + done.
Qed.

Lemma start_stop_idempotent_witness :
  let twice :=
    state_of (@BaseAgent.start TraderAgent_class
                (state_of (@BaseAgent.start TraderAgent_class fresh_trader_runtime))) in
  BaseAgent.loop_tasks twice = [TaskRunning] /\
  BaseAgent.bus_channels twice =
  [("signals", ("trader_1", "_on_signal"));
   ("market_data", ("trader_1", "_on_market_update"));
   ("risk_decisions", ("trader_1", "_on_risk_decision"));
   ("trades", ("trader_1", "_on_trade_executed"))] /\
  active_loops twice = 1%nat.
Proof.
  destruct (proj1 (proj2 (@start_stop_idempotent TraderAgent_class fresh_trader_runtime))
              eq_refl) as (_ & _ & Htasks & Hsubs & Hloops).
  split; [exact Htasks|]. split; [exact Hsubs|exact Hloops].
Defined.

(** ** Order status in the trader *)

Ltac run_trader_monad :=
  unfold py_div, Order_new, TraderAgent.append_order, TraderAgent.publish,
    TraderAgent.update_order, TraderAgent.remove_order;
  unfold bind, get, modify, log, ret, raise, state_of; simpl.

Lemma place_buy_order_effect now symbol current_price signal_id (st : TraderAgent.t) :
  effect st (state_of (TraderAgent._place_buy_order now symbol current_price signal_id st)).
Proof.
  unfold TraderAgent._place_buy_order. run_trader_monad.
  repeat case_match; simpl; simplify_eq;
    try (by apply effect_none).
  all: eapply effect_placed; cycle 1;
    [simpl; reflexivity | simpl; reflexivity | reflexivity].
Qed.

Lemma place_sell_order_effect now symbol current_price signal_id (st : TraderAgent.t) :
  effect st (state_of (TraderAgent._place_sell_order now symbol current_price signal_id st)).
Proof.
  unfold TraderAgent._place_sell_order. run_trader_monad.
  repeat case_match; simpl; simplify_eq;
    try (by apply effect_none).
  all: eapply effect_placed; cycle 1;
    [simpl; reflexivity | simpl; reflexivity | reflexivity].
Qed.

Lemma on_signal_effect now msg (st : TraderAgent.t) :
  effect st (state_of (TraderAgent._on_signal now msg st)).
Proof.
  unfold TraderAgent._on_signal.
  destruct msg; try (by apply effect_none).
  unfold bind at 1. unfold get at 1.
  assert (Hnone : forall l, effect st (state_of (Return tt, st, l)))
    by (intros l; by apply effect_none).
  repeat match goal with
         | |- context [if ?c then _ else _] => destruct c
         | |- context [match ?c with Some _ => _ | None => _ end] => destruct c
         end;
    unfold ret, bind, log; simpl; try apply Hnone.
  - pose proof (place_buy_order_effect now symbol q (Some signal_id) st) as He.
    by destruct (TraderAgent._place_buy_order now symbol q (Some signal_id) st)
      as [[r s] l].
  - pose proof (place_sell_order_effect now symbol q (Some signal_id) st) as He.
    by destruct (TraderAgent._place_sell_order now symbol q (Some signal_id) st)
      as [[r s] l].
Qed.

Lemma on_market_update_effect msg (st : TraderAgent.t) :
  effect st (state_of (TraderAgent._on_market_update msg st)).
Proof.
  unfold TraderAgent._on_market_update.
  destruct msg; try (by apply effect_none).
  destruct (negb _ && negb _); by apply effect_none.
Qed.

(** [find_order] returns the first tracked address whose object has the id. *)
Lemma find_order_spec (orders : list Order.t) (order_id : string) (pending : list nat)
    (a : nat) :
  TraderAgent.find_order orders order_id pending = Some a ->
  exists pre post o,
    pending = pre ++ a :: post /\
    orders !! a = Some o /\ Order.id o = order_id /\
    Forall (fun b => forall ob, orders !! b = Some ob -> Order.id ob <> order_id) pre.
Proof.
  induction pending as [|b pending IH]; simpl; [done|].
  destruct (orders !! b) as [ob|] eqn:Hb.
  - destruct (bool_decide_reflect (Order.id ob = order_id)) as [Hid|Hid].
    + intros [= ->]. exists [], pending, ob. by repeat split.
    + intros Hfind. destruct (IH Hfind) as (pre & post & o & -> & Ho & Hido & Hpre).
      exists (b :: pre), post, o. repeat split; try done.
      constructor; [|done]. intros ob2 Hob2. congruence.
  - intros Hfind. destruct (IH Hfind) as (pre & post & o & -> & Ho & Hido & Hpre).
    exists (b :: pre), post, o. repeat split; try done.
    constructor; [|done]. intros ob2 Hob2. congruence.
Qed.

Lemma Order_eqb_id (x y : Order.t) : Order_eqb x y = true -> Order.id x = Order.id y.
Proof.
  unfold Order_eqb. rewrite !andb_true_iff, !bool_decide_eq_true. tauto.
Qed.

(** Removing the matched order drops exactly its address. *)
Lemma remove_matched (orders orders2 : list Order.t) (order_id : string)
    (pre post : list nat) (a : nat) (o o2 : Order.t) :
  orders !! a = Some o -> Order.id o = order_id ->
  orders2 !! a = Some o2 -> Order.id o2 = order_id ->
  (forall b, b <> a -> orders2 !! b = orders !! b) ->
  Forall (fun b => forall ob, orders !! b = Some ob -> Order.id ob <> order_id) pre ->
  py_remove (TraderAgent.same_order orders2) a (pre ++ a :: post) = Some (pre ++ post).
Proof.
  intros Ho Hid Ho2 Hid2 Hother Hpre. apply py_remove_middle.
  - eapply Forall_impl; [exact Hpre|]. intros b Hb. simpl in Hb.
    assert (Hba : b <> a).
    { intros ->. by apply (Hb o). }
    unfold TraderAgent.same_order. rewrite bool_decide_eq_false_2 by done. simpl.
    rewrite (Hother b Hba), Ho2.
    destruct (orders !! b) as [ob|] eqn:Hob; [|done].
    destruct (Order_eqb ob o2) eqn:Heq; [|done].
    apply Order_eqb_id in Heq. exfalso. apply (Hb ob eq_refl). congruence.
  - unfold TraderAgent.same_order. by rewrite bool_decide_eq_true_2.
Qed.

Lemma on_risk_decision_effect now msg (st : TraderAgent.t) :
  effect st (state_of (TraderAgent._on_risk_decision now msg st)).
Proof.
  unfold TraderAgent._on_risk_decision.
  destruct msg as [| | |order_id approved reason ts| | | |]; try (by apply effect_none).
  unfold bind at 1. unfold get at 1.
  destruct (TraderAgent.find_order (TraderAgent.orders st) order_id
              (TraderAgent.pending_orders st)) as [a|] eqn:Hfind;
    [|by apply effect_none].
  destruct (find_order_spec _ _ _ _ Hfind) as (pre & post & o & Hpending & Ho & Hid & Hpre).
  assert (Hlt : (a < length (TraderAgent.orders st))%nat) by (by eapply lookup_lt_Some).
  destruct approved.
  - run_trader_monad. rewrite Ho. simpl.
    rewrite list_lookup_insert_eq by done. simpl.
    eapply (effect_approved _ _ a o); simpl; try done.
    rewrite Hpending. apply elem_of_app. right. apply list_elem_of_here.
  - run_trader_monad. rewrite Ho. simpl.
    rewrite list_lookup_insert_eq by done. simpl.
    rewrite list_insert_insert_eq.
    rewrite Hpending.
    rewrite (remove_matched (TraderAgent.orders st) _ order_id pre post a o
               (Order.set_rejection_reason (Order.set_status o REJECTED) (Some reason)));
      try done.
    + simpl. by eapply (effect_rejected _ _ a o reason pre post).
    + apply list_lookup_insert_eq. done.
    + intros b Hb. by apply list_lookup_insert_ne.
Qed.

Lemma on_trade_executed_effect msg (st : TraderAgent.t) :
  effect st (state_of (TraderAgent._on_trade_executed msg st)).
Proof.
  unfold TraderAgent._on_trade_executed.
  destruct msg as [| | | | |trade_id order_id symbol side quantity price commission ts tid
                   | |]; try (by apply effect_none).
  unfold bind at 1. unfold get at 1.
  destruct (TraderAgent.find_order (TraderAgent.orders st) order_id
              (TraderAgent.pending_orders st)) as [a|] eqn:Hfind;
    [|by apply effect_none].
  destruct (find_order_spec _ _ _ _ Hfind) as (pre & post & o & Hpending & Ho & Hid & Hpre).
  assert (Hrm : py_remove (TraderAgent.same_order (TraderAgent.orders st)) a
                  (pre ++ a :: post) = Some (pre ++ post)).
  { by apply (remove_matched (TraderAgent.orders st) _ order_id pre post a o o). }
  destruct (bool_decide (side = "BUY")); [|destruct (bool_decide (side = "SELL"))];
    run_trader_monad; rewrite Hpending, Hrm; simpl;
    repeat case_match; simplify_eq; simpl; by eapply (effect_filled _ _ a pre post).
Qed.

Lemma deliver_effect (st : TraderAgent.t) (d : delivery) : effect st (deliver_to st d).
Proof.
  destruct d as [[now channel] msg]. unfold deliver_to, TraderAgent.deliver.
  repeat case_match.
  - apply on_signal_effect.
  - apply on_market_update_effect.
  - apply on_risk_decision_effect.
  - apply on_trade_executed_effect.
  - by apply effect_none.
Qed.

Lemma trader_inv_bound (st : TraderAgent.t) (a : nat) :
  trader_inv st -> a ∈ TraderAgent.pending_orders st ->
  (a < length (TraderAgent.orders st))%nat.
Proof.
  intros [_ Hall] Ha. destruct (Hall a Ha) as (o & Ho & _). by eapply lookup_lt_Some.
Qed.

Lemma effect_inv (st st2 : TraderAgent.t) :
  trader_inv st -> effect st st2 -> trader_inv st2.
Proof.
  intros Hinv Heff. pose proof Hinv as [Hnd Hall].
  destruct Heff as [Ho Hp|o Hs Ho Hp|a o Ha Hlk Ho Hp|a o reason pre post Hpre Hlk Ho Hp
                    |a pre post Hpre Ho Hp]; split; rewrite ?Hp.
  - done.
  - intros a Ha. rewrite Ho. by apply Hall.
  - apply NoDup_app. split; [done|]. split; [|apply NoDup_singleton].
    intros a Ha Ha2. apply list_elem_of_singleton in Ha2.
    pose proof (trader_inv_bound st a Hinv Ha). lia.
  - intros a Ha. rewrite Ho. apply elem_of_app in Ha as [Ha|Ha].
    + destruct (Hall a Ha) as (o2 & Ho2 & Hst). exists o2. split; [|done].
      by apply lookup_app_l_Some.
    + apply list_elem_of_singleton in Ha as ->. exists o. split; [|by left].
      rewrite lookup_app_r by lia. by rewrite Nat.sub_diag.
  - done.
  - intros b Hb. rewrite Ho. destruct (decide (b = a)) as [->|Hne].
    + eexists. split; [apply list_lookup_insert_eq; by eapply lookup_lt_Some|].
      by right.
    + rewrite list_lookup_insert_ne by done. by apply Hall.
  - rewrite Hpre in Hnd. apply NoDup_app in Hnd as (Hnd1 & Hdisj & Hnd2).
    apply NoDup_cons in Hnd2 as [Hnotin Hnd2].
    apply NoDup_app. repeat split; try done.
    intros b Hb1 Hb2. apply (Hdisj b Hb1). by apply list_elem_of_further.
  - intros b Hb. rewrite Ho.
    assert (Hne : b <> a).
    { rewrite Hpre in Hnd. apply NoDup_app in Hnd as (Hnd1 & Hdisj & Hnd2).
      apply NoDup_cons in Hnd2 as [Hnotin Hnd2].
      intros ->. apply elem_of_app in Hb as [Hb|Hb]; [|done].
      apply (Hdisj a Hb). apply list_elem_of_here. }
    rewrite list_lookup_insert_ne by done. apply Hall. rewrite Hpre.
    apply elem_of_app in Hb as [Hb|Hb]; apply elem_of_app; [by left|].
    right. by apply list_elem_of_further.
  - rewrite Hpre in Hnd. apply NoDup_app in Hnd as (Hnd1 & Hdisj & Hnd2).
    apply NoDup_cons in Hnd2 as [Hnotin Hnd2].
    apply NoDup_app. repeat split; try done.
    intros b Hb1 Hb2. apply (Hdisj b Hb1). by apply list_elem_of_further.
  - intros b Hb. rewrite Ho. apply Hall. rewrite Hpre.
    apply elem_of_app in Hb as [Hb|Hb]; apply elem_of_app; [by left|].
    right. by apply list_elem_of_further.
Qed.

Lemma effect_status (st st2 : TraderAgent.t) (a : nat) (s : OrderStatus) :
  trader_inv st -> effect st st2 -> status_at st a = Some s ->
  exists s2, status_at st2 a = Some s2 /\ trader_step s s2.
Proof.
  intros [Hnd Hall] Heff. unfold status_at.
  destruct (TraderAgent.orders st !! a) as [oa|] eqn:Hoa; [|done].
  intros [= <-].
  assert (Hsame : TraderAgent.orders st2 !! a = Some oa ->
                  exists s2, Order.status <$> TraderAgent.orders st2 !! a = Some s2 /\
                             trader_step (Order.status oa) s2).
  { intros ->. exists (Order.status oa). split; [done|by left]. }
  destruct Heff as [Ho Hp|o Hs Ho Hp|b o Hb Hlk Ho Hp|b o reason pre post Hpre Hlk Ho Hp
                    |b pre post Hpre Ho Hp].
  - apply Hsame. by rewrite Ho.
  - apply Hsame. rewrite Ho. by apply lookup_app_l_Some.
  - destruct (decide (a = b)) as [->|Hne].
    + rewrite Ho, list_lookup_insert_eq by (by eapply lookup_lt_Some).
      exists APPROVED. split; [done|].
      destruct (Hall b Hb) as (o2 & Ho2 & Hst).
      assert (o2 = oa) as -> by congruence.
      destruct Hst as [Hst|Hst]; rewrite Hst; [right; left; done|by left].
    + apply Hsame. rewrite Ho. by rewrite list_lookup_insert_ne.
  - destruct (decide (a = b)) as [->|Hne].
    + rewrite Ho, list_lookup_insert_eq by (by eapply lookup_lt_Some).
      exists REJECTED. split; [done|].
      assert (Hb : b ∈ TraderAgent.pending_orders st).
      { rewrite Hpre. apply elem_of_app. right. apply list_elem_of_here. }
      destruct (Hall b Hb) as (o2 & Ho2 & Hst).
      assert (o2 = oa) as -> by congruence.
      destruct Hst as [Hst|Hst]; rewrite Hst; right.
      * right; left; done.
      * right; right; done.
    + apply Hsame. rewrite Ho. by rewrite list_lookup_insert_ne.
  - apply Hsame. by rewrite Ho.
Qed.

(** *** Traces *)

Lemma chain_tail {A} (R : A -> A -> Prop) (x : A) (l : list A) :
  chain R (x :: l) -> chain R l.
Proof. destruct l as [|y l]; [done|]. by intros [_ H]. Qed.

Lemma chain_app_r {A} (R : A -> A -> Prop) (pre l : list A) :
  chain R (pre ++ l) -> chain R l.
Proof.
  induction pre as [|x pre IH]; [done|]. intros H. apply IH.
  by apply (chain_tail R x).
Qed.

Lemma trader_step_later (s s2 : OrderStatus) : trader_step s s2 -> later_status s s2.
Proof.
  intros [<-|[[-> ->]|[[-> ->]|[-> ->]]]]; unfold later_status; simpl;
    repeat split; try done; try lia; eauto.
Qed.

Lemma later_status_trans (s s2 s3 : OrderStatus) :
  later_status s s2 -> later_status s2 s3 -> later_status s s3.
Proof.
  intros (Hr1 & Ht1 & Hv1) (Hr2 & Ht2 & Hv2). repeat split.
  - lia.
  - intros Hs. by apply Ht2, Ht1.
  - destruct Hv2 as [-> | [-> | ->]]; [done|right; by left|right; by right].
Qed.

Lemma chain_later (s : OrderStatus) (l : list OrderStatus) :
  chain trader_step (s :: l) -> Forall (later_status s) l.
Proof.
  revert s. induction l as [|s2 l IH]; intros s Hchain; [constructor|].
  destruct Hchain as [Hstep Hchain]. apply trader_step_later in Hstep.
  constructor; [done|].
  eapply Forall_impl; [apply (IH s2 Hchain)|].
  intros s3 Hs3. simpl in Hs3. by eapply later_status_trans.
Qed.

Lemma changes_edges (l : list OrderStatus) :
  chain trader_step l ->
  Forall (fun p => trader_edge (fst p) (snd p)) (changes l).
Proof.
  induction l as [|x [|y l] IH]; [constructor..|].
  intros [Hxy Hchain]. cbn [changes].
  destruct (decide (x = y)) as [->|Hne]; [by apply IH|].
  constructor; [|by apply IH].
  simpl. by destruct Hxy.
Qed.

Lemma changes_from (x : OrderStatus) (l : list OrderStatus) :
  chain trader_step (x :: l) ->
  Forall (fun p => (rank x <= rank (fst p))%nat) (changes (x :: l)).
Proof.
  revert x. induction l as [|y l IH]; intros x Hchain; [constructor|].
  destruct Hchain as [Hxy Hchain]. cbn [changes].
  assert (Hle : (rank x <= rank y)%nat) by (by destruct (trader_step_later x y Hxy)).
  assert (Hrest : Forall (fun p => (rank x <= rank (fst p))%nat) (changes (y :: l))).
  { eapply Forall_impl; [apply (IH y Hchain)|]. intros p Hp. simpl in Hp. lia. }
  destruct (decide (x = y)); [done|]. by constructor.
Qed.

Lemma changes_NoDup (l : list OrderStatus) :
  chain trader_step l -> NoDup (changes l).
Proof.
  induction l as [|x [|y l] IH]; [constructor..|].
  intros [Hxy Hchain]. cbn [changes].
  destruct (decide (x = y)) as [->|Hne]; [by apply IH|].
  apply NoDup_cons. split; [|by apply IH].
  intros Hin. pose proof (changes_from y l Hchain) as Hfrom.
  rewrite Forall_forall in Hfrom. specialize (Hfrom _ Hin). simpl in Hfrom.
  destruct Hxy as [Heq|Hedge]; [done|].
  destruct Hedge as [[-> ->]|[[-> ->]|[-> ->]]]; simpl in Hfrom; lia.
Qed.

Lemma status_trace_cons (d : delivery) (ds : list delivery) (st : TraderAgent.t)
    (a : nat) :
  status_trace (d :: ds) st a =
  match status_at st a with
  | Some s => s :: status_trace ds (deliver_to st d) a
  | None => status_trace ds (deliver_to st d) a
  end.
Proof. reflexivity. Qed.

Lemma status_trace_chain (ds : list delivery) (st : TraderAgent.t) (a : nat)
    (s : OrderStatus) :
  trader_inv st -> status_at st a = Some s ->
  exists rest,
    status_trace ds st a = s :: rest /\ length rest = length ds /\
    chain trader_step (s :: rest).
Proof.
  revert st s. induction ds as [|d ds IH]; intros st s Hinv Hs.
  - exists []. unfold status_trace. simpl. by rewrite Hs.
  - pose proof (deliver_effect st d) as Heff.
    destruct (effect_status st _ a s Hinv Heff Hs) as (s2 & Hs2 & Hstep).
    destruct (IH (deliver_to st d) s2 (effect_inv _ _ Hinv Heff) Hs2)
      as (rest & Htrace & Hlen & Hchain).
    exists (s2 :: rest). rewrite status_trace_cons, Hs, Htrace.
    split; [done|]. split; [simpl; by rewrite Hlen|by split].
Qed.

Lemma trader_inv_init agent_id bus symbols initial_cash max_position_value :
  trader_inv (TraderAgent.__init__ agent_id bus symbols initial_cash max_position_value).
Proof.
  split; simpl; [apply NoDup_nil_2|]. intros a Ha. by apply elem_of_nil in Ha.
Qed.

Lemma trader_inv_deliver (st : TraderAgent.t) (d : delivery) :
  trader_inv st -> trader_inv (deliver_to st d).
Proof. intros Hinv. eapply effect_inv; [exact Hinv|apply deliver_effect]. Qed.

Lemma placed_trader_inv : trader_inv placed_trader.
Proof. do 2 apply trader_inv_deliver. apply trader_inv_init. Qed.

(** C3 as worded fails on the trader.  An order the trader has placed is
    PENDING; an approval followed by a rejection for its id takes it from
    PENDING to APPROVED and then to REJECTED, a step that is no edge of
    the state machine; and a second approval for the same id is accepted
    and published again. *)
Lemma order_status_leaves_fsm :
  status_trace conflicting_decisions placed_trader 0 = [PENDING; APPROVED; REJECTED] /\
  ~ chain fsm_step (status_trace conflicting_decisions placed_trader 0) /\
  status_trace repeated_approvals placed_trader 0 = [PENDING; APPROVED; APPROVED] /\
  approvals_published (after_deliveries repeated_approvals placed_trader)
  = [order_approved "trader_1_order_1" "trader_1" "AAPL" "BUY" 60
       (Some (100 * (101 # 100))%Q) 3;
     order_approved "trader_1_order_1" "trader_1" "AAPL" "BUY" 60
       (Some (100 * (101 # 100))%Q) 4].
Proof.
  assert (Htrace : status_trace conflicting_decisions placed_trader 0
                   = [PENDING; APPROVED; REJECTED]) by (vm_compute; reflexivity).
  split; [exact Htrace|]. split; [|split].
  - rewrite Htrace. simpl. intros (_ & Hstep & _).
    destruct Hstep as [Heq|[[Heq _]|[[Heq _]|[[_ Heq]|[_ Heq]]]]]; discriminate.
  - vm_compute. reflexivity.
  - vm_compute. reflexivity.
Qed.

(** C3, amended.  For an order object the trader knows, along any sequence
    of deliveries (signals, prices, risk decisions, fills), from a state
    in which the tracked orders are PENDING or APPROVED (as from the
    trader's construction on): each step leaves the status or moves it
    along PENDING to APPROVED, PENDING to REJECTED or APPROVED to REJECTED;
    each of these edges is taken at most once; a later status is never of
    lower rank than an earlier one, is REJECTED once the status was
    REJECTED, and is the earlier one, APPROVED or REJECTED (EXECUTED and
    CANCELLED are never assigned). *)
Theorem order_status_monotone (st : TraderAgent.t) (ds : list delivery) (a : nat)
    (s : OrderStatus) :
  trader_inv st -> status_at st a = Some s ->
  let trace := status_trace ds st a in
  length trace = S (length ds) /\
  head trace = Some s /\
  chain trader_step trace /\
  Forall (fun p => trader_edge (fst p) (snd p)) (changes trace) /\
  NoDup (changes trace) /\
  (forall pre s1 post, trace = pre ++ s1 :: post -> Forall (later_status s1) post).
Proof.
  intros Hinv Hs trace.
  destruct (status_trace_chain ds st a s Hinv Hs) as (rest & Htrace & Hlen & Hchain).
  subst trace. rewrite Htrace.
  split; [simpl; by rewrite Hlen|]. split; [done|]. split; [done|].
  split; [by apply changes_edges|]. split; [by apply changes_NoDup|].
  intros pre s1 post Hsplit. apply chain_later.
  apply (chain_app_r trader_step pre). by rewrite <- Hsplit.
Qed.

Lemma order_status_monotone_witness :
  chain trader_step (status_trace conflicting_decisions placed_trader 0) /\
  NoDup (changes (status_trace conflicting_decisions placed_trader 0)).
Proof.
  destruct (order_status_monotone placed_trader conflicting_decisions 0 PENDING
              placed_trader_inv eq_refl) as (_ & _ & Hchain & _ & Hnodup & _).
  split; [exact Hchain|exact Hnodup].
Defined.

(** * Further properties *)

(** ** Ledger *)

(** X1. [execute_trade] never raises: whatever happens inside, it returns
    a boolean.  The trade is appended to the history exactly when the
    answer is True; on False the history and the realized PnL are as
    before, and either the whole ledger is as before or the failure was an
    exception that the call logged. *)
Theorem execute_trade_never_raises (p : Portfolio.t) (trade : Trade.t) :
  exists b p2 logs,
    Portfolio.execute_trade trade p = (Return b, p2, logs) /\
    Portfolio.initial_cash p2 = Portfolio.initial_cash p /\
    (b = true ->
     Portfolio.trades_history p2 = Portfolio.trades_history p ++ [trade]) /\
    (b = false ->
     Portfolio.trades_history p2 = Portfolio.trades_history p /\
     Portfolio.realized_pnl p2 = Portfolio.realized_pnl p /\
     (p2 = p \/
      exists e, (ERROR, FailedToExecuteTrade (Trade.id trade) e) ∈ logs)).
Proof.
  run_monad. destruct (Trade.side trade); run_monad.
  - destruct (Qgtb _ (Portfolio.cash p)).
    { eexists _, _, _. split; [reflexivity|]. repeat split; try done. by left. }
    destruct (Portfolio.positions p !! Trade.symbol trade) as [pos|]; simpl.
    + destruct (Qeq_bool _ 0); simpl.
      * eexists _, _, _. split; [reflexivity|]. repeat split; try done.
        right. exists ZeroDivisionError. apply list_elem_of_here.
      * eexists _, _, _. split; [reflexivity|]. repeat split; done.
    + destruct (Qltb 0 (Trade.execution_price trade)); simpl.
      * eexists _, _, _. split; [reflexivity|]. repeat split; done.
      * eexists _, _, _. split; [reflexivity|]. repeat split; try done.
        right. exists ValidationError. apply list_elem_of_here.
  - destruct (Portfolio.positions p !! Trade.symbol trade) as [pos|]; simpl.
    2:{ eexists _, _, _. split; [reflexivity|]. repeat split; try done. by left. }
    destruct (Trade.quantity trade >? Position.quantity pos)%Z; simpl.
    { eexists _, _, _. split; [reflexivity|]. repeat split; try done. by left. }
    destruct (Position.quantity pos - Trade.quantity trade =? 0)%Z; simpl;
      eexists _, _, _; (split; [reflexivity|]); repeat split; done.
Qed.

(** X2. On a ledger opened by its constructor and driven by validated
    trades and price updates, a fill is all or nothing: [execute_trade]
    either returns True, or returns False and leaves the ledger exactly as
    it was. *)
Theorem execute_trade_all_or_nothing (initial_cash : Q) (calls : list ledger_call)
    (trade : Trade.t) :
  Forall call_valid calls -> Trade.valid trade ->
  let p := run_calls calls (Portfolio.__init__ initial_cash) in
  result_of (Portfolio.execute_trade trade p) = Return true \/
  (result_of (Portfolio.execute_trade trade p) = Return false /\
   state_of (Portfolio.execute_trade trade p) = p).
Proof.
  intros Hcalls Hvalid p.
  assert (Hinv : ledger_inv p).
  { apply ledger_inv_run_calls; [apply ledger_inv_init|exact Hcalls]. }
  destruct (execute_trade_outcome p trade Hinv Hvalid)
    as [[logs ->]|(p2 & logs & ->)]; [right|left]; done.
Qed.

Lemma sample_calls_valid : Forall call_valid sample_calls.
Proof.
  unfold sample_calls.
  repeat (apply Forall_cons; split); try apply Forall_nil; simpl; try exact I;
    (split; [reflexivity|split; [reflexivity|discriminate]]).
Qed.

Lemma execute_trade_all_or_nothing_witness :
  let p := run_calls sample_calls (Portfolio.__init__ 1000) in
  result_of (Portfolio.execute_trade (sale_of 50) p) = Return false /\
  state_of (Portfolio.execute_trade (sale_of 50) p) = p.
Proof.
  destruct (execute_trade_all_or_nothing 1000 sample_calls (sale_of 50)
              sample_calls_valid) as [Hyes|Hno].
  - split; [reflexivity|split; [reflexivity|discriminate]].
  - vm_compute in Hyes. discriminate.
  - exact Hno.
Defined.

Lemma weighted_average_positive (q fq : Z) (avg price : Q) :
  (0 < q)%Z -> (0 < fq)%Z -> (0 < avg)%Q -> (0 < price)%Q ->
  (0 < (avg * inject_Z q + price * inject_Z fq) / inject_Z (q + fq))%Q.
Proof.
  intros Hq Hfq Havg Hprice. apply Qlt_shift_div_l.
  - change 0%Q with (inject_Z 0). rewrite <- Zlt_Qlt. lia.
  - assert (H1 : (0 < avg * inject_Z q)%Q).
    { apply Qmult_lt_0_compat; [done|].
      change 0%Q with (inject_Z 0). rewrite <- Zlt_Qlt. lia. }
    assert (H2 : (0 < price * inject_Z fq)%Q).
    { apply Qmult_lt_0_compat; [done|].
      change 0%Q with (inject_Z 0). rewrite <- Zlt_Qlt. lia. }
    lra.
Qed.

Lemma ledger_shape_execute_trade (p : Portfolio.t) (trade : Trade.t) :
  ledger_inv p -> ledger_shape p -> Trade.valid trade ->
  ledger_shape (state_of (Portfolio.execute_trade trade p)).
Proof.
  intros Hinv Hshape Hvalid. pose proof Hvalid as (Hq & Hprice & _).
  destruct (execute_trade_outcome p trade Hinv Hvalid)
    as [[logs Hrun]|(p2 & logs & Hrun)]; rewrite Hrun; [done|].
  unfold state_of; simpl. unfold ledger_shape.
  destruct (Trade.side trade) eqn:Hside.
  - destruct (execute_buy_success _ _ _ _ Hside Hrun) as (_ & _ & _ & _ & _ & Hps).
    destruct (Portfolio.positions p !! Trade.symbol trade) as [pos|] eqn:Hlk.
    + destruct Hps as [Hnz ->]. apply map_Forall_insert_2; [|done].
      destruct (Hshape _ _ Hlk) as (Hsym & Hpq & Havg & _). simpl.
      repeat split; try done; [lia|].
      by apply weighted_average_positive.
    + rewrite Hps. apply map_Forall_insert_2; [|done]. simpl.
      repeat split; try done. ring.
  - destruct (execute_sell_success _ _ _ _ Hside Hrun)
      as (pos & Hlk & Hle & _ & _ & _ & _ & Hps).
    simpl in Hps. rewrite Hps.
    destruct (decide (Position.quantity pos - Trade.quantity trade = 0)%Z).
    + by apply map_Forall_delete.
    + apply map_Forall_insert_2; [|done].
      destruct (Hshape _ _ Hlk) as (Hsym & Hpq & Havg & _). simpl.
      repeat split; try done; lia.
Qed.

Lemma ledger_shape_update_price (p : Portfolio.t) (symbol : string) (price : Q) :
  ledger_shape p -> ledger_shape (Portfolio.update_price p symbol price).
Proof.
  intros Hshape. unfold Portfolio.update_price.
  destruct (Portfolio.positions p !! symbol) as [pos|] eqn:Hlk; [|done].
  unfold ledger_shape; simpl. apply map_Forall_insert_2; [|done].
  destruct (Hshape _ _ Hlk) as (Hsym & Hpq & Havg & _). simpl.
  repeat split; done.
Qed.

Lemma ledger_shape_update_all_prices (p : Portfolio.t) (prices : gmap string Q) :
  ledger_shape p -> ledger_shape (Portfolio.update_all_prices p prices).
Proof.
  intros Hshape. unfold Portfolio.update_all_prices.
  apply (map_fold_weak_ind (fun r _ => ledger_shape r)); [done|].
  intros symbol price _ r _ Hr. by apply ledger_shape_update_price.
Qed.

Lemma ledger_shape_run_call (c : ledger_call) (p : Portfolio.t) :
  ledger_inv p -> ledger_shape p -> call_valid c -> ledger_shape (run_call c p).
Proof.
  intros Hinv Hshape Hc. destruct c as [trade|symbol price|prices|prices|]; simpl.
  - by apply ledger_shape_execute_trade.
  - by apply ledger_shape_update_price.
  - by apply ledger_shape_update_all_prices.
  - rewrite get_total_value_state.
    destruct (Portfolio.truthy prices); [|done].
    by apply ledger_shape_update_all_prices.
  - by rewrite get_summary_state.
Qed.

(** X3. On a ledger opened by its constructor, after any sequence of calls
    with validated trades: every stored position is filed under its own
    symbol, holds a positive number of shares (no empty or short record is
    ever kept), has a positive average cost, and stores the unrealized PnL
    (currentPrice - avgCost) * quantity of its stored price. *)
Theorem ledger_positions_well_formed (initial_cash : Q) (calls : list ledger_call) :
  Forall call_valid calls ->
  ledger_shape (run_calls calls (Portfolio.__init__ initial_cash)).
Proof.
  intros Hcalls.
  assert (Hgen : forall p, ledger_inv p -> ledger_shape p ->
                           ledger_shape (run_calls calls p)).
  { induction Hcalls as [|c cs Hc _ IH]; intros p Hinv Hshape; [done|].
    simpl. apply IH.
    - by apply ledger_inv_run_call.
    - by apply ledger_shape_run_call. }
  apply Hgen; [apply ledger_inv_init|]. unfold ledger_shape. simpl.
  apply map_Forall_empty.
Qed.

Lemma ledger_positions_well_formed_witness :
  ledger_shape (run_calls sample_calls (Portfolio.__init__ 1000)).
Proof.
  exact (ledger_positions_well_formed 1000 sample_calls sample_calls_valid).
Defined.

Lemma cash_nonneg_run_call (c : ledger_call) (p : Portfolio.t) :
  ledger_inv p -> call_covered c -> (0 <= Portfolio.cash p)%Q ->
  (0 <= Portfolio.cash (run_call c p))%Q.
Proof.
  intros Hinv Hc Hcash. destruct c as [trade|symbol price|prices|prices|]; simpl.
  - destruct Hc as [Hvalid Hcov].
    destruct (execute_trade_outcome p trade Hinv Hvalid)
      as [[logs Hrun]|(p2 & logs & Hrun)]; rewrite Hrun; [done|].
    unfold state_of; simpl. destruct (Trade.side trade) eqn:Hside.
    + destruct (execute_buy_success _ _ _ _ Hside Hrun) as (Hle & _ & -> & _).
      simpl in Hle. lra.
    + destruct (execute_sell_success _ _ _ _ Hside Hrun)
        as (pos & _ & _ & _ & -> & _).
      unfold commission_covered in Hcov. lra.
  - unfold Portfolio.update_price.
    by destruct (Portfolio.positions p !! symbol).
  - destruct (update_all_prices_spec p prices) as (_ & Hkeep & _). by rewrite Hkeep.
  - rewrite get_total_value_state.
    destruct (Portfolio.truthy prices) as [m|]; [|done].
    unfold state_of; simpl.
    destruct (update_all_prices_spec p m) as (_ & Hkeep & _). by rewrite Hkeep.
  - by rewrite get_summary_state.
Qed.

Lemma call_covered_valid (c : ledger_call) : call_covered c -> call_valid c.
Proof. destruct c; simpl; tauto. Qed.

(** X4. Cash never goes negative: on a ledger opened with non-negative
    cash, after any sequence of calls whose trades are validated and carry
    a commission no larger than their gross amount, the cash is
    non-negative. *)
Theorem cash_never_negative (initial_cash : Q) (calls : list ledger_call) :
  (0 <= initial_cash)%Q -> Forall call_covered calls ->
  (0 <= Portfolio.cash (run_calls calls (Portfolio.__init__ initial_cash)))%Q.
Proof.
  intros Hic Hcalls.
  assert (Hgen : forall p, ledger_inv p -> (0 <= Portfolio.cash p)%Q ->
                           (0 <= Portfolio.cash (run_calls calls p))%Q).
  { induction Hcalls as [|c cs Hc _ IH]; intros p Hinv Hcash; [done|].
    simpl. apply IH.
    - apply ledger_inv_run_call; [done|by apply call_covered_valid].
    - by apply cash_nonneg_run_call. }
  apply Hgen; [apply ledger_inv_init|done].
Qed.

Lemma cash_never_negative_witness :
  (0 <= Portfolio.cash (run_calls sample_calls (Portfolio.__init__ 1000)))%Q.
Proof.
  apply (cash_never_negative 1000 sample_calls).
  - discriminate.
  - unfold sample_calls.
    repeat (apply Forall_cons; split); try apply Forall_nil; simpl; try exact I;
      (split; [split; [reflexivity|split; [reflexivity|discriminate]]|discriminate]).
Defined.

(** X5. [get_summary] raises [ZeroDivisionError] exactly on a ledger that
    was opened with zero cash (the return percentage divides by the
    initial cash); otherwise it returns, without touching the ledger, the
    cash, the number of held symbols, the value of the holdings, the total
    value cash + holdings, realized and unrealized PnL with their sum, the
    return in percent of the initial cash, and the number of applied
    fills. *)
Theorem get_summary_spec (p : Portfolio.t) :
  ((Portfolio.initial_cash p == 0)%Q ->
   Portfolio.get_summary p = (Raised ZeroDivisionError, p, [])) /\
  (~ (Portfolio.initial_cash p == 0)%Q ->
   exists s,
     Portfolio.get_summary p = (Return s, p, []) /\
     Portfolio.s_cash s = Portfolio.cash p /\
     Portfolio.s_positions_count s = size (Portfolio.positions p) /\
     Portfolio.s_positions_value s = Portfolio.positions_value p /\
     Portfolio.s_total_value s = (Portfolio.cash p + Portfolio.positions_value p)%Q /\
     Portfolio.s_realized_pnl s = Portfolio.realized_pnl p /\
     Portfolio.s_unrealized_pnl s = Portfolio.get_unrealized_pnl p /\
     Portfolio.s_total_pnl s =
     (Portfolio.realized_pnl p + Portfolio.get_unrealized_pnl p)%Q /\
     Portfolio.s_total_return_pct s =
     ((Portfolio.cash p + Portfolio.positions_value p - Portfolio.initial_cash p)
      / Portfolio.initial_cash p * 100)%Q /\
     Portfolio.s_trades_count s = length (Portfolio.trades_history p)).
Proof.
  split.
  - intros Hzero. apply Qeq_bool_iff in Hzero. run_monad. by rewrite Hzero.
  - intros Hnz. run_monad.
    destruct (Qeq_bool (Portfolio.initial_cash p) 0) eqn:Hz.
    { apply Qeq_bool_iff in Hz. contradiction. }
    eexists. split; [reflexivity|]. simpl. repeat split.
Qed.

Lemma get_summary_spec_witness :
  Portfolio.get_summary (Portfolio.__init__ 0) =
  (Raised ZeroDivisionError, Portfolio.__init__ 0, []) /\
  exists s,
    Portfolio.get_summary held_ledger = (Return s, held_ledger, []) /\
    (Portfolio.s_total_value s == 2000)%Q /\
    (Portfolio.s_total_return_pct s == 0)%Q.
Proof.
  split.
  - apply (proj1 (get_summary_spec (Portfolio.__init__ 0))). reflexivity.
  - destruct (proj2 (get_summary_spec held_ledger)) as (s & Hrun & Hfields).
    { discriminate. }
    exists s. split; [exact Hrun|].
    destruct Hfields as (_ & _ & _ & Htv & _ & _ & _ & Hpct & _).
    rewrite Htv, Hpct. split; reflexivity.
Defined.

(** X6. Round trip: buying [q] shares of a symbol that is not held and then
    selling the same [q] shares leaves the positions as they were; the
    cash has paid the purchase and its commission and received the sale
    less its commission, the realized PnL has grown by (sale price -
    purchase price) * q, and the history has the two fills in order. *)
Theorem buy_then_sell_round_trip (p : Portfolio.t) (symbol : string) (q : Z)
    (price price2 c c2 : Q) :
  Portfolio.positions p !! symbol = None ->
  (0 < q)%Z -> (0 < price)%Q ->
  (price * inject_Z q + c <= Portfolio.cash p)%Q ->
  let bought := Portfolio.execute_trade (buy_of symbol q price c) p in
  let sold := Portfolio.execute_trade (sell_of symbol q price2 c2) (state_of bought) in
  result_of bought = Return true /\
  result_of sold = Return true /\
  Portfolio.positions (state_of sold) = Portfolio.positions p /\
  (Portfolio.cash (state_of sold) ==
   Portfolio.cash p - (price * inject_Z q + c) + (price2 * inject_Z q - c2))%Q /\
  (Portfolio.realized_pnl (state_of sold) ==
   Portfolio.realized_pnl p + (price2 - price) * inject_Z q)%Q /\
  Portfolio.trades_history (state_of sold) =
  Portfolio.trades_history p
  ++ [buy_of symbol q price c; sell_of symbol q price2 c2].
Proof.
  intros Hnone Hq Hprice Hcash bought sold.
  assert (Hb : bought =
               (Return true,
                Portfolio.mk (Portfolio.initial_cash p)
                  (Portfolio.cash p - (price * inject_Z q + c))
                  (<[symbol := Position.mk symbol q price price 0]> (Portfolio.positions p))
                  (Portfolio.realized_pnl p)
                  (Portfolio.trades_history p ++ [buy_of symbol q price c]),
                [(INFO, BuyExecuted q symbol price
                          (Portfolio.cash p - (price * inject_Z q + c)))])).
  { subst bought. run_monad. apply Qgtb_le in Hcash. rewrite Hcash, Hnone.
    apply Qltb_lt in Hprice. rewrite Hprice. reflexivity. }
  subst sold. rewrite Hb. unfold state_of, result_of; simpl.
  run_monad. rewrite lookup_insert_eq. simpl.
  assert (Hgt : (q >? q)%Z = false) by (rewrite Z.gtb_ltb; apply Z.ltb_irrefl).
  rewrite Hgt, Z.sub_diag. simpl.
  split; [done|]. split; [done|]. split; [|split; [|split]].
  - rewrite insert_insert_eq, delete_insert_eq. by apply delete_id.
  - ring.
  - ring.
  - by rewrite <- app_assoc.
Qed.

Lemma buy_then_sell_round_trip_witness :
  Portfolio.positions
    (state_of (Portfolio.execute_trade (sell_of "MSFT" 4 55 1)
                 (state_of (Portfolio.execute_trade (buy_of "MSFT" 4 50 1)
                              held_ledger))))
  = Portfolio.positions held_ledger.
Proof.
  refine (proj1 (proj2 (proj2 (buy_then_sell_round_trip held_ledger "MSFT" 4 50 55 1 1
                                  _ _ _ _)))); reflexivity || discriminate.
Defined.

(** *** Valuation at quotes *)

Lemma quoted_value_insert_fresh (quotes : gmap string Q) (m : gmap string Position.t)
    (k : string) (pos : Position.t) :
  m !! k = None ->
  (quoted_value quotes (<[k := pos]> m) ==
   inject_Z (Position.quantity pos)
   * default (Position.current_price pos) (quotes !! k)
   + quoted_value quotes m)%Q.
Proof.
  intros Hk. unfold quoted_value.
  rewrite (py_sum_perm _ _ (Permutation_map _ (map_to_list_insert m k pos Hk))).
  simpl. apply py_sum_cons.
Qed.

Lemma sum_over_requoted (quotes : gmap string Q) (m m2 : gmap string Position.t) :
  (forall k,
      m2 !! k =
      (fun pos => match quotes !! k with
                  | Some price => Position.update_price pos price
                  | None => pos
                  end) <$> m !! k) ->
  (sum_over (fun pos => inject_Z (Position.quantity pos) * Position.current_price pos) m2
   == quoted_value quotes m)%Q.
Proof.
  revert m2. induction m as [|k pos m Hk IH] using map_ind; intros m2 Hm2.
  - assert (m2 = ∅) as ->.
    { apply map_eq. intros k. rewrite Hm2, !lookup_empty. done. }
    reflexivity.
  - assert (Hk2 := Hm2 k). rewrite lookup_insert_eq in Hk2. simpl in Hk2.
    assert (Hrest : forall j,
               delete k m2 !! j =
               (fun pos => match quotes !! j with
                           | Some price => Position.update_price pos price
                           | None => pos
                           end) <$> m !! j).
    { intros j. destruct (decide (j = k)) as [->|Hne].
      - by rewrite lookup_delete_eq, Hk.
      - rewrite lookup_delete_ne by done. rewrite Hm2.
        by rewrite lookup_insert_ne. }
    rewrite (sum_over_delete _ m2 k _ Hk2), (IH _ Hrest).
    rewrite quoted_value_insert_fresh by done.
    destruct (quotes !! k); simpl; reflexivity.
Qed.

(** X7. [get_total_value] with quotes returns the cash plus, for each held
    symbol, quantity times its quote, or times its stored price where the
    quotes have none; without quotes it uses the stored prices. *)
Theorem get_total_value_at_quotes (p : Portfolio.t) (quotes : gmap string Q) :
  exists v,
    result_of (Portfolio.get_total_value (Some quotes) p) = Return v /\
    (v == Portfolio.cash p + quoted_value quotes (Portfolio.positions p))%Q /\
    (result_of (Portfolio.get_total_value None p)
     = Return (Portfolio.cash p + Portfolio.positions_value p)%Q) /\
    (quoted_value ∅ (Portfolio.positions p) == Portfolio.positions_value p)%Q.
Proof.
  destruct (update_all_prices_spec p quotes) as (_ & Hcash & _ & _ & Hps).
  assert (Hval : (total_value (Portfolio.update_all_prices p quotes) ==
                  Portfolio.cash p + quoted_value quotes (Portfolio.positions p))%Q).
  { unfold total_value, Portfolio.positions_value, Portfolio.values.
    rewrite Hcash.
    change (py_sum (map ?f (map_to_list ?m).*2)) with (sum_over f m).
    rewrite (sum_over_requoted quotes (Portfolio.positions p)); [reflexivity|].
    intros k. rewrite Hps. by destruct (Portfolio.positions p !! k). }
  assert (Hempty : (quoted_value ∅ (Portfolio.positions p)
                    == Portfolio.positions_value p)%Q).
  { unfold Portfolio.positions_value, Portfolio.values.
    change (py_sum (map ?f (map_to_list ?m).*2)) with (sum_over f m).
    symmetry. apply sum_over_requoted. intros k. rewrite lookup_empty.
    by destruct (Portfolio.positions p !! k). }
  rewrite !get_total_value_state. simpl.
  destruct (decide (quotes = ∅)) as [->|Hne].
  - exists (total_value p). split; [done|]. split; [|done].
    unfold total_value. by rewrite Hempty.
  - exists (total_value (Portfolio.update_all_prices p quotes)). done.
Qed.

(** ** Market clock and execution engine *)

Lemma advance_day_spec (day : list (string * MarketData.t)) (e : MarketEnvironment.t) :
  MarketEnvironment.advance_day day e =
  (Return tt,
   MarketEnvironment.set_message_bus
     (MarketEnvironment.set_current_prices e
        (day_prices day (MarketEnvironment.current_prices e)))
     (MarketEnvironment.message_bus e ++ map update_of day),
   []).
Proof.
  revert e. induction day as [|[symbol d] day IH]; intros e.
  - simpl. unfold ret. rewrite app_nil_r. by destruct e.
  - cbn [MarketEnvironment.advance_day].
    unfold bind, modify, MarketEnvironment.publish. simpl.
    match goal with
    | |- context [MarketEnvironment.advance_day day ?s] => rewrite (IH s)
    end.
    unfold MarketEnvironment.set_message_bus, MarketEnvironment.set_current_prices.
    simpl. by rewrite <- app_assoc.
Qed.

Lemma day_prices_other (day : list (string * MarketData.t)) (prices : gmap string Q)
    (symbol : string) :
  symbol ∉ day.*1 -> day_prices day prices !! symbol = prices !! symbol.
Proof.
  revert prices. induction day as [|[s d] day IH]; intros prices Hnot; [done|].
  simpl in *. apply not_elem_of_cons in Hnot as [Hne Hnot].
  rewrite IH by done. by apply lookup_insert_ne.
Qed.

Lemma day_prices_entry (day : list (string * MarketData.t)) (prices : gmap string Q)
    (symbol : string) (d : MarketData.t) :
  NoDup day.*1 -> (symbol, d) ∈ day ->
  day_prices day prices !! symbol = Some (MarketData.close d).
Proof.
  revert prices. induction day as [|[s d2] day IH]; intros prices Hnd Hin.
  - by apply elem_of_nil in Hin.
  - simpl in *. apply NoDup_cons in Hnd as [Hnot Hnd].
    apply elem_of_cons in Hin as [[= -> ->]|Hin].
    + rewrite day_prices_other by done. apply lookup_insert_eq.
    + by apply IH.
Qed.

Lemma advance_time_without_data (e : MarketEnvironment.t) (target_date : Z) :
  MarketEnvironment.data_by_date e !! target_date = None ->
  MarketEnvironment.advance_time target_date e =
  (Return tt, e, [(WARNING, NoMarketDataFor target_date)]).
Proof.
  intros Hnone. unfold MarketEnvironment.advance_time, bind, get, log, ret.
  by rewrite Hnone.
Qed.

Lemma advance_time_with_data (e : MarketEnvironment.t) (target_date : Z)
    (day : list (string * MarketData.t)) :
  MarketEnvironment.data_by_date e !! target_date = Some day ->
  MarketEnvironment.advance_time target_date e =
  (Return tt,
   MarketEnvironment.mk
     (MarketEnvironment.message_bus e ++ map update_of day)
     (MarketEnvironment.commission_rate e)
     (Some target_date)
     (day_prices day (MarketEnvironment.current_prices e))
     (MarketEnvironment.pending_orders e)
     (MarketEnvironment.executed_trades e)
     (MarketEnvironment.data_by_date e),
   [(INFO, MarketAdvanced target_date (length day))]).
Proof.
  intros Hday. unfold MarketEnvironment.advance_time, bind, get, modify, log.
  rewrite Hday, advance_day_spec. reflexivity.
Qed.

(** X8. [advance_time] on a date without data logs a warning and changes
    nothing.  On a date with data it sets the clock to that date, writes
    the close of every entry of the day into the price table, and
    publishes one price message per entry, in the order of the entries;
    the queue and the executed trades are untouched.  A symbol without an
    entry that day keeps the price it had: the table can hold a close of
    an earlier session. *)
Theorem advance_time_spec (e : MarketEnvironment.t) (target_date : Z) :
  (MarketEnvironment.data_by_date e !! target_date = None ->
   MarketEnvironment.advance_time target_date e =
   (Return tt, e, [(WARNING, NoMarketDataFor target_date)])) /\
  (forall day,
      MarketEnvironment.data_by_date e !! target_date = Some day ->
      MarketEnvironment.advance_time target_date e =
      (Return tt,
       MarketEnvironment.mk
         (MarketEnvironment.message_bus e ++ map update_of day)
         (MarketEnvironment.commission_rate e)
         (Some target_date)
         (day_prices day (MarketEnvironment.current_prices e))
         (MarketEnvironment.pending_orders e)
         (MarketEnvironment.executed_trades e)
         (MarketEnvironment.data_by_date e),
       [(INFO, MarketAdvanced target_date (length day))]) /\
      (forall symbol,
          symbol ∉ day.*1 ->
          day_prices day (MarketEnvironment.current_prices e) !! symbol =
          MarketEnvironment.current_prices e !! symbol) /\
      (NoDup day.*1 ->
       forall symbol d,
         (symbol, d) ∈ day ->
         day_prices day (MarketEnvironment.current_prices e) !! symbol =
         Some (MarketData.close d))).
Proof.
  split.
  - apply advance_time_without_data.
  - intros day Hday. split; [|split].
    + by apply advance_time_with_data.
    + intros symbol. apply day_prices_other.
    + intros Hnd symbol d. by apply day_prices_entry.
Qed.

Lemma advance_time_spec_witness :
  MarketEnvironment.advance_time 9 dated_engine =
  (Return tt, dated_engine, [(WARNING, NoMarketDataFor 9)]) /\
  MarketEnvironment.advance_time 8 dated_engine =
  (Return tt,
   MarketEnvironment.mk (map update_of sample_day) (1 # 1000) (Some 8%Z)
     (day_prices sample_day ∅) [] [] {[ 8%Z := sample_day ]},
   [(INFO, MarketAdvanced 8 2)]) /\
  day_prices sample_day ∅ !! "MSFT" = Some 246%Q.
Proof.
  split; [|split].
  - apply (proj1 (advance_time_spec dated_engine 9)). reflexivity.
  - apply (proj1 (proj2 (advance_time_spec dated_engine 8) sample_day eq_refl)).
  - refine (proj2 (proj2 (proj2 (advance_time_spec dated_engine 8) sample_day eq_refl))
              _ "MSFT" (MarketData.mk 8 "MSFT" 250 251 245 246 3000) _).
    + apply (bool_decide_unpack _). vm_compute. exact I.
    + unfold sample_day. apply elem_of_cons. right. apply elem_of_cons. by left.
Defined.

Lemma fill_for_swept (e : MarketEnvironment.t) (o : Order.t) :
  fill_for (swept e) o = fill_for e o.
Proof. reflexivity. Qed.

Lemma executable_swept (e : MarketEnvironment.t) (o : Order.t) :
  executable (swept e) o = executable e o.
Proof. reflexivity. Qed.

Lemma fills_of_skipped (e : MarketEnvironment.t) (os : list Order.t) :
  engine_ok e -> fills e (filter (fun o => executable e o = false) os) = [].
Proof.
  intros Hok. induction os as [|o os IH]; [done|].
  destruct (executable e o) eqn:Hex.
  - by rewrite filter_cons_False by congruence.
  - rewrite filter_cons_True by done. rewrite fills_cons.
    pose proof (fill_for_executable e o Hok) as Hf.
    destruct (fill_for e o); [|done]. destruct Hf as [Hf _]. congruence.
Qed.

Lemma filter_skipped_again (e : MarketEnvironment.t) (os : list Order.t) :
  filter (fun o => executable e o = false) (filter (fun o => executable e o = false) os)
  = filter (fun o => executable e o = false) os.
Proof.
  induction os as [|o os IH]; [done|].
  destruct (executable e o) eqn:Hex.
  - by rewrite filter_cons_False by congruence.
  - rewrite (filter_cons_True _ _ os) by done.
    rewrite filter_cons_True by done. by rewrite IH.
Qed.

Lemma swept_swept (e : MarketEnvironment.t) :
  engine_ok e -> swept (swept e) = swept e.
Proof.
  intros Hok. unfold swept at 1.
  change (fills (swept e)) with (fills e).
  change (fun o => executable (swept e) o = false)
    with (fun o => executable e o = false).
  change (executable (swept e)) with (executable e).
  unfold swept. simpl.
  rewrite ?fills_of_skipped by done.
  rewrite ?filter_skipped_again. unfold broadcasts. simpl. rewrite ?app_nil_r.
  reflexivity.
Qed.

(** X9. A sweep repeated at once does nothing: with the prices unchanged,
    a second [execute_pending_orders] returns and leaves the engine as the
    first one left it, with no new trade and no new message. *)
Theorem execution_sweep_idempotent (e : MarketEnvironment.t) :
  engine_ok e ->
  let once := state_of (MarketEnvironment.execute_pending_orders e) in
  result_of (MarketEnvironment.execute_pending_orders once) = Return tt /\
  state_of (MarketEnvironment.execute_pending_orders once) = once.
Proof.
  intros Hok once.
  destruct (execute_pending_orders_swept e Hok) as [logs Hrun].
  assert (Honce : once = swept e) by (subst once; by rewrite Hrun).
  destruct (execute_pending_orders_swept (swept e) (engine_ok_swept e Hok))
    as [logs2 Hrun2].
  rewrite Honce, Hrun2. split; [done|].
  change (swept (swept e) = swept e). by apply swept_swept.
Qed.

Lemma execution_sweep_idempotent_witness :
  state_of (MarketEnvironment.execute_pending_orders
              (state_of (MarketEnvironment.execute_pending_orders sample_engine)))
  = state_of (MarketEnvironment.execute_pending_orders sample_engine).
Proof.
  exact (proj2 (execution_sweep_idempotent sample_engine sample_engine_ok)).
Defined.

Lemma fills_order_ids (e : MarketEnvironment.t) (os : list Order.t) :
  engine_ok e ->
  map Order.id (filter (fun o => executable e o = false) os)
  ++ map Trade.order_id (fills e os) ≡ₚ map Order.id os.
Proof.
  intros Hok. induction os as [|o os IH]; [done|].
  rewrite fills_cons.
  pose proof (fill_for_executable e o Hok) as Hf.
  destruct (fill_for e o) as [t|].
  - destruct Hf as (Hex & ts & p & _ & _ & ->).
    rewrite filter_cons_False by congruence. simpl.
    rewrite <- Permutation_middle. by constructor.
  - rewrite filter_cons_True by done. simpl. by constructor.
Qed.

Lemma order_ids_swept (e : MarketEnvironment.t) :
  engine_ok e -> order_ids (swept e) ≡ₚ order_ids e.
Proof.
  intros Hok. unfold order_ids. simpl. rewrite map_app.
  rewrite (Permutation_app_comm (map Trade.order_id (MarketEnvironment.executed_trades e))).
  rewrite app_assoc. rewrite fills_order_ids by done. reflexivity.
Qed.

Lemma advance_time_state (e : MarketEnvironment.t) (target_date : Z) :
  exists logs bus time prices,
    MarketEnvironment.advance_time target_date e =
    (Return tt,
     MarketEnvironment.mk bus (MarketEnvironment.commission_rate e) time prices
       (MarketEnvironment.pending_orders e) (MarketEnvironment.executed_trades e)
       (MarketEnvironment.data_by_date e),
     logs).
Proof.
  destruct (MarketEnvironment.data_by_date e !! target_date) as [day|] eqn:Hday.
  - rewrite (advance_time_with_data e target_date day Hday).
    by eexists _, _, _, _.
  - rewrite (advance_time_without_data e target_date Hday).
    exists [(WARNING, NoMarketDataFor target_date)], (MarketEnvironment.message_bus e),
      (MarketEnvironment.current_time e), (MarketEnvironment.current_prices e).
    by destruct e.
Qed.

Lemma submit_order_state (e : MarketEnvironment.t) (order : Order.t) :
  exists logs,
    MarketEnvironment.submit_order order e =
    (Return tt,
     (if bool_decide (Order.status order = APPROVED)
      then MarketEnvironment.set_pending_orders e
             (MarketEnvironment.pending_orders e ++ [order])
      else e),
     logs).
Proof.
  unfold MarketEnvironment.submit_order.
  destruct (decide (Order.status order = APPROVED)) as [Hs|Hs].
  - rewrite bool_decide_eq_false_2 by (intros Hn; by apply Hn).
    rewrite bool_decide_eq_true_2 by done. by eexists.
  - rewrite bool_decide_eq_true_2 by done.
    rewrite bool_decide_eq_false_2 by done. by eexists.
Qed.

Lemma engine_call_step (e : MarketEnvironment.t) (c : engine_call) :
  engine_ok e -> data_valid e -> submission_valid c ->
  exists e2 logs,
    engine_call_run c e = (Return tt, e2, logs) /\
    engine_ok e2 /\ data_valid e2 /\
    order_ids e2 ≡ₚ order_ids e ++ accepted_ids [c].
Proof.
  intros Hok Hdata Hc. destruct c as [target_date|order|]; simpl in *.
  - destruct (advance_time_state e target_date) as (logs & bus & time & prices & Hrun).
    pose proof (engine_ok_advance_time e target_date Hok Hdata) as Hok2.
    rewrite Hrun in *. eexists _, _. split; [done|]. split; [exact Hok2|].
    split; [exact Hdata|]. unfold order_ids. simpl. by rewrite app_nil_r.
  - destruct (submit_order_state e order) as [logs Hrun].
    pose proof (engine_ok_submit_order e order Hok Hc) as Hok2.
    rewrite Hrun in *. eexists _, _. split; [done|]. split; [exact Hok2|].
    destruct (bool_decide (Order.status order = APPROVED)).
    + split; [exact Hdata|]. unfold order_ids. simpl. rewrite map_app. simpl.
      rewrite <- !app_assoc. apply Permutation_app_head. apply Permutation_app_comm.
    + split; [exact Hdata|]. by rewrite app_nil_r.
  - destruct (execute_pending_orders_swept e Hok) as [logs Hrun].
    rewrite Hrun. eexists _, _. split; [done|].
    split; [by apply engine_ok_swept|]. split; [exact Hdata|].
    rewrite app_nil_r. by apply order_ids_swept.
Qed.

Lemma accepted_ids_cons (c : engine_call) (calls : list engine_call) :
  accepted_ids (c :: calls) = accepted_ids [c] ++ accepted_ids calls.
Proof.
  unfold accepted_ids. destruct c as [target_date|order|]; simpl; try done.
  by destruct (bool_decide (Order.status order = APPROVED)).
Qed.

(** X10. Over any sequence of [advance_time], [submit_order] and
    [execute_pending_orders] calls the engine never raises, and no order
    is lost or made twice: the ids of the queued orders together with the
    order ids of the executed trades are, up to order, those the engine
    held at the start plus one per accepted (approved) submission.  A
    submission that is not approved adds nothing. *)
Theorem orders_neither_lost_nor_duplicated (calls : list engine_call)
    (e : MarketEnvironment.t) :
  engine_ok e -> data_valid e -> Forall submission_valid calls ->
  exists e2 logs,
    engine_run calls e = (Return tt, e2, logs) /\
    order_ids e2 ≡ₚ order_ids e ++ accepted_ids calls.
Proof.
  intros Hok Hdata Hcalls. revert e Hok Hdata.
  induction Hcalls as [|c calls Hc _ IH]; intros e Hok Hdata.
  - exists e, []. split; [done|]. simpl. by rewrite app_nil_r.
  - destruct (engine_call_step e c Hok Hdata Hc) as (e1 & logs1 & Hrun1 & Hok1 & Hdata1 & Hids1).
    destruct (IH e1 Hok1 Hdata1) as (e2 & logs2 & Hrun2 & Hids2).
    exists e2, (logs1 ++ logs2). split.
    + cbn [engine_run]. unfold bind. rewrite Hrun1, Hrun2. reflexivity.
    + rewrite Hids2, Hids1.
      rewrite (accepted_ids_cons c calls). by rewrite app_assoc.
Qed.

Lemma orders_neither_lost_nor_duplicated_witness :
  exists e2 logs,
    engine_run sample_calls_engine sample_engine = (Return tt, e2, logs) /\
    order_ids e2 ≡ₚ order_ids sample_engine ++ ["o9"].
Proof.
  apply (orders_neither_lost_nor_duplicated sample_calls_engine sample_engine).
  - exact sample_engine_ok.
  - apply map_Forall_empty.
  - repeat constructor.
Defined.

(** X11. The trades a sweep adds: each one is the fill of an order that
    was queued, carries that order's id, symbol, side, quantity and
    trader, the id [trade_<order id>], the time of the clock and the
    current price of the symbol; it satisfies the constraints of the
    [Trade] model and is inside the limit of its order (a BUY at no more
    than the limit, a SELL at no less). *)
Theorem sweep_trades_respect_orders (e : MarketEnvironment.t) :
  engine_ok e ->
  exists new,
    MarketEnvironment.executed_trades
      (state_of (MarketEnvironment.execute_pending_orders e)) =
    MarketEnvironment.executed_trades e ++ new /\
    Forall (fun t =>
              exists o,
                o ∈ MarketEnvironment.pending_orders e /\
                fill_matches e o t /\ Trade.valid t /\ within_limit o t) new.
Proof.
  intros Hok. destruct (execute_pending_orders_swept e Hok) as [logs Hrun].
  rewrite Hrun. exists (fills e (MarketEnvironment.pending_orders e)).
  split; [done|]. apply Forall_forall. intros t Ht.
  unfold fills in Ht. apply list_elem_of_omap in Ht as (o & Ho & Hfill).
  exists o. split; [done|].
  pose proof (fill_for_executable e o Hok) as Hf. rewrite Hfill in Hf.
  destruct Hf as (Hex & ts & p & Htime & Hp & ->).
  assert (Hvalid : Order.valid o).
  { destruct Hok as (_ & _ & _ & Hqueue). rewrite Forall_forall in Hqueue.
    by apply Hqueue. }
  split; [|split].
  - repeat split; done.
  - pose proof (fill_valid e ts o p Hok Hvalid Hp) as Hv.
    unfold Trade.validb in Hv. rewrite !andb_true_iff in Hv.
    destruct Hv as [[Hq Hprice] Hcomm].
    split; [by apply Z.ltb_lt|]. split; [by apply Qltb_lt|].
    by apply Qle_bool_iff.
  - unfold executable in Hex. rewrite Hp in Hex. apply negb_true_iff in Hex.
    unfold MarketEnvironment.limit_blocks in Hex. unfold within_limit. simpl.
    destruct (Order.price o) as [limit|]; [|done].
    destruct (Order.side o).
    + by apply Qgtb_le.
    + by apply Qltb_ge.
Qed.

Lemma sweep_trades_respect_orders_witness :
  exists new,
    MarketEnvironment.executed_trades
      (state_of (MarketEnvironment.execute_pending_orders sample_engine)) =
    MarketEnvironment.executed_trades sample_engine ++ new /\
    Forall (fun t =>
              exists o,
                o ∈ MarketEnvironment.pending_orders sample_engine /\
                fill_matches sample_engine o t /\ Trade.valid t /\ within_limit o t)
      new.
Proof.
  exact (sweep_trades_respect_orders sample_engine sample_engine_ok).
Defined.

(** ** Risk manager *)

Lemma risk_on_trade_executed_frame (msg : message) (self : RiskManagerAgent.t) :
  exists positions cash logs,
    RiskManagerAgent._on_trade_executed msg self =
    (Return tt,
     RiskManagerAgent.set_trader_cash
       (RiskManagerAgent.set_current_positions self positions) cash,
     logs).
Proof.
  destruct msg as [| | | | |trade_id order_id symbol side quantity price commission ts
                     trader_id| |];
    try (exists (RiskManagerAgent.current_positions self),
           (RiskManagerAgent.trader_cash self), []; by destruct self).
  unfold RiskManagerAgent._on_trade_executed.
  set (key := RiskManagerAgent.trader_key trader_id symbol).
  unfold bind at 1. unfold get at 1.
  destruct (od_get key (RiskManagerAgent.current_positions self)) as [pos|] eqn:Hget.
  - unfold ret at 1. unfold bind at 1. unfold bind at 1. unfold get at 1.
    rewrite Hget.
    destruct (bool_decide (side = "BUY")); [|destruct (bool_decide (side = "SELL"))].
    + unfold bind, get, modify, log, ret. simpl. by eexists _, _, _.
    + destruct (ShadowPosition.quantity pos - quantity <=? 0)%Z eqn:Hq;
        unfold bind, get, modify, log, ret; simpl; rewrite Hq; simpl;
        by eexists _, _, _.
    + unfold bind, get, modify, log, ret. simpl.
      exists (RiskManagerAgent.current_positions self),
        (RiskManagerAgent.trader_cash self). eexists. by destruct self.
  - unfold modify at 1. unfold bind at 1. unfold bind at 1. unfold get at 1.
    cbn [RiskManagerAgent.current_positions RiskManagerAgent.set_current_positions].
    rewrite od_get_set.
    destruct (bool_decide (side = "BUY")); [|destruct (bool_decide (side = "SELL"))].
    + unfold bind, get, modify, log, ret. simpl. by eexists _, _, _.
    + destruct (0 - quantity <=? 0)%Z eqn:Hq;
        unfold bind, get, modify, log, ret; simpl; rewrite Hq; simpl;
        by eexists _, _, _.
    + unfold bind, get, modify, log, ret. simpl.
      exists (od_set key (ShadowPosition.mk trader_id symbol 0 0)
                (RiskManagerAgent.current_positions self)),
        (RiskManagerAgent.trader_cash self). eexists. by destruct self.
Qed.

Lemma risk_on_market_update_frame (msg : message) (self : RiskManagerAgent.t) :
  exists prices,
    RiskManagerAgent._on_market_update msg self =
    (Return tt, RiskManagerAgent.set_current_prices self prices, []).
Proof.
  destruct msg; try (exists (RiskManagerAgent.current_prices self); by destruct self).
  unfold RiskManagerAgent._on_market_update.
  match goal with |- context [if ?b then _ else _] => destruct b end.
  - by eexists.
  - exists (RiskManagerAgent.current_prices self). by destruct self.
Qed.

Lemma risk_on_order_request_run (now : Z) (self : RiskManagerAgent.t)
    (order_id : string) (ts : Z) (trader_id symbol side : string) (quantity : Z)
    (price : option Q) (signal_id : option string) :
  let answer :=
    RiskManagerAgent._validate_order self trader_id symbol side quantity price in
  exists logs,
    RiskManagerAgent._on_order_request now
      (order_request order_id ts trader_id symbol side quantity price signal_id) self =
    (Return tt,
     RiskManagerAgent.set_message_bus
       (if fst answer
        then RiskManagerAgent.set_approved_count self
               (RiskManagerAgent.approved_count self + 1)
        else RiskManagerAgent.set_rejected_count self
               (RiskManagerAgent.rejected_count self + 1))
       (RiskManagerAgent.message_bus self
        ++ [("risk_decisions", risk_decision order_id (fst answer) (snd answer) now)]),
     logs).
Proof.
  intros answer. subst answer.
  unfold RiskManagerAgent._on_order_request. unfold bind at 1. unfold get at 1.
  destruct (RiskManagerAgent._validate_order self trader_id symbol side quantity price)
    as [approved reason].
  destruct approved; unfold RiskManagerAgent.publish, bind, modify, log; simpl;
    by eexists.
Qed.

Lemma risk_deliver_step (d : delivery) (self : RiskManagerAgent.t) :
  exists self2 logs,
    risk_deliver (fst (fst d)) (snd (fst d)) (snd d) self = (Return tt, self2, logs) /\
    match request_id d with
    | Some order_id =>
        exists approved reason,
          RiskManagerAgent.message_bus self2 =
          RiskManagerAgent.message_bus self
          ++ [("risk_decisions", risk_decision order_id approved reason (fst (fst d)))] /\
          RiskManagerAgent.approved_count self2 =
          (RiskManagerAgent.approved_count self + (if approved then 1 else 0))%Z /\
          RiskManagerAgent.rejected_count self2 =
          (RiskManagerAgent.rejected_count self + (if approved then 0 else 1))%Z
    | None =>
        RiskManagerAgent.message_bus self2 = RiskManagerAgent.message_bus self /\
        RiskManagerAgent.approved_count self2 = RiskManagerAgent.approved_count self /\
        RiskManagerAgent.rejected_count self2 = RiskManagerAgent.rejected_count self
    end.
Proof.
  destruct d as [[now channel] msg]. cbn [fst snd]. unfold risk_deliver.
  destruct (decide (channel = "orders")) as [->|Hne].
  - rewrite bool_decide_eq_true_2 by done.
    destruct msg as [| |order_id ts trader_id symbol side quantity price signal_id| | | | |];
      try (exists self, []; by repeat split).
    destruct (risk_on_order_request_run now self order_id ts trader_id symbol side
                quantity price signal_id) as [logs Hrun].
    rewrite Hrun. eexists _, _. split; [done|]. simpl.
    destruct (RiskManagerAgent._validate_order self trader_id symbol side quantity price)
      as [approved reason].
    exists approved, reason. destruct approved; simpl; repeat split; lia.
  - rewrite (bool_decide_eq_false_2 (channel = "orders")) by done.
    assert (Hreq : request_id (now, channel, msg) = None).
    { destruct msg; try done. simpl. by rewrite bool_decide_eq_false_2. }
    rewrite Hreq.
    destruct (bool_decide (channel = "market_data")).
    + destruct (risk_on_market_update_frame msg self) as [prices Hrun].
      rewrite Hrun. by eexists _, _.
    + destruct (bool_decide (channel = "trades")).
      * destruct (risk_on_trade_executed_frame msg self) as (ps & cash & logs & Hrun).
        rewrite Hrun. by eexists _, _.
      * by exists self, [].
Qed.

(** X12. Whatever is delivered to a risk manager on its channels, its
    handlers never raise, and it answers every order request exactly once
    and nothing else: what it publishes during the run is one risk
    decision per order request received on the orders channel, in the
    order of the requests and under their ids.  Its two counters grow by
    the number of approvals and of rejections it published. *)
Theorem one_decision_per_request (ds : list delivery) (self : RiskManagerAgent.t) :
  exists self2 logs new,
    risk_run ds self = (Return tt, self2, logs) /\
    RiskManagerAgent.message_bus self2 = RiskManagerAgent.message_bus self ++ new /\
    length (omap decision_of new) = length new /\
    map fst (omap decision_of new) = request_ids ds /\
    RiskManagerAgent.approved_count self2 =
    (RiskManagerAgent.approved_count self
     + count_answers true (omap decision_of new))%Z /\
    RiskManagerAgent.rejected_count self2 =
    (RiskManagerAgent.rejected_count self
     + count_answers false (omap decision_of new))%Z.
Proof.
  revert self. induction ds as [|d ds IH]; intros self.
  - exists self, [], []. simpl. rewrite app_nil_r. unfold count_answers. simpl.
    repeat split; try done; lia.
  - destruct (risk_deliver_step d self) as (self1 & logs1 & Hrun1 & Hstep).
    destruct (IH self1) as (self2 & logs2 & new2 & Hrun2 & Hbus2 & Hlen2 & Hids2 & Happ2 & Hrej2).
    assert (Hrun : risk_run (d :: ds) self = (Return tt, self2, logs1 ++ logs2)).
    { destruct d as [[now channel] msg]. cbn [risk_run]. unfold bind.
      simpl in Hrun1. by rewrite Hrun1, Hrun2. }
    unfold request_ids. cbn [omap list_omap]. fold (request_ids ds).
    destruct (request_id d) as [order_id|].
    + destruct Hstep as (approved & reason & Hbus1 & Happ1 & Hrej1).
      exists self2, (logs1 ++ logs2),
        (("risk_decisions", risk_decision order_id approved reason (fst (fst d))) :: new2).
      split; [done|]. rewrite Hbus2, Hbus1, <- app_assoc. split; [done|].
      cbn [omap list_omap decision_of]. rewrite bool_decide_eq_true_2 by done.
      simpl. rewrite Hlen2, Hids2. split; [done|]. split; [done|].
      rewrite Happ2, Hrej2, Happ1, Hrej1. unfold count_answers.
      destruct approved; simpl; split;
        rewrite ?filter_cons_False by done; lia.
    + destruct Hstep as (Hbus1 & Happ1 & Hrej1).
      exists self2, (logs1 ++ logs2), new2.
      rewrite Hbus2, Hbus1, Happ2, Hrej2, Happ1, Hrej1. by repeat split.
Qed.

Lemma order_value_monotone (q q2 : Z) (p : Q) :
  (0 <= p)%Q -> (q2 <= q)%Z -> (inject_Z q2 * p <= inject_Z q * p)%Q.
Proof.
  intros Hp Hq. apply Qmult_le_compat_r; [|done]. by rewrite <- Zle_Qle.
Qed.

Lemma Qgtb_false_monotone (a b c : Q) :
  (b <= a)%Q -> Qgtb a c = false -> Qgtb b c = false.
Proof.
  intros Hle Ha. apply Qgtb_le. apply Qgtb_le in Ha. by apply Qle_trans with a.
Qed.

(** X13. The validator is monotone in the quantity and blind to the limit
    price: at a non-negative market price, an order that is approved
    stays approved when its quantity is lowered, whatever limit price
    either order carries. *)
Theorem validate_order_monotone (self : RiskManagerAgent.t)
    (trader_id symbol side : string) (quantity smaller : Z)
    (price price2 : option Q) (current_price : Q) :
  RiskManagerAgent.current_prices self !! symbol = Some current_price ->
  (0 <= current_price)%Q -> (smaller <= quantity)%Z ->
  fst (RiskManagerAgent._validate_order self trader_id symbol side quantity price)
  = true ->
  RiskManagerAgent._validate_order self trader_id symbol side smaller price2
  = (true, [Lit "Order approved"]).
Proof.
  intros Hprice Hpos Hle. unfold RiskManagerAgent._validate_order. rewrite Hprice.
  cbv zeta.
  pose proof (order_value_monotone quantity smaller current_price Hpos Hle) as Hvalue.
  destruct (Qgtb (inject_Z quantity * current_price)
              (RiskManagerAgent.max_position_size self)) eqn:Hsize; [done|].
  rewrite (Qgtb_false_monotone _ _ _ Hvalue Hsize).
  destruct (bool_decide (side = "BUY")) eqn:Hbuy; simpl.
  - match goal with
    | |- context [Qgtb (inject_Z quantity * current_price) ?c] =>
        destruct (Qgtb (inject_Z quantity * current_price) c) eqn:Hcash; [done|]
    end.
    rewrite (Qgtb_false_monotone _ _ _ Hvalue Hcash).
    match goal with
    | |- context [Qgtb (RiskManagerAgent.total_exposure self
                        + inject_Z quantity * current_price) ?c] =>
        destruct (Qgtb (RiskManagerAgent.total_exposure self
                        + inject_Z quantity * current_price) c) eqn:Hexp; [done|]
    end.
    intros _.
    rewrite (Qgtb_false_monotone
               (RiskManagerAgent.total_exposure self + inject_Z quantity * current_price)
               (RiskManagerAgent.total_exposure self + inject_Z smaller * current_price));
      [done| |done].
    by apply Qplus_le_r.
  - destruct (bool_decide (side = "SELL")) eqn:Hsell; simpl; [|done].
    match goal with
    | |- context [(quantity >? ?held)%Z] =>
        destruct (quantity >? held)%Z eqn:Hheld; [done|];
        assert (Hsmaller : (smaller >? held)%Z = false) by lia
    end.
    by rewrite Hsmaller.
Qed.

Lemma validate_order_monotone_witness :
  RiskManagerAgent._validate_order scenario_risk_manager "trader_1" "AAPL" "SELL" 4
    (Some 1%Q)
  = (true, [Lit "Order approved"]).
Proof.
  apply (validate_order_monotone scenario_risk_manager "trader_1" "AAPL" "SELL" 10 4
           None (Some 1%Q) 90).
  - reflexivity.
  - discriminate.
  - lia.
  - reflexivity.
Defined.

Lemma alert_for_body (self : RiskManagerAgent.t) (now now2 : Z)
    (pos : ShadowPosition.t) :
  alert_body <$> alert_for self now pos = alert_body <$> alert_for self now2 pos.
Proof.
  unfold alert_for.
  destruct (RiskManagerAgent.current_prices self !! ShadowPosition.symbol pos); [|done].
  by destruct (Qgtb _ _).
Qed.

Lemma alerts_body (self : RiskManagerAgent.t) (now now2 : Z) :
  map alert_body (alerts self now) = map alert_body (alerts self now2).
Proof.
  unfold alerts.
  induction (od_values (RiskManagerAgent.current_positions self)) as [|pos l IH];
    [done|].
  rewrite !omap_cons_option_list, !map_app, IH. f_equal.
  pose proof (alert_for_body self now now2 pos) as Hb.
  destruct (alert_for self now pos), (alert_for self now2 pos); simpl in *;
    try done.
  injection Hb as Hb. by rewrite Hb.
Qed.

(** X14. The stop-loss sweep only reports.  It returns, and leaves the
    shadow positions, the prices, the shadow cash and the counters as
    they were; since nothing is closed or marked, a second sweep
    publishes the same alerts again, with the new timestamp. *)
Theorem stop_loss_sweep_repeats (self : RiskManagerAgent.t) (now now2 : Z) :
  shadow_ok self ->
  let once := state_of (RiskManagerAgent._check_stop_losses now self) in
  let twice := RiskManagerAgent._check_stop_losses now2 once in
  result_of twice = Return tt /\
  once =
  RiskManagerAgent.set_message_bus self
    (RiskManagerAgent.message_bus self ++ on_alert_channel (alerts self now)) /\
  state_of twice =
  RiskManagerAgent.set_message_bus self
    (RiskManagerAgent.message_bus self
     ++ on_alert_channel (alerts self now) ++ on_alert_channel (alerts self now2)) /\
  map alert_body (alerts self now2) = map alert_body (alerts self now).
Proof.
  intros Hok once twice.
  destruct (check_stop_losses_run self now Hok) as [logs Hrun].
  assert (Honce : once =
                  RiskManagerAgent.set_message_bus self
                    (RiskManagerAgent.message_bus self
                     ++ on_alert_channel (alerts self now)))
    by (subst once; by rewrite Hrun).
  assert (Hok2 : shadow_ok once) by (by rewrite Honce).
  destruct (check_stop_losses_run once now2 Hok2) as [logs2 Hrun2].
  subst twice. rewrite Hrun2. split; [done|]. split; [done|]. split.
  - unfold state_of. simpl. rewrite Honce. simpl. by rewrite <- app_assoc.
  - apply alerts_body.
Qed.

Lemma stop_loss_sweep_repeats_witness :
  map alert_body (alerts scenario_risk_manager 4) =
  map alert_body (alerts scenario_risk_manager 3).
Proof.
  exact (proj2 (proj2 (proj2 (stop_loss_sweep_repeats scenario_risk_manager 3 4
                                scenario_risk_manager_ok)))).
Defined.

Lemma risk_deliver_shadow_ok (d : delivery) (self : RiskManagerAgent.t) :
  shadow_ok self -> trade_delivery_valid d ->
  shadow_ok (state_of (risk_deliver (fst (fst d)) (snd (fst d)) (snd d) self)).
Proof.
  intros Hok Hd. destruct d as [[now channel] msg]. unfold trade_delivery_valid in Hd.
  cbn [fst snd] in *. unfold risk_deliver.
  destruct (bool_decide (channel = "orders")).
  { by apply shadow_ok_on_order_request. }
  destruct (bool_decide (channel = "market_data")).
  { by apply shadow_ok_on_market_update. }
  destruct (decide (channel = "trades")) as [Hc|Hc].
  - rewrite bool_decide_eq_true_2 by done.
    destruct (Hd Hc) as (t & -> & Hvalid). by apply shadow_ok_on_trade_executed.
  - by rewrite bool_decide_eq_false_2.
Qed.

(** X15. A risk manager fed with the messages of validated trades keeps
    a sound shadow book, and its stop-loss sweep never divides by zero:
    after any run of deliveries in which the trades channel carries
    validated trades, every shadow position holds shares at a positive
    average cost, and [_check_stop_losses] returns. *)
Theorem stop_loss_sweep_never_raises (ds : list delivery) (self : RiskManagerAgent.t)
    (now : Z) :
  shadow_ok self -> Forall trade_delivery_valid ds ->
  exists self2 logs,
    risk_run ds self = (Return tt, self2, logs) /\
    shadow_ok self2 /\
    result_of (RiskManagerAgent._check_stop_losses now self2) = Return tt.
Proof.
  intros Hok Hds. revert self Hok.
  induction Hds as [|d ds Hd _ IH]; intros self Hok.
  - exists self, []. split; [done|]. split; [done|].
    destruct (check_stop_losses_run self now Hok) as [logs Hrun]. by rewrite Hrun.
  - destruct (risk_deliver_step d self) as (self1 & logs1 & Hrun1 & _).
    pose proof (risk_deliver_shadow_ok d self Hok Hd) as Hok1.
    rewrite Hrun1 in Hok1.
    destruct (IH self1 Hok1) as (self2 & logs2 & Hrun2 & Hok2 & Hsweep).
    exists self2, (logs1 ++ logs2). split; [|done].
    destruct d as [[now1 channel] msg]. cbn [risk_run]. unfold bind.
    simpl in Hrun1. by rewrite Hrun1, Hrun2.
Qed.

Lemma stop_loss_sweep_never_raises_witness :
  exists self2 logs,
    risk_run sample_risk_run fresh_risk_manager = (Return tt, self2, logs) /\
    shadow_ok self2 /\
    result_of (RiskManagerAgent._check_stop_losses 5 self2) = Return tt.
Proof.
  apply (stop_loss_sweep_never_raises sample_risk_run fresh_risk_manager 5).
  - apply shadow_ok_init.
  - unfold sample_risk_run.
    repeat (apply Forall_cons; split); try apply Forall_nil; try exact I;
      unfold trade_delivery_valid; simpl; intros Hc; try discriminate Hc.
    exists (Trade.mk "trade_trader_1_order_2" 4 "trader_1_order_2" "AAPL" BUY 10 100 1
              "trader_1").
    split; [reflexivity|]. split; [reflexivity|]. split; [reflexivity|discriminate].
Defined.

Lemma on_trade_executed_cash (self : RiskManagerAgent.t) (t : Trade.t) :
  RiskManagerAgent.trader_cash
    (state_of (RiskManagerAgent._on_trade_executed (trade_message t) self)) =
  <[Trade.trader_id t :=
      match Trade.side t with
      | BUY =>
          (shadowed_cash self (Trade.trader_id t)
           - (Trade.execution_price t * inject_Z (Trade.quantity t)
              + Trade.commission t))%Q
      | SELL =>
          (shadowed_cash self (Trade.trader_id t)
           + (Trade.execution_price t * inject_Z (Trade.quantity t)
              - Trade.commission t))%Q
      end]> (RiskManagerAgent.trader_cash self).
Proof.
  unfold RiskManagerAgent._on_trade_executed, trade_message, shadowed_cash.
  set (key := RiskManagerAgent.trader_key (Trade.trader_id t) (Trade.symbol t)).
  unfold bind at 1. unfold get at 1.
  destruct (od_get key (RiskManagerAgent.current_positions self)) as [pos|] eqn:Hget.
  - unfold ret at 1. unfold bind at 1. unfold bind at 1. unfold get at 1.
    rewrite Hget. destruct (Trade.side t); simpl.
    + reflexivity.
    + by destruct (ShadowPosition.quantity pos - Trade.quantity t <=? 0)%Z.
  - unfold modify at 1. unfold bind at 1. unfold bind at 1. unfold get at 1.
    cbn [RiskManagerAgent.current_positions RiskManagerAgent.set_current_positions].
    rewrite od_get_set. destruct (Trade.side t); simpl.
    + reflexivity.
    + by destruct (0 - Trade.quantity t <=? 0)%Z.
Qed.

(** X16. Round trip on the shadow book: when the risk manager sees a
    trader buy [q] shares of a symbol it has no shadow position for, it
    shadows [q] shares at the purchase price; when it then sees the same
    [q] shares sold, the shadow positions are as they were at the start,
    and the trader's shadow cash (a quarter of the initial portfolio value
    until the first trade) has paid the purchase and its commission and
    received the sale less its commission.  The shadow cash of the other
    traders is untouched. *)
Theorem shadow_book_round_trip (self : RiskManagerAgent.t) (trader_id symbol : string)
    (q : Z) (price price2 c c2 : Q) :
  od_get (RiskManagerAgent.trader_key trader_id symbol)
    (RiskManagerAgent.current_positions self) = None ->
  (0 < q)%Z ->
  let buy := Trade.mk "trade_buy" 0 "buy" symbol BUY q price c trader_id in
  let sell := Trade.mk "trade_sell" 0 "sell" symbol SELL q price2 c2 trader_id in
  let bought := state_of (RiskManagerAgent._on_trade_executed (trade_message buy) self) in
  let sold := state_of (RiskManagerAgent._on_trade_executed (trade_message sell) bought) in
  (exists pos,
      od_get (RiskManagerAgent.trader_key trader_id symbol)
        (RiskManagerAgent.current_positions bought) = Some pos /\
      ShadowPosition.quantity pos = q /\ (ShadowPosition.avg_cost pos == price)%Q) /\
  RiskManagerAgent.current_positions sold = RiskManagerAgent.current_positions self /\
  (shadowed_cash sold trader_id ==
   shadowed_cash self trader_id - (price * inject_Z q + c)
   + (price2 * inject_Z q - c2))%Q /\
  (forall other,
      other <> trader_id ->
      RiskManagerAgent.trader_cash sold !! other
      = RiskManagerAgent.trader_cash self !! other).
Proof.
  intros Hnone Hq buy sell bought sold.
  set (key := RiskManagerAgent.trader_key trader_id symbol) in *.
  pose proof (on_trade_executed_positions self buy) as Hpos1.
  pose proof (on_trade_executed_cash self buy) as Hcash1.
  fold bought in Hpos1, Hcash1. simpl in Hpos1, Hcash1. fold key in Hpos1.
  rewrite Hnone in Hpos1. simpl in Hpos1.
  assert (Hgt : (0 + q >? 0)%Z = true) by lia. rewrite Hgt in Hpos1.
  assert (Hget1 : od_get key (RiskManagerAgent.current_positions bought)
                  = Some (ShadowPosition.mk trader_id symbol (0 + q)
                            ((inject_Z 0 * 0 + inject_Z q * price)
                             / inject_Z (0 + q))%Q)).
  { rewrite Hpos1. apply od_get_set. }
  pose proof (on_trade_executed_positions bought sell) as Hpos2.
  pose proof (on_trade_executed_cash bought sell) as Hcash2.
  fold sold in Hpos2, Hcash2. simpl in Hpos2, Hcash2. fold key in Hpos2.
  rewrite Hget1 in Hpos2. simpl in Hpos2.
  assert (Hle : (0 + q - q <=? 0)%Z = true) by lia. rewrite Hle in Hpos2.
  assert (Hqnz : ~ (inject_Z q == 0)%Q).
  { change 0%Q with (inject_Z 0). rewrite inject_Z_injective. lia. }
  split; [|split; [|split]].
  - eexists. split; [exact Hget1|]. split; [simpl; lia|]. simpl.
    replace (0 + q)%Z with q by lia. field. exact Hqnz.
  - rewrite Hpos2, Hpos1, od_del_set. by apply od_del_missing.
  - unfold shadowed_cash at 1. rewrite Hcash2. rewrite lookup_insert_eq. simpl.
    unfold shadowed_cash at 1.
    assert (Hipv : RiskManagerAgent.initial_portfolio_value bought
                   = RiskManagerAgent.initial_portfolio_value self).
    { subst bought.
      destruct (risk_on_trade_executed_frame (trade_message buy) self)
        as (ps & cash & logs & Hrun).
      by rewrite Hrun. }
    rewrite Hipv, Hcash1. rewrite lookup_insert_eq. simpl. reflexivity.
  - intros other Hne. rewrite Hcash2, lookup_insert_ne by done.
    rewrite Hcash1, lookup_insert_ne by done. reflexivity.
Qed.

Lemma shadow_book_round_trip_witness :
  RiskManagerAgent.current_positions
    (state_of
       (RiskManagerAgent._on_trade_executed
          (trade_message (Trade.mk "trade_sell" 0 "sell" "MSFT" SELL 5 260 1 "trader_2"))
          (state_of
             (RiskManagerAgent._on_trade_executed
                (trade_message
                   (Trade.mk "trade_buy" 0 "buy" "MSFT" BUY 5 250 1 "trader_2"))
                scenario_risk_manager))))
  = RiskManagerAgent.current_positions scenario_risk_manager.
Proof.
  refine (proj1 (proj2 (shadow_book_round_trip scenario_risk_manager "trader_2" "MSFT"
                          5 250 260 1 1 _ _))); reflexivity.
Defined.

(** ** Trader *)

Lemma py_int_floor (x : Q) :
  (0 <= x)%Q -> (inject_Z (py_int x) <= x)%Q /\ (x < inject_Z (py_int x) + 1)%Q.
Proof.
  destruct x as [n d]. unfold Qle, Qlt, py_int. simpl. intros Hn.
  assert (Hn0 : (0 <= n)%Z) by lia.
  rewrite Z.quot_div_nonneg by lia.
  pose proof (Z.mul_div_le n (Z.pos d) ltac:(lia)) as Hlow.
  pose proof (Z.mul_succ_div_gt n (Z.pos d) ltac:(lia)) as Hhigh.
  split; nia.
Qed.

Lemma Qle_one_div (a b : Q) : (0 < b)%Q -> (b <= a)%Q -> (1 <= a / b)%Q.
Proof.
  intros Hb Hle. apply Qle_shift_div_l; [done|]. by rewrite Qmult_1_l.
Qed.

Lemma Qle_div_mult (a b c : Q) : (0 < c)%Q -> (a <= b / c)%Q -> (a * c <= b)%Q.
Proof.
  intros Hc Hle. assert (Heq : (b == b / c * c)%Q) by (field; lra).
  rewrite Heq. apply Qmult_le_compat_r; lra.
Qed.

Lemma Qlt_div_mult (a b c : Q) : (0 < c)%Q -> (b / c < a)%Q -> (b < a * c)%Q.
Proof.
  intros Hc Hlt. assert (Heq : (b == b / c * c)%Q) by (field; lra).
  rewrite Heq. apply Qmult_lt_compat_r; lra.
Qed.

Lemma py_int_ge_1 (x : Q) : (1 <= x)%Q -> (1 <= py_int x)%Z.
Proof.
  intros Hx. destruct (py_int_floor x) as [_ Hhigh]; [lra|].
  assert (H0 : (0 < inject_Z (py_int x))%Q) by lra.
  change 0%Q with (inject_Z 0) in H0. rewrite <- Zlt_Qlt in H0. lia.
Qed.

Ltac run_trader_order :=
  unfold Order_new, TraderAgent.append_order, TraderAgent.publish;
  unfold bind, get, modify, log, ret, raise; simpl.

(** X17. Sizing of a BUY at a positive price.  The budget is the smaller
    of a tenth of the cash and three tenths of the position cap.  When
    the budget is below the price nothing is placed.  Otherwise exactly
    one order is built, tracked and published: a PENDING BUY numbered with
    the next order count, with a limit 1% above the price and the largest
    quantity the budget pays for (at least one share). *)
Theorem place_buy_order_sizing (now : Z) (symbol : string) (current_price : Q)
    (signal_id : option string) (st : TraderAgent.t) :
  (0 < current_price)%Q ->
  ((buy_budget st < current_price)%Q ->
   TraderAgent._place_buy_order now symbol current_price signal_id st =
   (Return tt, st, [(DEBUG, InsufficientCashFor symbol)])) /\
  ((current_price <= buy_budget st)%Q ->
   exists quantity logs,
     (1 <= quantity)%Z /\
     (inject_Z quantity * current_price <= buy_budget st)%Q /\
     (buy_budget st < (inject_Z quantity + 1) * current_price)%Q /\
     TraderAgent._place_buy_order now symbol current_price signal_id st =
     (Return tt,
      placed st (next_order st now symbol BUY quantity (current_price * (101 # 100))
                   signal_id),
      logs)).
Proof.
  intros Hpos. split.
  - intros Hlow. apply Qltb_lt in Hlow.
    unfold TraderAgent._place_buy_order. unfold bind at 1. unfold get at 1.
    fold (buy_budget st). rewrite Hlow. reflexivity.
  - intros Hle. assert (Hno : Qltb (buy_budget st) current_price = false)
      by (by apply Qltb_ge).
    unfold TraderAgent._place_buy_order. unfold bind at 1. unfold get at 1.
    fold (buy_budget st). rewrite Hno. unfold py_div.
    assert (Hnz : Qeq_bool current_price 0 = false) by (by apply Qeq_bool_false_pos).
    rewrite Hnz. unfold bind at 1. unfold ret at 1.
    set (quantity := py_int (buy_budget st / current_price)).
    assert (Hratio : (1 <= buy_budget st / current_price)%Q) by (by apply Qle_one_div).
    assert (Hq : (1 <= quantity)%Z) by (by apply py_int_ge_1).
    destruct (py_int_floor (buy_budget st / current_price)) as [Hfloor Hceil]; [lra|].
    fold quantity in Hfloor, Hceil.
    assert (Hlt1 : (quantity <? 1)%Z = false) by lia. rewrite Hlt1.
    exists quantity. eexists. split; [done|]. split; [|split].
    + by apply Qle_div_mult.
    + by apply Qlt_div_mult.
    + run_trader_order.
      assert (Hq0 : (0 <? quantity)%Z = true) by lia. rewrite Hq0.
      assert (Hlimit : Qltb 0 (current_price * (101 # 100)) = true).
      { apply Qltb_lt. apply Qmult_lt_0_compat; [done|reflexivity]. }
      rewrite Hlimit. simpl. reflexivity.
Qed.

Lemma place_buy_order_sizing_witness :
  exists quantity logs,
    (1 <= quantity)%Z /\
    (inject_Z quantity * 100 <= buy_budget holding_trader)%Q /\
    (buy_budget holding_trader < (inject_Z quantity + 1) * 100)%Q /\
    TraderAgent._place_buy_order 5 "AAPL" 100 (Some "sig_1") holding_trader =
    (Return tt,
     placed holding_trader
       (next_order holding_trader 5 "AAPL" BUY quantity (100 * (101 # 100))
          (Some "sig_1")),
     logs).
Proof.
  apply (proj2 (place_buy_order_sizing 5 "AAPL" 100 (Some "sig_1") holding_trader
                  eq_refl)).
  discriminate.
Defined.

Lemma py_int_half (h : Z) : py_int (inject_Z h * (1 # 2)) = (h ÷ 2)%Z.
Proof. unfold py_int. simpl. by rewrite Z.mul_1_r. Qed.

(** X18. Sizing of a SELL at a positive price.  Without shares of the
    symbol nothing is placed.  With [h > 0] shares exactly one order is
    built, tracked and published: a PENDING SELL numbered with the next
    order count, with a limit 1% below the price, for half the shares
    rounded down but at least one; it never asks for more than is held. *)
Theorem place_sell_order_sizing (now : Z) (symbol : string) (current_price : Q)
    (signal_id : option string) (st : TraderAgent.t) :
  (0 < current_price)%Q ->
  ((held st symbol <= 0)%Z ->
   TraderAgent._place_sell_order now symbol current_price signal_id st =
   (Return tt, st, [])) /\
  ((0 < held st symbol)%Z ->
   let quantity := Z.max 1 (held st symbol / 2) in
   (1 <= quantity <= held st symbol)%Z /\
   exists logs,
     TraderAgent._place_sell_order now symbol current_price signal_id st =
     (Return tt,
      placed st (next_order st now symbol SELL quantity (current_price * (99 # 100))
                   signal_id),
      logs)).
Proof.
  intros Hpos. split.
  - intros Hnone. unfold TraderAgent._place_sell_order. unfold bind at 1. unfold get at 1.
    fold (held st symbol).
    assert (Hle : (held st symbol <=? 0)%Z = true) by lia. by rewrite Hle.
  - intros Hheld quantity.
    assert (Hdiv : (0 <= held st symbol / 2 <= held st symbol)%Z).
    { split; [apply Z.div_pos; lia|]. apply Z.div_le_upper_bound; lia. }
    split; [lia|].
    unfold TraderAgent._place_sell_order. unfold bind at 1. unfold get at 1.
    fold (held st symbol).
    assert (Hle : (held st symbol <=? 0)%Z = false) by lia. rewrite Hle.
    rewrite py_int_half, Z.quot_div_nonneg by lia.
    assert (Hmax : py_max 1 (held st symbol / 2) = quantity).
    { unfold py_max, quantity. destruct (held st symbol / 2 >? 1)%Z eqn:Hgt; lia. }
    rewrite Hmax. run_trader_order.
    assert (Hq0 : (0 <? quantity)%Z = true) by lia. rewrite Hq0.
    assert (Hlimit : Qltb 0 (current_price * (99 # 100)) = true).
    { apply Qltb_lt. apply Qmult_lt_0_compat; [done|reflexivity]. }
    rewrite Hlimit. simpl. by eexists.
Qed.

Lemma place_sell_order_sizing_witness :
  exists logs,
    TraderAgent._place_sell_order 5 "AAPL" 100 (Some "sig_1") holding_trader =
    (Return tt,
     placed holding_trader
       (next_order holding_trader 5 "AAPL" SELL 20 (100 * (99 # 100)) (Some "sig_1")),
     logs).
Proof.
  apply (proj2 (place_sell_order_sizing 5 "AAPL" 100 (Some "sig_1") holding_trader
                  eq_refl)).
  reflexivity.
Defined.

Lemma bind_get_run {S A} (k : S -> M S A) (s : S) : (let* self := get in k self) s = k s s.
Proof. unfold bind, get. by destruct (k s s) as [[r s2] l]. Qed.

Lemma on_signal_run (now : Z) (st : TraderAgent.t) (signal_id : string) (ts : Z)
    (agent_id symbol signal_type : string) (confidence : Q) :
  let run :=
    TraderAgent._on_signal now
      (signal signal_id ts agent_id symbol signal_type confidence) st in
  let unchanged := result_of run = Return tt /\ state_of run = st in
  (symbol ∉ TraderAgent.symbols st \/ (confidence <= 65 # 100)%Q \/
   TraderAgent.current_prices st !! symbol = None \/
   (signal_type <> "BULLISH" /\ signal_type <> "BEARISH") -> unchanged) /\
  (forall current_price,
      symbol ∈ TraderAgent.symbols st -> (65 # 100 < confidence)%Q ->
      TraderAgent.current_prices st !! symbol = Some current_price ->
      (signal_type = "BULLISH" ->
       if Qltb (inject_Z (held st symbol) * current_price)
            (TraderAgent.max_position_value st)
       then run = TraderAgent._place_buy_order now symbol current_price
                    (Some signal_id) st
       else unchanged) /\
      (signal_type = "BEARISH" ->
       if (held st symbol >? 0)%Z
       then run = TraderAgent._place_sell_order now symbol current_price
                    (Some signal_id) st
       else unchanged)).
Proof.
  intros run unchanged. subst run unchanged.
  unfold TraderAgent._on_signal. rewrite bind_get_run.
  fold (held st symbol).
  destruct (decide (symbol ∈ TraderAgent.symbols st)) as [Hin|Hin].
  2: { rewrite bool_decide_eq_false_2 by done. simpl. split; [done|].
       intros p Hin2. done. }
  rewrite bool_decide_eq_true_2 by done. simpl.
  destruct (Qltb confidence (6 # 10)) eqn:Hlow.
  { apply Qltb_lt in Hlow. split; [done|]. intros p _ Hhigh. lra. }
  apply Qltb_ge in Hlow.
  destruct (TraderAgent.current_prices st !! symbol) as [p|] eqn:Hp.
  2: { split; [done|]. intros p _ _ Hp2. done. }
  destruct (Qgtb confidence (65 # 100)) eqn:Hconf.
  - apply Qgtb_gt in Hconf. rewrite !andb_true_r.
    destruct (decide (signal_type = "BULLISH")) as [->|Hbull].
    + simpl. split.
      * intros [Hno|[Hno|[Hno|[Hno _]]]]; try done. lra.
      * intros p2 _ _ [= <-]. split; [|done]. intros _.
        by destruct (Qltb _ _).
    + rewrite (bool_decide_eq_false_2 (signal_type = "BULLISH")) by done.
      destruct (decide (signal_type = "BEARISH")) as [->|Hbear].
      * simpl. split.
        -- intros [Hno|[Hno|[Hno|[_ Hno]]]]; try done. lra.
        -- intros p2 _ _ [= <-]. split; [done|]. intros _.
           by destruct (held st symbol >? 0)%Z.
      * rewrite (bool_decide_eq_false_2 (signal_type = "BEARISH")) by done.
        split; [done|]. intros p2 _ _ _. split; intros; done.
  - apply Qgtb_le in Hconf. rewrite !andb_false_r. split; [done|].
    intros p2 _ Hhigh. lra.
Qed.


(** X19. What makes the trader act on a signal.  A signal is ignored (the
    trader is unchanged) when its symbol is not one of the trader's, when
    its confidence is not above 0.65 (the 0.6 test only chooses whether
    the refusal is logged), when the symbol has no price, or when its
    type is neither BULLISH nor BEARISH.  Otherwise a BULLISH signal
    leads to [_place_buy_order] at the current price exactly when the
    value held in the symbol is below the position cap, and a BEARISH
    signal to [_place_sell_order] exactly when shares are held. *)
Theorem on_signal_gates (now : Z) (st : TraderAgent.t) (signal_id : string) (ts : Z)
    (agent_id symbol signal_type : string) (confidence : Q) :
  let run :=
    TraderAgent._on_signal now
      (signal signal_id ts agent_id symbol signal_type confidence) st in
  let unchanged := result_of run = Return tt /\ state_of run = st in
  (symbol ∉ TraderAgent.symbols st \/ (confidence <= 65 # 100)%Q \/
   TraderAgent.current_prices st !! symbol = None \/
   (signal_type <> "BULLISH" /\ signal_type <> "BEARISH") -> unchanged) /\
  (forall current_price,
      symbol ∈ TraderAgent.symbols st -> (65 # 100 < confidence)%Q ->
      TraderAgent.current_prices st !! symbol = Some current_price ->
      (signal_type = "BULLISH" ->
       if Qltb (inject_Z (held st symbol) * current_price)
            (TraderAgent.max_position_value st)
       then run = TraderAgent._place_buy_order now symbol current_price
                    (Some signal_id) st
       else unchanged) /\
      (signal_type = "BEARISH" ->
       if (held st symbol >? 0)%Z
       then run = TraderAgent._place_sell_order now symbol current_price
                    (Some signal_id) st
       else unchanged)).
Proof.
  exact (on_signal_run now st signal_id ts agent_id symbol signal_type confidence).
Qed.

Lemma on_signal_gates_witness :
  state_of (TraderAgent._on_signal 5
              (signal "sig_1" 4 "analyst_1" "AAPL" "BEARISH" (65 # 100)) holding_trader)
  = holding_trader /\
  TraderAgent._on_signal 5 (signal "sig_2" 4 "analyst_1" "AAPL" "BEARISH" (7 # 10))
    holding_trader
  = TraderAgent._place_sell_order 5 "AAPL" 100 (Some "sig_2") holding_trader.
Proof.
  split.
  - apply (proj1 (on_signal_gates 5 holding_trader "sig_1" 4 "analyst_1" "AAPL"
                    "BEARISH" (65 # 100))).
    right. left. discriminate.
  - refine (proj2 (proj2 (on_signal_gates 5 holding_trader "sig_2" 4 "analyst_1" "AAPL"
                            "BEARISH" (7 # 10)) 100%Q _ _ _) _);
      [set_solver|reflexivity|reflexivity|reflexivity].
Defined.

(** *** Order numbering *)

Lemma numbering_step_refl (st : TraderAgent.t) : numbering_step st st.
Proof. split; [done|]. split; [lia|]. by left. Qed.

Lemma place_buy_order_numbering now symbol current_price signal_id (st : TraderAgent.t) :
  numbering_step st
    (state_of (TraderAgent._place_buy_order now symbol current_price signal_id st)).
Proof.
  unfold TraderAgent._place_buy_order. run_trader_monad.
  repeat case_match; simpl; simplify_eq; try apply numbering_step_refl.
  all: unfold numbering_step, built_ids; simpl; split; [done|]; split; [lia|].
  all: try (left; reflexivity).
  all: right; split; [by rewrite map_app|lia].
Qed.

Lemma place_sell_order_numbering now symbol current_price signal_id (st : TraderAgent.t) :
  numbering_step st
    (state_of (TraderAgent._place_sell_order now symbol current_price signal_id st)).
Proof.
  unfold TraderAgent._place_sell_order. run_trader_monad.
  repeat case_match; simpl; simplify_eq; try apply numbering_step_refl.
  all: unfold numbering_step, built_ids; simpl; split; [done|]; split; [lia|].
  all: try (left; reflexivity).
  all: right; split; [by rewrite map_app|lia].
Qed.

Lemma on_signal_numbering now msg (st : TraderAgent.t) :
  numbering_step st (state_of (TraderAgent._on_signal now msg st)).
Proof.
  unfold TraderAgent._on_signal.
  destruct msg; try apply numbering_step_refl.
  rewrite bind_get_run.
  repeat match goal with
         | |- context [if ?c then _ else _] => destruct c
         | |- context [match ?c with Some _ => _ | None => _ end] => destruct c
         end;
    try apply numbering_step_refl.
  - apply place_buy_order_numbering.
  - apply place_sell_order_numbering.
Qed.

Lemma on_market_update_numbering msg (st : TraderAgent.t) :
  numbering_step st (state_of (TraderAgent._on_market_update msg st)).
Proof.
  unfold TraderAgent._on_market_update.
  destruct msg; try apply numbering_step_refl.
  destruct (negb _ && negb _); [|apply numbering_step_refl].
  split; [done|]. split; [simpl; lia|]. by left.
Qed.

Lemma map_id_insert (orders : list Order.t) (a : nat) (o o2 : Order.t) :
  orders !! a = Some o -> Order.id o2 = Order.id o ->
  map Order.id (<[a := o2]> orders) = map Order.id orders.
Proof.
  intros Ho Hid. change (Order.id <$> <[a:=o2]> orders = Order.id <$> orders).
  rewrite list_fmap_insert. apply list_insert_id.
  rewrite list_lookup_fmap, Ho. simpl. by rewrite Hid.
Qed.

Lemma on_risk_decision_numbering now msg (st : TraderAgent.t) :
  numbering_step st (state_of (TraderAgent._on_risk_decision now msg st)).
Proof.
  unfold TraderAgent._on_risk_decision.
  destruct msg as [| | |order_id approved reason ts| | | |];
    try apply numbering_step_refl.
  rewrite bind_get_run.
  destruct (TraderAgent.find_order (TraderAgent.orders st) order_id
              (TraderAgent.pending_orders st)) as [a|] eqn:Hfind;
    [|apply numbering_step_refl].
  destruct (find_order_spec _ _ _ _ Hfind) as (pre & post & o & Hpending & Ho & Hid & Hpre).
  assert (Hlt : (a < length (TraderAgent.orders st))%nat) by (by eapply lookup_lt_Some).
  destruct approved.
  - run_trader_monad. rewrite Ho. simpl.
    rewrite list_lookup_insert_eq by done. simpl.
    split; [done|]. split; [simpl; lia|]. left. unfold built_ids. simpl.
    by apply (map_id_insert _ _ o).
  - run_trader_monad. rewrite Ho. simpl.
    rewrite list_lookup_insert_eq by done. simpl.
    rewrite list_insert_insert_eq.
    assert (Hids : map Order.id
                     (<[a := Order.set_rejection_reason (Order.set_status o REJECTED)
                               (Some reason)]> (TraderAgent.orders st))
                   = map Order.id (TraderAgent.orders st))
      by (by apply (map_id_insert _ _ o)).
    destruct (py_remove _ _ _); simpl;
      (split; [done|]; split; [simpl; lia|]; by left).
Qed.

Lemma on_trade_executed_numbering msg (st : TraderAgent.t) :
  numbering_step st (state_of (TraderAgent._on_trade_executed msg st)).
Proof.
  unfold TraderAgent._on_trade_executed.
  destruct msg as [| | | | |trade_id order_id symbol side quantity price commission ts tid
                   | |]; try apply numbering_step_refl.
  rewrite bind_get_run.
  destruct (TraderAgent.find_order (TraderAgent.orders st) order_id
              (TraderAgent.pending_orders st)) as [a|]; [|apply numbering_step_refl].
  destruct (bool_decide (side = "BUY")); [|destruct (bool_decide (side = "SELL"))];
    run_trader_monad;
    repeat case_match; simplify_eq; simpl;
    (split; [done|]; split; [simpl; lia|]; by left).
Qed.

Lemma deliver_numbering (st : TraderAgent.t) (d : delivery) :
  numbering_step st (deliver_to st d).
Proof.
  destruct d as [[now channel] msg]. unfold deliver_to, TraderAgent.deliver.
  repeat case_match.
  - apply on_signal_numbering.
  - apply on_market_update_numbering.
  - apply on_risk_decision_numbering.
  - apply on_trade_executed_numbering.
  - apply numbering_step_refl.
Qed.

Lemma order_id_of_inj (agent_id : string) : Inj (=) (=) (order_id_of agent_id).
Proof.
  intros k k2 Heq. unfold order_id_of in Heq.
  apply String.app_inj in Heq. apply String.app_inj in Heq.
  by apply pretty_Z_inj in Heq.
Qed.

Lemma built_ids_numbered (agent_id : string) (bus : outbox) (symbols : list string)
    (initial_cash max_position_value : Q) (ds : list delivery) :
  let st :=
    after_deliveries ds
      (TraderAgent.__init__ agent_id bus symbols initial_cash max_position_value) in
  TraderAgent.agent_id st = agent_id /\
  exists ks,
    built_ids st = map (order_id_of agent_id) ks /\ NoDup ks /\
    Forall (fun k => 1 <= k <= TraderAgent.order_count st)%Z ks.
Proof.
  set (lower := fun st : TraderAgent.t =>
                  TraderAgent.agent_id st = agent_id /\
                  (0 <= TraderAgent.order_count st)%Z /\
                  exists ks,
                    built_ids st = map (order_id_of agent_id) ks /\ NoDup ks /\
                    Forall (fun k => 1 <= k <= TraderAgent.order_count st)%Z ks).
  assert (Hall : forall st, lower st -> lower (after_deliveries ds st)).
  { induction ds as [|d ds IH]; intros st Hst; [done|].
    simpl. apply IH. destruct Hst as (Hagent & Hcount & ks & Hids & Hnd & Hks).
    destruct (deliver_numbering st d) as (Hagent2 & Hcount2 & Hstep).
    split; [congruence|]. split; [lia|].
    destruct Hstep as [Hsame|[Hnew Hnext]].
    - exists ks. rewrite Hsame. split; [done|]. split; [done|].
      eapply Forall_impl; [exact Hks|]. simpl. intros k Hk. lia.
    - exists (ks ++ [(TraderAgent.order_count st + 1)%Z]).
      rewrite Hnew, Hids, map_app, Hagent. split; [done|]. split.
      + apply NoDup_app. split; [done|]. split; [|apply NoDup_singleton].
        intros k Hk Hk2. apply list_elem_of_singleton in Hk2. subst k.
        rewrite Forall_forall in Hks. specialize (Hks _ Hk). lia.
      + apply Forall_app. split.
        * eapply Forall_impl; [exact Hks|]. simpl. intros k Hk. lia.
        * apply Forall_singleton. lia. }
  intros st.
  destruct (Hall (TraderAgent.__init__ agent_id bus symbols initial_cash
                    max_position_value)) as (Hagent & Hcount & Hks).
  { split; [done|]. split; [done|]. exists []. split; [done|]. split; constructor. }
  by split.
Qed.

Lemma built_ids_NoDup (agent_id : string) (bus : outbox) (symbols : list string)
    (initial_cash max_position_value : Q) (ds : list delivery) :
  NoDup (built_ids
           (after_deliveries ds
              (TraderAgent.__init__ agent_id bus symbols initial_cash
                 max_position_value))).
Proof.
  destruct (built_ids_numbered agent_id bus symbols initial_cash max_position_value ds)
    as (_ & ks & Hids & Hnd & _).
  rewrite Hids. apply NoDup_fmap_2; [apply order_id_of_inj|done].
Qed.

(** X20. Order ids are unique.  Whatever is delivered to a trader built by
    its constructor, the orders it has built carry pairwise distinct ids,
    each of the form [<agent id>_order_<k>] with [1 <= k <= order_count];
    the agent id never changes. *)
Theorem order_ids_unique (agent_id : string) (bus : outbox) (symbols : list string)
    (initial_cash max_position_value : Q) (ds : list delivery) :
  let st :=
    after_deliveries ds
      (TraderAgent.__init__ agent_id bus symbols initial_cash max_position_value) in
  TraderAgent.agent_id st = agent_id /\
  NoDup (built_ids st) /\
  Forall (fun id =>
            exists k, id = order_id_of agent_id k /\
                      (1 <= k <= TraderAgent.order_count st)%Z)
    (built_ids st).
Proof.
  intros st.
  destruct (built_ids_numbered agent_id bus symbols initial_cash max_position_value ds)
    as (Hagent & ks & Hids & Hnd & Hks).
  fold st in Hagent, Hids, Hks. split; [done|]. split.
  - apply built_ids_NoDup.
  - rewrite Hids. apply Forall_forall. intros id Hid.
    apply list_elem_of_fmap in Hid as (k & -> & Hk). exists k. split; [done|].
    rewrite Forall_forall in Hks. by apply Hks.
Qed.

(** *** Fills *)

Lemma positions_value_insert (prices : gmap string Q) (m : gmap string Z)
    (symbol : string) (qty : Z) :
  let worth := fun kv : string * Z =>
                 (inject_Z (snd kv) * default 0%Q (prices !! fst kv))%Q in
  (py_sum (map worth (map_to_list (<[symbol := qty]> m))) ==
   py_sum (map worth (map_to_list m))
   + (inject_Z qty - inject_Z (default 0%Z (m !! symbol)))
     * default 0%Q (prices !! symbol))%Q.
Proof.
  intros worth.
  destruct (m !! symbol) as [old|] eqn:Hold; simpl.
  - rewrite <- (insert_delete_id m symbol old Hold) at 2.
    rewrite <- (insert_delete_eq m symbol qty).
    rewrite !(py_sum_perm _ _ (Permutation_map worth
                                 (map_to_list_insert _ _ _ (lookup_delete_eq m symbol)))).
    simpl map. rewrite !py_sum_cons. unfold worth. simpl. ring.
  - rewrite (py_sum_perm _ _ (Permutation_map worth (map_to_list_insert _ _ _ Hold))).
    simpl map. rewrite py_sum_cons. unfold worth. simpl. ring.
Qed.

Lemma on_trade_executed_fill (st : TraderAgent.t) (trade_id order_id symbol : string)
    (side : OrderSide) (quantity : Z) (execution_price commission : Q) (ts : Z)
    (trader_id : string) (a : nat) :
  TraderAgent.find_order (TraderAgent.orders st) order_id (TraderAgent.pending_orders st)
  = Some a ->
  exists pre post logs,
    TraderAgent.pending_orders st = pre ++ a :: post /\
    TraderAgent._on_trade_executed
      (trade_executed trade_id order_id symbol (side_value side) quantity
         execution_price commission ts trader_id) st =
    (Return tt,
     TraderAgent.mk (TraderAgent.agent_id st) (TraderAgent.message_bus st)
       (TraderAgent.symbols st)
       match side with
       | BUY =>
           (TraderAgent.cash st - (execution_price * inject_Z quantity + commission))%Q
       | SELL =>
           (TraderAgent.cash st + (execution_price * inject_Z quantity - commission))%Q
       end
       (TraderAgent.max_position_value st)
       (<[symbol := match side with
                    | BUY => (held st symbol + quantity)%Z
                    | SELL => (held st symbol - quantity)%Z
                    end]> (TraderAgent.positions st))
       (TraderAgent.current_prices st) (TraderAgent.orders st) (pre ++ post)
       (TraderAgent.order_count st),
     logs).
Proof.
  intros Hfind. unfold TraderAgent._on_trade_executed. rewrite bind_get_run, Hfind.
  destruct (find_order_spec _ _ _ _ Hfind) as (pre & post & o & Hpending & Ho & Hid & Hpre).
  assert (Hrm : py_remove (TraderAgent.same_order (TraderAgent.orders st)) a
                  (pre ++ a :: post) = Some (pre ++ post)).
  { by apply (remove_matched (TraderAgent.orders st) _ order_id pre post a o o). }
  exists pre, post. destruct side; simpl bool_decide; cbn [side_value];
    unfold TraderAgent.remove_order, bind, get, modify, log, ret, raise; simpl;
    rewrite Hpending, Hrm; simpl; rewrite lookup_insert_eq; by eexists.
Qed.

(** X21. A fill at the market price costs the commission and nothing
    else.  When the trader receives the execution of an order it tracks,
    for a symbol whose current price is the execution price, the handler
    returns, stops tracking the order, moves the shares and the cash, and
    the portfolio value (cash plus holdings at current prices) goes down
    by exactly the commission, for a BUY as for a SELL. *)
Theorem fill_costs_commission (st : TraderAgent.t) (trade_id order_id symbol : string)
    (side : OrderSide) (quantity : Z) (execution_price commission : Q) (ts : Z)
    (trader_id : string) (a : nat) :
  TraderAgent.find_order (TraderAgent.orders st) order_id (TraderAgent.pending_orders st)
  = Some a ->
  TraderAgent.current_prices st !! symbol = Some execution_price ->
  let run :=
    TraderAgent._on_trade_executed
      (trade_executed trade_id order_id symbol (side_value side) quantity
         execution_price commission ts trader_id) st in
  result_of run = Return tt /\
  held (state_of run) symbol =
  match side with
  | BUY => (held st symbol + quantity)%Z
  | SELL => (held st symbol - quantity)%Z
  end /\
  length (TraderAgent.pending_orders (state_of run))
  = pred (length (TraderAgent.pending_orders st)) /\
  (TraderAgent.get_portfolio_value (state_of run) ==
   TraderAgent.get_portfolio_value st - commission)%Q.
Proof.
  intros Hfind Hprice run.
  destruct (on_trade_executed_fill st trade_id order_id symbol side quantity
              execution_price commission ts trader_id a Hfind)
    as (pre & post & logs & Hpending & Hrun).
  subst run. rewrite Hrun. unfold result_of, state_of. simpl.
  split; [done|]. split; [|split].
  - unfold held at 1. simpl. by rewrite lookup_insert_eq.
  - rewrite Hpending, !length_app. simpl. lia.
  - assert (Hval : forall t,
               TraderAgent.get_portfolio_value t =
               (TraderAgent.cash t
                + py_sum (map (fun kv : string * Z =>
                                 inject_Z (snd kv)
                                 * default 0%Q (TraderAgent.current_prices t !! fst kv))%Q
                            (map_to_list (TraderAgent.positions t))))%Q).
    { intros t. unfold TraderAgent.get_portfolio_value. f_equal. f_equal.
      apply map_ext. by intros [k v]. }
    rewrite !Hval. simpl.
    rewrite (positions_value_insert (TraderAgent.current_prices st)).
    fold (held st symbol). rewrite Hprice. simpl.
    destruct side.
    + rewrite inject_Z_plus. ring.
    + unfold Z.sub. rewrite inject_Z_plus, inject_Z_opp. ring.
Qed.

Lemma fill_costs_commission_witness :
  (TraderAgent.get_portfolio_value
     (state_of (TraderAgent._on_trade_executed sample_fill tracking_trader)) ==
   TraderAgent.get_portfolio_value tracking_trader - 6)%Q.
Proof.
  refine (proj2 (proj2 (proj2 (fill_costs_commission tracking_trader
                                 "trade_trader_1_order_1" "trader_1_order_1" "AAPL" BUY
                                 60 100 6 3 "trader_1" 0%nat _ _))));
    reflexivity.
Defined.

Lemma trader_inv_after_deliveries (ds : list delivery) (st : TraderAgent.t) :
  trader_inv st -> trader_inv (after_deliveries ds st).
Proof.
  revert st. induction ds as [|d ds IH]; intros st Hinv; [done|].
  simpl. apply IH. by apply trader_inv_deliver.
Qed.

Lemma find_order_none (orders : list Order.t) (order_id : string) (pending : list nat) :
  Forall (fun b => forall ob, orders !! b = Some ob -> Order.id ob <> order_id) pending ->
  TraderAgent.find_order orders order_id pending = None.
Proof.
  induction 1 as [|b pending Hb _ IH]; [done|]. simpl.
  destruct (orders !! b) as [ob|]; [|done].
  rewrite bool_decide_eq_false_2; [done|]. by apply Hb.
Qed.

Lemma on_trade_executed_untracks (st : TraderAgent.t) (msg : message)
    (order_id : string) (pre post : list nat) (a : nat) (o : Order.t) :
  (exists trade_id symbol side quantity price commission ts tid,
      msg = trade_executed trade_id order_id symbol side quantity price commission ts
              tid) ->
  TraderAgent.find_order (TraderAgent.orders st) order_id (TraderAgent.pending_orders st)
  = Some a ->
  TraderAgent.pending_orders st = pre ++ a :: post ->
  TraderAgent.orders st !! a = Some o -> Order.id o = order_id ->
  Forall (fun b => forall ob, TraderAgent.orders st !! b = Some ob ->
                              Order.id ob <> order_id) pre ->
  let st2 := state_of (TraderAgent._on_trade_executed msg st) in
  TraderAgent.orders st2 = TraderAgent.orders st /\
  TraderAgent.pending_orders st2 = pre ++ post.
Proof.
  intros (trade_id & symbol & side & quantity & price & commission & ts & tid & ->)
    Hfind Hpending Ho Hid Hpre.
  unfold TraderAgent._on_trade_executed. rewrite bind_get_run, Hfind.
  assert (Hrm : py_remove (TraderAgent.same_order (TraderAgent.orders st)) a
                  (pre ++ a :: post) = Some (pre ++ post)).
  { by apply (remove_matched (TraderAgent.orders st) _ order_id pre post a o o). }
  destruct (bool_decide (side = "BUY")); [|destruct (bool_decide (side = "SELL"))];
    run_trader_monad; rewrite Hpending, Hrm; simpl;
    repeat case_match; simplify_eq; simpl; done.
Qed.

(** X22. An execution is applied at most once.  On a trader built by its
    constructor, after any deliveries, receiving the same message on the
    trades channel a second time changes nothing: the first delivery has
    stopped tracking the order, and no other tracked order has its id. *)
Theorem duplicate_fill_ignored (agent_id : string) (bus : outbox) (symbols : list string)
    (initial_cash max_position_value : Q) (ds : list delivery) (now now2 : Z)
    (msg : message) :
  let st :=
    after_deliveries ds
      (TraderAgent.__init__ agent_id bus symbols initial_cash max_position_value) in
  let once := deliver_to st (now, "trades", msg) in
  result_of (TraderAgent.deliver now2 "trades" msg once) = Return tt /\
  deliver_to once (now2, "trades", msg) = once.
Proof.
  intros st once.
  assert (Hinv : trader_inv st).
  { apply trader_inv_after_deliveries, trader_inv_init. }
  pose proof (built_ids_NoDup agent_id bus symbols initial_cash max_position_value ds)
    as Hids.
  fold st in Hids. subst once. unfold deliver_to, TraderAgent.deliver. simpl.
  destruct msg as [| | | | |trade_id order_id symbol side quantity price commission ts tid
                   | |]; try done.
  destruct (TraderAgent.find_order (TraderAgent.orders st) order_id
              (TraderAgent.pending_orders st)) as [a|] eqn:Hfind.
  - destruct (find_order_spec _ _ _ _ Hfind)
      as (pre & post & o & Hpending & Ho & Hid & Hpre).
    destruct (on_trade_executed_untracks st
                (trade_executed trade_id order_id symbol side quantity price commission
                   ts tid) order_id pre post a o) as [Horders Hpending2]; try done.
    { by eexists _, _, _, _, _, _, _, _. }
    set (once := state_of (TraderAgent._on_trade_executed _ st)) in *.
    assert (Hnone : TraderAgent.find_order (TraderAgent.orders once) order_id
                      (TraderAgent.pending_orders once) = None).
    { rewrite Horders, Hpending2. apply find_order_none. apply Forall_forall.
      intros b Hb ob Hob Hsame.
      destruct Hinv as [Hnd _]. rewrite Hpending in Hnd.
      assert (Hba : b <> a).
      { intros ->. apply NoDup_app in Hnd as (_ & Hdisj & Hnd2).
        apply NoDup_cons in Hnd2 as [Hnotin _].
        apply elem_of_app in Hb as [Hb|Hb]; [|done].
        apply (Hdisj a Hb). apply list_elem_of_here. }
      apply Hba. eapply (NoDup_lookup (built_ids st)); [exact Hids| |].
      - unfold built_ids. change (map Order.id ?l) with (Order.id <$> l).
        rewrite list_lookup_fmap, Hob. simpl. reflexivity.
      - unfold built_ids. change (map Order.id ?l) with (Order.id <$> l).
        rewrite list_lookup_fmap, Ho. simpl. congruence. }
    unfold TraderAgent._on_trade_executed. rewrite bind_get_run, Hnone. done.
  - assert (Hst : state_of (TraderAgent._on_trade_executed
                              (trade_executed trade_id order_id symbol side quantity
                                 price commission ts tid) st) = st).
    { unfold TraderAgent._on_trade_executed. by rewrite bind_get_run, Hfind. }
    rewrite Hst. unfold TraderAgent._on_trade_executed.
    by rewrite bind_get_run, Hfind.
Qed.

(** ** Agent lifecycle: restart *)

(** X23. Restarting an agent subscribes it again.  [stop] cancels the
    loop task but leaves the subscriptions on the bus, and [start] calls
    [_setup_subscriptions] once more: after start, stop, start on an agent
    that was not running, every handler of the agent is registered twice
    on its channel; the first loop task is cancelled, a new one runs, and
    the agent holds the new one. *)
Theorem restart_subscribes_twice `{AgentClass} (a : BaseAgent.t) :
  BaseAgent._running a = false ->
  let started := state_of (BaseAgent.start a) in
  let stopped := state_of (BaseAgent.stop started) in
  let restarted := state_of (BaseAgent.start stopped) in
  result_of (BaseAgent.stop started) = Return tt /\
  BaseAgent._running stopped = false /\
  BaseAgent.bus_channels stopped = BaseAgent.bus_channels started /\
  BaseAgent._running restarted = true /\
  BaseAgent.bus_channels restarted =
  BaseAgent.bus_channels a
  ++ registrations (BaseAgent.agent_id a) ++ registrations (BaseAgent.agent_id a) /\
  BaseAgent.loop_tasks restarted =
  BaseAgent.loop_tasks a ++ [TaskCancelled; TaskRunning] /\
  BaseAgent._task restarted = Some (S (length (BaseAgent.loop_tasks a))) /\
  active_loops restarted = S (active_loops a).
Proof.
  intros Hrest started stopped restarted.
  destruct (start_when_stopped a Hrest) as [logs Hstart].
  assert (Hstarted : started =
                     BaseAgent.mk (BaseAgent.agent_id a) true
                       (Some (length (BaseAgent.loop_tasks a)))
                       (BaseAgent.bus_channels a ++ registrations (BaseAgent.agent_id a))
                       (BaseAgent.loop_tasks a ++ [TaskRunning]))
    by (subst started; by rewrite Hstart).
  assert (Hcancel : BaseAgent.cancel (length (BaseAgent.loop_tasks a))
                      (BaseAgent.loop_tasks a ++ [TaskRunning])
                    = BaseAgent.loop_tasks a ++ [TaskCancelled]).
  { unfold BaseAgent.cancel. rewrite lookup_app_r by lia.
    rewrite Nat.sub_diag. simpl. rewrite insert_app_r_alt by lia.
    by rewrite Nat.sub_diag. }
  assert (Hstop : BaseAgent.stop started =
                  (Return tt,
                   BaseAgent.mk (BaseAgent.agent_id a) false
                     (Some (length (BaseAgent.loop_tasks a)))
                     (BaseAgent.bus_channels a ++ registrations (BaseAgent.agent_id a))
                     (BaseAgent.loop_tasks a ++ [TaskCancelled]),
                   [(INFO, AgentStopped (BaseAgent.agent_id a))])).
  { rewrite stop_spec, Hstarted. simpl. rewrite Hcancel.
    rewrite lookup_app_r by lia. rewrite Nat.sub_diag. reflexivity. }
  assert (Hstopped : stopped =
                     BaseAgent.mk (BaseAgent.agent_id a) false
                       (Some (length (BaseAgent.loop_tasks a)))
                       (BaseAgent.bus_channels a ++ registrations (BaseAgent.agent_id a))
                       (BaseAgent.loop_tasks a ++ [TaskCancelled]))
    by (subst stopped; by rewrite Hstop).
  destruct (start_when_stopped stopped) as [logs2 Hrestart].
  { by rewrite Hstopped. }
  subst restarted. rewrite Hstop, Hrestart, Hstopped. unfold state_of, result_of. simpl.
  rewrite Hstarted. simpl.
  repeat split.
  - by rewrite <- app_assoc.
  - by rewrite <- app_assoc.
  - rewrite length_app. simpl. f_equal. lia.
  - unfold active_loops. cbn [BaseAgent.loop_tasks].
    rewrite !filter_app, !length_app. simpl. lia.
Qed.

Lemma restart_subscribes_twice_witness :
  let restarted :=
    state_of
      (@BaseAgent.start TraderAgent_class
         (state_of
            (BaseAgent.stop
               (state_of (@BaseAgent.start TraderAgent_class fresh_trader_runtime))))) in
  length (BaseAgent.bus_channels restarted) = 8%nat /\
  BaseAgent.loop_tasks restarted = [TaskCancelled; TaskRunning].
Proof.
  destruct (@restart_subscribes_twice TraderAgent_class fresh_trader_runtime eq_refl)
    as (_ & _ & _ & _ & Hsubs & Htasks & _).
  split; [by rewrite Hsubs|exact Htasks].
Defined.

(** ** Analyst *)

Lemma py_abs_nonneg (x : Q) : (0 <= x)%Q -> py_abs x = x.
Proof.
  intros Hx. unfold py_abs. by rewrite (proj2 (Qltb_ge x 0) Hx).
Qed.

Lemma py_abs_neg (x : Q) : (x < 0)%Q -> py_abs x = (- x)%Q.
Proof.
  intros Hx. unfold py_abs. by rewrite (proj2 (Qltb_lt x 0) Hx).
Qed.

Lemma py_abs_bounds (x : Q) : (0 <= py_abs x)%Q /\ (x <= py_abs x)%Q /\ (- x <= py_abs x)%Q.
Proof.
  destruct (Qlt_le_dec x 0) as [Hneg|Hpos].
  - rewrite py_abs_neg by done. repeat split; lra.
  - rewrite py_abs_nonneg by done. repeat split; lra.
Qed.

Lemma py_abs_lt (x c : Q) : (py_abs x < c)%Q <-> (- c < x)%Q /\ (x < c)%Q.
Proof.
  destruct (Qlt_le_dec x 0) as [Hneg|Hpos].
  - rewrite py_abs_neg by done. split; [intros H|intros [H1 H2]]; [split|]; lra.
  - rewrite py_abs_nonneg by done. split; [intros H|intros [H1 H2]]; [split|]; lra.
Qed.

Lemma py_min_cases (a b : Q) :
  ((b < a)%Q /\ py_min a b = b) \/ ((a <= b)%Q /\ py_min a b = a).
Proof.
  unfold py_min. destruct (Qltb b a) eqn:Hlt.
  - left. split; [by apply Qltb_lt|done].
  - right. split; [by apply Qltb_ge|done].
Qed.

Lemma momentum_confidence_bounds (price_change : Q) :
  (2 # 100 < py_abs price_change)%Q ->
  (7 # 10 < momentum_confidence price_change)%Q /\
  (momentum_confidence price_change <= 9 # 10)%Q.
Proof.
  intros Habs. unfold momentum_confidence.
  destruct (py_min_cases (9 # 10) ((5 # 10) + py_abs price_change * 10)%Q)
    as [[Hlt ->]|[Hle ->]]; split; lra.
Qed.

Lemma emit_run (a : AnalystAgent.t) (timestamp : Z) (symbol : string)
    (signal_type : SignalType) (confidence : Q) (reasoning : fstring) :
  (0 <= confidence)%Q -> (confidence <= 1)%Q ->
  AnalystAgent.emit timestamp symbol signal_type confidence reasoning a =
  (Return tt, emitted a timestamp symbol signal_type confidence, []).
Proof.
  intros Hlow Hhigh.
  unfold AnalystAgent.emit, Signal_new, Signal.validb, AnalystAgent.publish.
  unfold bind, get, modify, ret, raise. simpl.
  rewrite (proj2 (Qle_bool_iff 0 confidence) Hlow).
  rewrite (proj2 (Qle_bool_iff confidence 1) Hhigh). reflexivity.
Qed.

Lemma generate_signal_spec_cases (now : Z) (symbol : string) (price_change : Q)
    (timestamp : option Z) (a : AnalystAgent.t) :
  let ts := default now timestamp in
  let run := AnalystAgent._generate_signal now symbol price_change timestamp a in
  ((- (1 # 100) < price_change)%Q /\ (price_change < 1 # 100)%Q ->
   run = (Return tt, a, [])) /\
  ((2 # 100 < price_change)%Q ->
   run = (Return tt, emitted a ts symbol BULLISH (momentum_confidence price_change), [])
   /\ (7 # 10 < momentum_confidence price_change)%Q
   /\ (momentum_confidence price_change <= 9 # 10)%Q) /\
  ((price_change < - (2 # 100))%Q ->
   run = (Return tt, emitted a ts symbol BEARISH (momentum_confidence price_change), [])
   /\ (7 # 10 < momentum_confidence price_change)%Q
   /\ (momentum_confidence price_change <= 9 # 10)%Q) /\
  ((- (2 # 100) <= price_change)%Q /\ (price_change <= 2 # 100)%Q /\
   ((price_change <= - (1 # 100))%Q \/ (1 # 100 <= price_change)%Q) ->
   run = (Return tt, emitted a ts symbol NEUTRAL (3 # 10), [])).
Proof.
  intros ts run. subst run. unfold AnalystAgent._generate_signal.
  assert (Hts : match timestamp with Some t => t | None => now end = ts)
    by (by destruct timestamp).
  rewrite Hts. clear Hts.
  split; [|split; [|split]].
  - intros Hsmall. apply py_abs_lt in Hsmall. apply Qltb_lt in Hsmall.
    by rewrite Hsmall.
  - intros Hup.
    assert (Habs : py_abs price_change = price_change) by (apply py_abs_nonneg; lra).
    assert (Hbig : Qltb (py_abs price_change) (1 # 100) = false)
      by (apply Qltb_ge; rewrite Habs; lra).
    rewrite Hbig. rewrite (proj2 (Qgtb_gt price_change (2 # 100)) Hup).
    fold (momentum_confidence price_change).
    destruct (momentum_confidence_bounds price_change) as [Hlow Hhigh];
      [rewrite Habs; lra|].
    split; [|done]. apply emit_run; lra.
  - intros Hdown.
    assert (Habs : py_abs price_change = (- price_change)%Q)
      by (apply py_abs_neg; lra).
    assert (Hbig : Qltb (py_abs price_change) (1 # 100) = false)
      by (apply Qltb_ge; rewrite Habs; lra).
    rewrite Hbig.
    assert (Hnot : Qgtb price_change (2 # 100) = false) by (apply Qgtb_le; lra).
    rewrite Hnot. rewrite (proj2 (Qltb_lt price_change (- (2 # 100))) Hdown).
    fold (momentum_confidence price_change).
    destruct (momentum_confidence_bounds price_change) as [Hlow Hhigh];
      [rewrite Habs; lra|].
    split; [|done]. apply emit_run; lra.
  - intros (Hlow & Hhigh & Hout).
    assert (Hbig : Qltb (py_abs price_change) (1 # 100) = false).
    { apply Qltb_ge. pose proof (py_abs_bounds price_change) as (_ & Hb1 & Hb2).
      destruct Hout; lra. }
    rewrite Hbig.
    assert (Hnot : Qgtb price_change (2 # 100) = false) by (apply Qgtb_le; lra).
    assert (Hnot2 : Qltb price_change (- (2 # 100)) = false) by (apply Qltb_ge; lra).
    rewrite Hnot, Hnot2. apply emit_run; lra.
Qed.


Lemma analyst_on_market_update_run (now : Z) (draw : Q) (a : AnalystAgent.t)
    (ts : Z) (symbol : string) (open_price high low close_price : Q) (volume : Z) :
  symbol ∈ AnalystAgent.symbols a ->
  ~ (open_price == 0)%Q -> ~ (close_price == 0)%Q ->
  AnalystAgent._on_market_update now draw
    (market_update ts symbol open_price high low close_price volume) a =
  if Qltb draw (3 # 10)
  then AnalystAgent._generate_signal now symbol
         ((close_price - open_price) / open_price) (Some ts) a
  else (Return tt, a, []).
Proof.
  intros Hin Hopen Hclose. unfold AnalystAgent._on_market_update.
  rewrite bind_get_run. rewrite bool_decide_eq_true_2 by done. simpl.
  assert (Hob : Qeq_bool open_price 0 = false).
  { apply not_true_is_false. intros Heq. by apply Hopen, Qeq_bool_iff. }
  assert (Hcb : Qeq_bool close_price 0 = false).
  { apply not_true_is_false. intros Heq. by apply Hclose, Qeq_bool_iff. }
  rewrite Hob, Hcb. simpl. unfold py_div. rewrite Hob. unfold bind at 1. unfold ret at 1.
  destruct (Qltb draw (3 # 10)); [|done].
  by destruct (AnalystAgent._generate_signal now symbol
                 ((close_price - open_price) / open_price) (Some ts) a) as [[r s2] l].
Qed.

(** X24. What the analyst publishes for a price change.
    [_generate_signal] never raises.  A change of less than 1% in
    absolute value publishes nothing.  A change above 2% publishes one
    BULLISH signal, a change below -2% one BEARISH signal, each with the
    confidence min(0.9, 0.5 + 10 * |change|), which lies above 0.7 and at
    most at 0.9; any other change publishes one NEUTRAL signal of
    confidence 0.3.  The signal carries the id
    [<agent id>_signal_<count + 1>], the timestamp of the message (the
    current time without one), and the count goes up by one.
    [_on_market_update], for a followed symbol with non-zero open and
    close, calls it on (close - open) / open with the timestamp of the
    message when the random draw is below 0.3, and does nothing
    otherwise. *)
Theorem generate_signal_spec (now : Z) (symbol : string) (price_change : Q)
    (timestamp : option Z) (a : AnalystAgent.t) :
  let ts := default now timestamp in
  let run := AnalystAgent._generate_signal now symbol price_change timestamp a in
  ((- (1 # 100) < price_change)%Q /\ (price_change < 1 # 100)%Q ->
   run = (Return tt, a, [])) /\
  ((2 # 100 < price_change)%Q ->
   run = (Return tt, emitted a ts symbol BULLISH (momentum_confidence price_change), [])
   /\ (7 # 10 < momentum_confidence price_change)%Q
   /\ (momentum_confidence price_change <= 9 # 10)%Q) /\
  ((price_change < - (2 # 100))%Q ->
   run = (Return tt, emitted a ts symbol BEARISH (momentum_confidence price_change), [])
   /\ (7 # 10 < momentum_confidence price_change)%Q
   /\ (momentum_confidence price_change <= 9 # 10)%Q) /\
  ((- (2 # 100) <= price_change)%Q /\ (price_change <= 2 # 100)%Q /\
   ((price_change <= - (1 # 100))%Q \/ (1 # 100 <= price_change)%Q) ->
   run = (Return tt, emitted a ts symbol NEUTRAL (3 # 10), [])) /\
  (forall draw message_ts open_price high low close_price volume,
      symbol ∈ AnalystAgent.symbols a ->
      ~ (open_price == 0)%Q -> ~ (close_price == 0)%Q ->
      AnalystAgent._on_market_update now draw
        (market_update message_ts symbol open_price high low close_price volume) a =
      if Qltb draw (3 # 10)
      then AnalystAgent._generate_signal now symbol
             ((close_price - open_price) / open_price) (Some message_ts) a
      else (Return tt, a, [])).
Proof.
  pose proof (generate_signal_spec_cases now symbol price_change timestamp a)
    as (Hsmall & Hup & Hdown & Hflat).
  repeat split; try done; try (by apply Hup); try (by apply Hdown).
  intros draw message_ts open_price high low close_price volume.
  apply analyst_on_market_update_run.
Qed.

Lemma generate_signal_spec_witness :
  AnalystAgent._generate_signal 9 "AAPL" (3 # 100) (Some 8%Z) sample_analyst =
  (Return tt, emitted sample_analyst 8 "AAPL" BULLISH (momentum_confidence (3 # 100)), []).
Proof.
  apply (proj1 (proj2 (generate_signal_spec 9 "AAPL" (3 # 100) (Some 8%Z)
                         sample_analyst))).
  reflexivity.
Defined.

Lemma on_signal_reaction (now : Z) (st : TraderAgent.t) (signal_id : string) (ts : Z)
    (agent_id symbol : string) (signal_type : SignalType) (confidence current_price : Q) :
  symbol ∈ TraderAgent.symbols st ->
  TraderAgent.current_prices st !! symbol = Some current_price ->
  (signal_type = NEUTRAL \/ (65 # 100 < confidence)%Q) ->
  (signal_type = NEUTRAL -> (confidence <= 65 # 100)%Q) ->
  let run :=
    TraderAgent._on_signal now
      (signal signal_id ts agent_id symbol (signal_type_value signal_type) confidence)
      st in
  let reaction := trader_reaction now symbol current_price signal_id signal_type st in
  result_of run = result_of reaction /\ state_of run = state_of reaction.
Proof.
  intros Hin Hprice Hconf Hneutral run reaction. subst run reaction.
  pose proof (on_signal_run now st signal_id ts agent_id symbol
                (signal_type_value signal_type) confidence) as [Hskip Hact].
  destruct signal_type; cbn [signal_type_value] in *.
  - destruct Hconf as [Hn|Hhigh]; [done|].
    destruct (Hact current_price Hin Hhigh Hprice) as [Hbull _].
    specialize (Hbull eq_refl). unfold trader_reaction.
    destruct (Qltb (inject_Z (held st symbol) * current_price)
                (TraderAgent.max_position_value st)).
    + by rewrite Hbull.
    + exact Hbull.
  - destruct Hconf as [Hn|Hhigh]; [done|].
    destruct (Hact current_price Hin Hhigh Hprice) as [_ Hbear].
    specialize (Hbear eq_refl). unfold trader_reaction.
    destruct (held st symbol >? 0)%Z.
    + by rewrite Hbear.
    + exact Hbear.
  - apply Hskip. right. left. by apply Hneutral.
Qed.

Lemma sentiment_confidence_bounds (sentiment_score : Q) :
  (3 # 10 < py_abs sentiment_score)%Q ->
  (65 # 100 < sentiment_confidence sentiment_score)%Q /\
  (sentiment_confidence sentiment_score <= 85 # 100)%Q.
Proof.
  intros Habs. unfold sentiment_confidence.
  destruct (py_min_cases (85 # 100) ((5 # 10) + py_abs sentiment_score * (5 # 10))%Q)
    as [[Hlt ->]|[Hle ->]]; split; lra.
Qed.

Lemma generate_signal_from_news_run (now : Z) (news : News.t) (a : AnalystAgent.t)
    (sentiment_score : Q) :
  News.sentiment_score news = Some sentiment_score ->
  (3 # 10 < py_abs sentiment_score)%Q ->
  AnalystAgent._generate_signal_from_news now news a =
  (Return tt,
   emitted a now (News.symbol news)
     (if Qgtb sentiment_score (3 # 10) then BULLISH else BEARISH)
     (sentiment_confidence sentiment_score),
   []).
Proof.
  intros Hscore Habs. unfold AnalystAgent._generate_signal_from_news. rewrite Hscore.
  destruct (sentiment_confidence_bounds sentiment_score Habs) as [Hlow Hhigh].
  destruct (Qlt_le_dec sentiment_score 0) as [Hneg|Hpos].
  - rewrite py_abs_neg in Habs by done.
    assert (Hnot : Qgtb sentiment_score (3 # 10) = false) by (apply Qgtb_le; lra).
    assert (Hdown : Qltb sentiment_score (- (3 # 10)) = true) by (apply Qltb_lt; lra).
    rewrite Hnot, Hdown. fold (sentiment_confidence sentiment_score).
    apply emit_run; lra.
  - assert (Heq : py_abs sentiment_score = sentiment_score) by (by apply py_abs_nonneg).
    rewrite Heq in Habs.
    assert (Hup : Qgtb sentiment_score (3 # 10) = true) by (by apply Qgtb_gt).
    rewrite Hup.
    replace ((5 # 10) + sentiment_score * (5 # 10))%Q
      with ((5 # 10) + py_abs sentiment_score * (5 # 10))%Q by (by rewrite Heq).
    fold (sentiment_confidence sentiment_score). apply emit_run; lra.
Qed.

(** X25. The analyst's thresholds and the trader's fit together.  A
    trader that follows the symbol and has a price for it reacts to every
    signal the analyst publishes from a price change as the type of the
    signal asks: the confidence of a BULLISH or BEARISH signal (above 0.7)
    always passes the trader's tests, so BULLISH leads to a BUY order
    unless the position has reached its cap and BEARISH to a SELL order if
    shares are held; a NEUTRAL signal (confidence 0.3) never moves the
    trader.  A signal drawn from a news item whose sentiment is beyond
    0.3 in absolute value has a confidence above 0.65 and at most 0.85,
    and passes the tests too. *)
Theorem analyst_signal_drives_trader (a : AnalystAgent.t) (st : TraderAgent.t)
    (now now2 : Z) (symbol : string) (current_price : Q) :
  symbol ∈ TraderAgent.symbols st ->
  TraderAgent.current_prices st !! symbol = Some current_price ->
  (forall price_change timestamp,
      ((price_change <= - (1 # 100))%Q \/ (1 # 100 <= price_change)%Q) ->
      let signal_type := momentum_type price_change in
      exists msg,
        msg = next_signal a (default now timestamp) symbol signal_type
                (match signal_type with
                 | NEUTRAL => 3 # 10
                 | _ => momentum_confidence price_change
                 end) /\
        AnalystAgent.message_bus
          (state_of (AnalystAgent._generate_signal now symbol price_change timestamp a))
        = AnalystAgent.message_bus a ++ [("signals", msg)] /\
        let run := TraderAgent._on_signal now2 msg st in
        let reaction :=
          trader_reaction now2 symbol current_price
            (signal_id_of (AnalystAgent.agent_id a) (AnalystAgent.signal_count a + 1))
            signal_type st in
        result_of run = result_of reaction /\ state_of run = state_of reaction) /\
  (forall news sentiment_score,
      News.symbol news = symbol ->
      News.sentiment_score news = Some sentiment_score ->
      (3 # 10 < py_abs sentiment_score)%Q ->
      let signal_type := if Qgtb sentiment_score (3 # 10) then BULLISH else BEARISH in
      let msg := next_signal a now symbol signal_type
                   (sentiment_confidence sentiment_score) in
      AnalystAgent.message_bus
        (state_of (AnalystAgent._generate_signal_from_news now news a))
      = AnalystAgent.message_bus a ++ [("signals", msg)] /\
      (65 # 100 < sentiment_confidence sentiment_score)%Q /\
      (sentiment_confidence sentiment_score <= 85 # 100)%Q /\
      let run := TraderAgent._on_signal now2 msg st in
      let reaction :=
        trader_reaction now2 symbol current_price
          (signal_id_of (AnalystAgent.agent_id a) (AnalystAgent.signal_count a + 1))
          signal_type st in
      result_of run = result_of reaction /\ state_of run = state_of reaction).
Proof.
  intros Hin Hprice. split.
  - intros price_change timestamp Hmove signal_type.
    pose proof (generate_signal_spec_cases now symbol price_change timestamp a)
      as (_ & Hup & Hdown & Hflat).
    subst signal_type. unfold momentum_type.
    destruct (Qgtb price_change (2 # 100)) eqn:Hgt.
    + apply Qgtb_gt in Hgt. destruct (Hup Hgt) as (Hrun & Hlow & Hhigh).
      eexists. split; [reflexivity|]. rewrite Hrun. split; [reflexivity|].
      destruct (on_signal_reaction now2 st
                  (signal_id_of (AnalystAgent.agent_id a) (AnalystAgent.signal_count a + 1))
                  (default now timestamp) (AnalystAgent.agent_id a) symbol BULLISH
                  (momentum_confidence price_change) current_price Hin Hprice)
        as (Hr & Hs); [right; lra|done|]. by split.
    + apply Qgtb_le in Hgt. destruct (Qltb price_change (- (2 # 100))) eqn:Hlt.
      * apply Qltb_lt in Hlt. destruct (Hdown Hlt) as (Hrun & Hlow & Hhigh).
        eexists. split; [reflexivity|]. rewrite Hrun. split; [reflexivity|].
        destruct (on_signal_reaction now2 st
                    (signal_id_of (AnalystAgent.agent_id a)
                       (AnalystAgent.signal_count a + 1))
                    (default now timestamp) (AnalystAgent.agent_id a) symbol BEARISH
                    (momentum_confidence price_change) current_price Hin Hprice)
          as (Hr & Hs); [right; lra|done|]. by split.
      * apply Qltb_ge in Hlt. rewrite (Hflat (conj Hlt (conj Hgt Hmove))).
        eexists. split; [reflexivity|]. split; [reflexivity|].
        destruct (on_signal_reaction now2 st
                    (signal_id_of (AnalystAgent.agent_id a)
                       (AnalystAgent.signal_count a + 1))
                    (default now timestamp) (AnalystAgent.agent_id a) symbol NEUTRAL
                    (3 # 10) current_price Hin Hprice)
          as (Hr & Hs); [by left|intros _; lra|]. by split.
  - intros news sentiment_score Hsym Hscore Habs signal_type msg.
    rewrite (generate_signal_from_news_run now news a sentiment_score Hscore Habs).
    destruct (sentiment_confidence_bounds sentiment_score Habs) as [Hlow Hhigh].
    rewrite Hsym. split; [reflexivity|]. split; [done|]. split; [done|].
    subst msg signal_type.
    apply (on_signal_reaction now2 st
             (signal_id_of (AnalystAgent.agent_id a) (AnalystAgent.signal_count a + 1))
             now (AnalystAgent.agent_id a) symbol
             (if Qgtb sentiment_score (3 # 10) then BULLISH else BEARISH)
             (sentiment_confidence sentiment_score) current_price Hin Hprice);
      [by right|].
    by destruct (Qgtb sentiment_score (3 # 10)).
Qed.

Lemma analyst_signal_drives_trader_witness :
  exists msg,
    AnalystAgent.message_bus
      (state_of (AnalystAgent._generate_signal 9 "AAPL" (3 # 100) (Some 8%Z)
                   sample_analyst))
    = [("signals", msg)] /\
    state_of (TraderAgent._on_signal 10 msg holding_trader) =
    state_of (trader_reaction 10 "AAPL" 100 "analyst_1_signal_1" BULLISH holding_trader).
Proof.
  destruct (analyst_signal_drives_trader sample_analyst holding_trader 9 10 "AAPL" 100)
    as [Hmove _]; [set_solver|reflexivity|].
  destruct (Hmove (3 # 100)%Q (Some 8%Z)) as (msg & _ & Hbus & _ & Hstate).
  { right. discriminate. }
  exists msg. split; [exact Hbus|exact Hstate].
Defined.

(** ** Reporter *)

(** *** Maximum drawdown *)

Lemma drawdown_monotone (x y w : Q) :
  (0 < x)%Q -> (x <= y)%Q -> (0 <= w)%Q -> ((x - w) / x <= (y - w) / y)%Q.
Proof.
  intros Hx Hxy Hw.
  assert (Hy : (0 < y)%Q) by lra.
  apply Qle_shift_div_r; [done|].
  assert (Heq : ((y - w) / y * x == x - w * (x / y))%Q) by (field; lra).
  rewrite Heq.
  assert (Hfrac : (x / y <= 1)%Q).
  { apply Qle_shift_div_r; [done|]. lra. }
  assert (Hprod : (w * (x / y) <= w * 1)%Q).
  { rewrite !(Qmult_comm w). by apply Qmult_le_compat_r. }
  lra.
Qed.

Lemma py_maxQ_cases (a b : Q) :
  ((a < b)%Q /\ py_maxQ a b = b) \/ ((b <= a)%Q /\ py_maxQ a b = a).
Proof.
  unfold py_maxQ. destruct (Qgtb b a) eqn:Hgt.
  - left. split; [by apply Qgtb_gt|done].
  - right. split; [by apply Qgtb_le|done].
Qed.

Lemma new_peak_cases (value peak : Q) :
  let peak2 := if Qgtb value peak then value else peak in
  (peak <= peak2)%Q /\ (value <= peak2)%Q /\ (peak2 = value \/ peak2 = peak).
Proof.
  simpl. destruct (Qgtb value peak) eqn:Hgt.
  - apply Qgtb_gt in Hgt. repeat split; try lra. by left.
  - apply Qgtb_le in Hgt. repeat split; try lra. by right.
Qed.

Lemma drawdown_loop_bounds (values : list Q) :
  Forall (fun v => 0 < v)%Q values ->
  forall peak max_dd,
    (0 < peak)%Q -> (0 <= max_dd)%Q -> (max_dd < 1)%Q ->
    let result := ReporterAgent.drawdown_loop values peak max_dd in
    (max_dd <= result)%Q /\ (result < 1)%Q /\
    (forall v, v ∈ values -> ((peak - v) / peak <= result)%Q) /\
    (forall i j vi vj,
        (i <= j)%nat -> values !! i = Some vi -> values !! j = Some vj ->
        ((vi - vj) / vi <= result)%Q).
Proof.
  induction 1 as [|value rest Hvalue Hrest IH]; intros peak max_dd Hpeak Hlow Hhigh.
  - simpl. split; [lra|]. split; [done|]. split.
    + intros v Hv. by apply elem_of_nil in Hv.
    + intros i j vi vj _ Hi. done.
  - cbn [ReporterAgent.drawdown_loop].
    destruct (new_peak_cases value peak) as (Hge & Hgev & Hwhich).
    set (peak2 := if Qgtb value peak then value else peak) in *.
    assert (Hpeak2 : (0 < peak2)%Q) by lra.
    rewrite (proj2 (Qgtb_gt peak2 0) Hpeak2).
    set (dd := ((peak2 - value) / peak2)%Q).
    assert (Hdd0 : (0 <= dd)%Q).
    { apply Qle_shift_div_l; [done|]. lra. }
    assert (Hdd1 : (dd < 1)%Q).
    { apply Qlt_shift_div_r; [done|]. lra. }
    assert (Hmax : (max_dd <= py_maxQ max_dd dd)%Q /\ (dd <= py_maxQ max_dd dd)%Q /\
                   (0 <= py_maxQ max_dd dd)%Q /\ (py_maxQ max_dd dd < 1)%Q).
    { destruct (py_maxQ_cases max_dd dd) as [[Hlt ->]|[Hle ->]]; repeat split; lra. }
    destruct Hmax as (Hm1 & Hm2 & Hm3 & Hm4).
    destruct (IH peak2 (py_maxQ max_dd dd) Hpeak2 Hm3 Hm4) as (Hres & Hlt & Hfrom & Hpairs).
    set (result := ReporterAgent.drawdown_loop rest peak2 (py_maxQ max_dd dd)) in *.
    assert (Hhead : forall x, (0 < x)%Q -> (x <= peak2)%Q ->
                              ((x - value) / x <= result)%Q).
    { intros x Hx Hxp. apply Qle_trans with dd; [|lra].
      apply drawdown_monotone; lra. }
    assert (Hlater : forall x v, (0 < x)%Q -> (x <= peak2)%Q -> v ∈ rest ->
                                 ((x - v) / x <= result)%Q).
    { intros x v Hx Hxp Hv. apply Qle_trans with ((peak2 - v) / peak2)%Q.
      - apply drawdown_monotone; try lra.
        rewrite Forall_forall in Hrest. apply Qlt_le_weak. by apply Hrest.
      - by apply Hfrom. }
    split; [lra|]. split; [done|]. split.
    + intros v Hv. apply elem_of_cons in Hv as [->|Hv].
      * by apply Hhead.
      * by apply Hlater.
    + intros i j vi vj Hij Hi Hj. destruct i as [|i].
      * simpl in Hi. injection Hi as <-. destruct j as [|j].
        -- simpl in Hj. injection Hj as <-. by apply Hhead.
        -- simpl in Hj. apply Hlater; [done|done|]. by eapply list_elem_of_lookup_2.
      * destruct j as [|j]; [lia|]. simpl in Hi, Hj.
        apply (Hpairs i j); [lia|done|done].
Qed.

Lemma chain_Qle_head (v : Q) (rest : list Q) :
  chain Qle (v :: rest) -> Forall (Qle v) rest.
Proof.
  revert v. induction rest as [|w rest IH]; intros v Hc; [constructor|].
  destruct Hc as [Hvw Hc]. constructor; [done|].
  eapply Forall_impl; [apply IH, Hc|]. simpl. intros x Hx. by apply Qle_trans with w.
Qed.

Lemma drawdown_loop_rising (values : list Q) :
  chain Qle values ->
  forall peak,
    (0 < peak)%Q -> Forall (Qle peak) values ->
    ReporterAgent.drawdown_loop values peak 0 = 0%Q.
Proof.
  induction values as [|value rest IH]; intros Hc peak Hpeak Hall; [done|].
  cbn [ReporterAgent.drawdown_loop].
  apply Forall_cons in Hall as [Hpv Hall].
  destruct (new_peak_cases value peak) as (Hge & Hgev & Hwhich).
  set (peak2 := if Qgtb value peak then value else peak) in *.
  assert (Hpeak2 : (0 < peak2)%Q) by lra.
  rewrite (proj2 (Qgtb_gt peak2 0) Hpeak2).
  assert (Hsame : (peak2 <= value)%Q) by (destruct Hwhich as [-> | ->]; lra).
  assert (Hdd : ((peak2 - value) / peak2 <= 0)%Q).
  { apply Qle_shift_div_r; [done|]. lra. }
  assert (Hmax : py_maxQ 0 ((peak2 - value) / peak2) = 0%Q).
  { unfold py_maxQ. by rewrite (proj2 (Qgtb_le _ 0) Hdd). }
  rewrite Hmax. apply IH.
  - by eapply chain_tail.
  - done.
  - eapply Forall_impl; [apply chain_Qle_head, Hc|]. simpl. intros x Hx. lra.
Qed.

(** X26. The maximum drawdown of the report, for portfolio values that
    are positive.  It is 0 with fewer than two snapshots and for values
    that never fall; it lies in [0, 1); and it is at least the relative
    fall between any snapshot and any later one: for [i <= j],
    (v_i - v_j) / v_i <= max drawdown. *)
Theorem max_drawdown_bounds (self : ReporterAgent.t) :
  Forall (fun v => 0 < v)%Q (snapshot_values self) ->
  let max_dd := ReporterAgent._calculate_max_drawdown self in
  (0 <= max_dd)%Q /\ (max_dd < 1)%Q /\
  ((length (ReporterAgent.portfolio_snapshots self) < 2)%nat -> max_dd = 0%Q) /\
  (chain Qle (snapshot_values self) -> max_dd = 0%Q) /\
  (forall i j vi vj,
      (i <= j)%nat ->
      snapshot_values self !! i = Some vi -> snapshot_values self !! j = Some vj ->
      ((vi - vj) / vi <= max_dd)%Q).
Proof.
  intros Hpos max_dd. subst max_dd. unfold ReporterAgent._calculate_max_drawdown.
  fold (snapshot_values self).
  assert (Hlen : length (snapshot_values self)
                 = length (ReporterAgent.portfolio_snapshots self))
    by apply length_map.
  destruct (length (ReporterAgent.portfolio_snapshots self) <? 2)%nat eqn:Hshort.
  - apply Nat.ltb_lt in Hshort. split; [lra|]. split; [reflexivity|].
    split; [done|]. split; [done|].
    intros i j vi vj Hij Hi Hj.
    assert (Hj0 : j = 0%nat).
    { apply lookup_lt_Some in Hj. lia. }
    assert (Hi0 : i = 0%nat) by lia. subst i j.
    rewrite Hi in Hj. injection Hj as <-.
    rewrite Forall_forall in Hpos.
    assert (Hvi : (0 < vi)%Q) by (by eapply Hpos, list_elem_of_lookup_2).
    apply Qle_shift_div_r; [done|]. lra.
  - apply Nat.ltb_ge in Hshort.
    destruct (snapshot_values self) as [|first rest] eqn:Hvalues.
    { simpl in Hlen. lia. }
    assert (Hfirst : (0 < first)%Q) by (by apply Forall_cons in Hpos as [? _]).
    destruct (drawdown_loop_bounds (first :: rest) Hpos first 0 Hfirst)
      as (Hlow & Hhigh & _ & Hpairs); [lra|lra|].
    split; [done|]. split; [done|]. split; [lia|]. split; [|done].
    intros Hc. apply drawdown_loop_rising; [done|done|].
    constructor; [lra|]. by apply chain_Qle_head.
Qed.

Lemma max_drawdown_bounds_witness :
  ((120 - 90) / 120 <= ReporterAgent._calculate_max_drawdown sample_reporter)%Q /\
  (ReporterAgent._calculate_max_drawdown sample_reporter < 1)%Q.
Proof.
  assert (Hpos : Forall (fun v => 0 < v)%Q (snapshot_values sample_reporter)).
  { repeat (apply Forall_cons; split); try apply Forall_nil; reflexivity. }
  destruct (max_drawdown_bounds sample_reporter Hpos) as (_ & Hhigh & _ & _ & Hpairs).
  split; [|exact Hhigh].
  apply (Hpairs 1%nat 2%nat); [lia|reflexivity|reflexivity].
Defined.

(** *** Counters and report *)

Lemma count_where_nil {A} (P : A -> bool) : count_where P [] = 0%Z.
Proof. reflexivity. Qed.

Lemma count_where_snoc {A} (P : A -> bool) (l : list A) (x : A) :
  count_where P (l ++ [x]) = (count_where P l + (if P x then 1 else 0))%Z.
Proof.
  unfold count_where. rewrite filter_app, length_app.
  destruct (P x) eqn:Hx.
  - rewrite (filter_cons_True _ x []) by done. simpl. lia.
  - rewrite (filter_cons_False _ x []) by congruence. simpl. lia.
Qed.

Lemma count_where_complement {A} (P : A -> bool) (l : list A) :
  (count_where P l + count_where (fun x => negb (P x)) l)%Z = Z.of_nat (length l).
Proof.
  induction l as [|x l IH] using rev_ind; [done|].
  rewrite !count_where_snoc, length_app. simpl. destruct (P x); simpl; lia.
Qed.

Lemma count_where_disjoint {A} (P R : A -> bool) (l : list A) :
  (forall x, P x = true -> R x = false) ->
  (count_where P l + count_where R l <= Z.of_nat (length l))%Z.
Proof.
  intros Hdisj. induction l as [|x l IH] using rev_ind; [done|].
  rewrite !count_where_snoc, length_app. simpl.
  pose proof (Hdisj x) as Hx. destruct (P x); [rewrite Hx by done|destruct (R x)]; lia.
Qed.

Lemma count_where_nonneg {A} (P : A -> bool) (l : list A) : (0 <= count_where P l)%Z.
Proof. unfold count_where. lia. Qed.

Lemma count_where_rejected (l : list ReporterAgent.decision_row) :
  count_where (fun r => negb (ReporterAgent.dr_approved r)) l =
  Z.of_nat (length (filter (fun dec => ReporterAgent.dr_approved dec = false) l)).
Proof.
  induction l as [|x l IH] using rev_ind; [done|].
  rewrite count_where_snoc, IH, filter_app, length_app.
  destruct (ReporterAgent.dr_approved x) eqn:Hx; simpl.
  - rewrite (filter_cons_False _ x []) by congruence. simpl. lia.
  - rewrite (filter_cons_True _ x []) by done. simpl. lia.
Qed.

Lemma tallied_init (agent_id : string) : tallied (ReporterAgent.__init__ agent_id).
Proof. by repeat split. Qed.

Lemma tallied_deliver (channel : string) (msg : message) (self : ReporterAgent.t) :
  tallied self -> tallied (reporter_deliver channel msg self).
Proof.
  intros (Htotal & Hbuy & Hsell & Happ & Hrej & Hstop). unfold reporter_deliver.
  repeat case_match; try (by repeat split).
  - (* trades *)
    destruct msg; try (by repeat split).
    unfold tallied. simpl. rewrite !count_where_snoc, length_app. simpl.
    rewrite Htotal, Hbuy, Hsell.
    repeat split; try done; try lia.
    + destruct (bool_decide (side = "BUY")); lia.
    + destruct (bool_decide_reflect (side = "BUY")) as [->|Hnb].
      * rewrite bool_decide_eq_false_2 by done. lia.
      * destruct (bool_decide (side = "SELL")); lia.
  - (* risk decisions *)
    destruct msg; try (by repeat split).
    unfold tallied. simpl. rewrite !count_where_snoc. simpl.
    rewrite Happ, Hrej. repeat split; try done; destruct approved; simpl; lia.
  - (* stop losses *)
    destruct msg; try (by repeat split).
    unfold tallied. simpl. rewrite length_app. simpl.
    rewrite Hstop. repeat split; try done; lia.
  - (* snapshots *)
    destruct msg; by repeat split.
Qed.

Lemma tallied_run (ds : list (string * message)) (self : ReporterAgent.t) :
  tallied self -> tallied (reporter_run ds self).
Proof.
  revert self. induction ds as [|d ds IH]; intros self Hself; [done|].
  simpl. apply IH. by apply tallied_deliver.
Qed.

(** X27. The reporter's counters agree with what it recorded.  After any
    deliveries on its channels, starting from its constructor:
    [total_trades] is the number of trades recorded, [buy_orders] and
    [sell_orders] count those of each side (together at most the total),
    [approved_orders] and [rejected_orders] count the decisions of each
    kind and add up to the number of decisions recorded, and
    [stop_losses_triggered] is the number of alerts recorded.  In the
    report, the list of rejected orders has [rejected_orders] entries and
    the percentage of rejected orders lies between 0 and 100. *)
Theorem reporter_counters_agree (agent_id : string) (ds : list (string * message))
    (now simulation_date : Z) :
  let self := reporter_run ds (ReporterAgent.__init__ agent_id) in
  let s := ReporterAgent.daily_stats self in
  let rep := ReporterAgent.generate_daily_report now simulation_date self in
  tallied self /\
  (ReporterAgent.buy_orders s + ReporterAgent.sell_orders s
   <= ReporterAgent.total_trades s)%Z /\
  (ReporterAgent.approved_orders s + ReporterAgent.rejected_orders s)%Z
  = Z.of_nat (length (ReporterAgent.risk_decisions self)) /\
  ReporterAgent.r_rejected_orders rep
  = Z.of_nat (length (ReporterAgent.r_rejected rep)) /\
  (0 <= ReporterAgent.r_rejected_orders_pct rep)%Q /\
  (ReporterAgent.r_rejected_orders_pct rep <= 100)%Q.
Proof.
  intros self s rep.
  assert (Htally : tallied self) by (apply tallied_run, tallied_init).
  pose proof Htally as (Htotal & Hbuy & Hsell & Happ & Hrej & Hstop).
  fold s in Htotal, Hbuy, Hsell, Happ, Hrej, Hstop.
  split; [done|]. split; [|split; [|split]].
  - rewrite Hbuy, Hsell, Htotal. apply count_where_disjoint.
    intros r Hr. apply bool_decide_eq_true in Hr.
    apply bool_decide_eq_false. rewrite Hr. discriminate.
  - rewrite Happ, Hrej. apply count_where_complement.
  - subst rep. unfold ReporterAgent.generate_daily_report.
    destruct (last _) as [latest|]; simpl; fold s; rewrite Hrej;
      apply count_where_rejected.
  - assert (Happ0 : (0 <= ReporterAgent.approved_orders s)%Z)
      by (rewrite Happ; apply count_where_nonneg).
    assert (Hrej0 : (0 <= ReporterAgent.rejected_orders s)%Z)
      by (rewrite Hrej; apply count_where_nonneg).
    assert (Hpct : ReporterAgent.r_rejected_orders_pct rep =
                   if (ReporterAgent.approved_orders s
                       + ReporterAgent.rejected_orders s >? 0)%Z
                   then (inject_Z (ReporterAgent.rejected_orders s)
                         / inject_Z (ReporterAgent.approved_orders s
                                     + ReporterAgent.rejected_orders s) * 100)%Q
                   else 0%Q).
    { subst rep. unfold ReporterAgent.generate_daily_report.
      by destruct (last _) as [latest|]. }
    rewrite Hpct.
    destruct (ReporterAgent.approved_orders s + ReporterAgent.rejected_orders s >? 0)%Z
      eqn:Htot; [|split; lra].
    assert (Hden : (0 < inject_Z (ReporterAgent.approved_orders s
                                  + ReporterAgent.rejected_orders s))%Q).
    { change 0%Q with (inject_Z 0). rewrite <- Zlt_Qlt. lia. }
    assert (Hnum0 : (0 <= inject_Z (ReporterAgent.rejected_orders s))%Q).
    { change 0%Q with (inject_Z 0). by rewrite <- Zle_Qle. }
    assert (Hnum1 : (inject_Z (ReporterAgent.rejected_orders s)
                     <= inject_Z (ReporterAgent.approved_orders s
                                  + ReporterAgent.rejected_orders s))%Q).
    { rewrite <- Zle_Qle. lia. }
    set (num := inject_Z (ReporterAgent.rejected_orders s)) in *.
    set (den := inject_Z (ReporterAgent.approved_orders s
                          + ReporterAgent.rejected_orders s)) in *.
    assert (Hfrac0 : (0 <= num / den)%Q).
    { apply Qle_shift_div_l; [done|]. lra. }
    assert (Hfrac1 : (num / den <= 1)%Q).
    { apply Qle_shift_div_r; [done|]. lra. }
    split; lra.
Qed.

Lemma flat_deliver (d : string * message) (self : ReporterAgent.t) :
  from_simulation d ->
  Forall flat (ReporterAgent.portfolio_snapshots self) ->
  Forall flat (ReporterAgent.portfolio_snapshots (reporter_deliver (fst d) (snd d) self)).
Proof.
  destruct d as [channel msg]. unfold from_simulation. simpl. intros Hsim Hflat.
  unfold reporter_deliver.
  destruct (bool_decide (channel = "trades")); [by destruct msg|].
  destruct (bool_decide (channel = "risk_decisions")); [by destruct msg|].
  destruct (bool_decide (channel = "stop_loss_alerts")); [by destruct msg|].
  destruct (bool_decide_reflect (channel = "portfolio_update")) as [Hc|Hc]; [|done].
  destruct (Hsim Hc) as (trading_day & agents & ->). simpl.
  apply Forall_app. split; [done|]. by repeat constructor.
Qed.

Lemma flat_run (ds : list (string * message)) (self : ReporterAgent.t) :
  Forall from_simulation ds ->
  Forall flat (ReporterAgent.portfolio_snapshots self) ->
  Forall flat (ReporterAgent.portfolio_snapshots (reporter_run ds self)).
Proof.
  intros Hds. revert self. induction Hds as [|d ds Hd _ IH]; intros self Hself; [done|].
  simpl. apply IH. by apply flat_deliver.
Qed.

(** X28. The value figures of the report come from the latest portfolio
    snapshot only: total value, realized and unrealized PnL are its
    entries and the total PnL is their sum; without a snapshot they are
    all 0.  The snapshots the simulation publishes carry 0.0 for both PnL
    entries, so the report of a simulation shows a realized, an
    unrealized and a total PnL of zero, whatever was traded. *)
Theorem report_pnl_from_latest_snapshot (agent_id : string)
    (ds : list (string * message)) (now simulation_date : Z) :
  let self := reporter_run ds (ReporterAgent.__init__ agent_id) in
  let rep := ReporterAgent.generate_daily_report now simulation_date self in
  (ReporterAgent.portfolio_snapshots self = [] ->
   ReporterAgent.r_total_portfolio_value rep = 0%Q /\
   ReporterAgent.r_realized_pnl rep = 0%Q /\
   ReporterAgent.r_unrealized_pnl rep = 0%Q) /\
  (forall latest,
      last (ReporterAgent.portfolio_snapshots self) = Some latest ->
      ReporterAgent.r_total_portfolio_value rep = ReporterAgent.sn_total_value latest /\
      ReporterAgent.r_realized_pnl rep = ReporterAgent.sn_realized_pnl latest /\
      ReporterAgent.r_unrealized_pnl rep = ReporterAgent.sn_unrealized_pnl latest) /\
  ReporterAgent.r_total_pnl rep =
  (ReporterAgent.r_realized_pnl rep + ReporterAgent.r_unrealized_pnl rep)%Q /\
  (Forall from_simulation ds ->
   ReporterAgent.r_realized_pnl rep = 0%Q /\
   ReporterAgent.r_unrealized_pnl rep = 0%Q /\
   (ReporterAgent.r_total_pnl rep == 0)%Q).
Proof.
  intros self rep. subst rep. unfold ReporterAgent.generate_daily_report.
  split; [|split; [|split]].
  - intros Hnone. by rewrite Hnone.
  - intros latest Hlast. by rewrite Hlast.
  - by destruct (last _).
  - intros Hsim.
    assert (Hflat : Forall flat (ReporterAgent.portfolio_snapshots self)).
    { apply flat_run; [done|]. constructor. }
    destruct (last (ReporterAgent.portfolio_snapshots self)) as [latest|] eqn:Hlast;
      simpl; [|done].
    destruct (proj1 (last_Some _ _) Hlast) as [pre Hpre]. rewrite Hpre in Hflat.
    destruct (proj1 (Forall_app _ _ _) Hflat) as [_ Hlatest].
    destruct (proj1 (Forall_singleton _ _) Hlatest) as [-> ->]. done.
Qed.

Lemma report_pnl_from_latest_snapshot_witness :
  let rep :=
    ReporterAgent.generate_daily_report 30 20
      (reporter_run simulated_deliveries (ReporterAgent.__init__ "reporter_1")) in
  ReporterAgent.r_realized_pnl rep = 0%Q /\
  ReporterAgent.r_unrealized_pnl rep = 0%Q /\
  (ReporterAgent.r_total_pnl rep == 0)%Q.
Proof.
  apply (proj2 (proj2 (proj2 (report_pnl_from_latest_snapshot "reporter_1"
                                simulated_deliveries 30 20)))).
  unfold simulated_deliveries.
  repeat (apply Forall_cons; split); try apply Forall_nil; try exact I;
    unfold from_simulation; simpl; intros Hc; try discriminate Hc.
  - by exists 10%Z, [Trader holding_trader].
  - by exists 20%Z, [Trader tracking_trader].
Defined.

(** ** Simulation *)

Lemma take_then_slice {A} (l : list A) (a b : nat) :
  (a <= b)%nat ->
  take a l ++ py_slice l a (Nat.min b (length l)) = take b l.
Proof.
  intros Hab. unfold py_slice. rewrite take_take_drop.
  destruct (Nat.le_gt_cases a (length l)) as [Hal|Hal].
  - replace (a + (Nat.min b (length l) - a))%nat with (Nat.min b (length l)) by lia.
    destruct (Nat.le_gt_cases b (length l)) as [Hbl|Hbl].
    + by rewrite Nat.min_l.
    + rewrite Nat.min_r by lia. by rewrite !take_ge by lia.
  - replace (a + (Nat.min b (length l) - a))%nat with a by lia.
    by rewrite !take_ge by lia.
Qed.

Lemma agent_symbols_concat (symbols : list string) (per_agent n : nat) :
  concat (map (TradingSimulation.agent_symbols symbols per_agent) (seq 0 n))
  = take (n * per_agent) symbols.
Proof.
  induction n as [|n IH]; [by rewrite take_0|].
  rewrite seq_S, map_app, concat_app, IH. simpl. rewrite app_nil_r.
  unfold TradingSimulation.agent_symbols.
  replace ((n + 1) * per_agent)%nat with (per_agent + n * per_agent)%nat by lia.
  apply take_then_slice. lia.
Qed.

Lemma agent_symbols_cover (symbols : list string) (n : nat) :
  (0 < n)%nat ->
  concat (map (TradingSimulation.agent_symbols symbols (length symbols / n + 1))
            (seq 0 n))
  = symbols.
Proof.
  intros Hn. rewrite agent_symbols_concat. apply take_ge.
  pose proof (Nat.div_mod_eq (length symbols) n) as Hdiv.
  pose proof (Nat.mod_upper_bound (length symbols) n ltac:(lia)) as Hmod.
  nia.
Qed.

(** X29. How [_create_agents] shares the work.  It creates ten agents:
    three analysts, four traders, two risk managers and a reporter.  The
    symbol lists of the analysts, put end to end, are the symbol list of
    the simulation, and so are those of the traders: every symbol is
    watched by one analyst and traded by one trader, in the order of the
    list.  Each trader starts with a quarter of the initial cash, which is
    also the cash every risk manager assumes for it. *)
Theorem create_agents_shares_symbols (message_bus : outbox) (symbols : list string)
    (initial_cash : Q) :
  let agents := TradingSimulation._create_agents message_bus symbols initial_cash in
  length agents = 10%nat /\
  length (analyst_symbols agents) = 3%nat /\
  length (traders agents) = 4%nat /\
  length (risk_managers agents) = 2%nat /\
  concat (analyst_symbols agents) = symbols /\
  concat (map TraderAgent.symbols (traders agents)) = symbols /\
  Forall (fun t =>
            TraderAgent.cash t = (initial_cash / 4)%Q /\
            Forall (fun r => shadowed_cash r (TraderAgent.agent_id t) = TraderAgent.cash t)
              (risk_managers agents))
    (traders agents).
Proof.
  intros agents. subst agents. unfold TradingSimulation._create_agents.
  cbn [seq map app omap list_omap analyst_symbols traders risk_managers length].
  split; [done|]. split; [done|]. split; [done|]. split; [done|]. split; [|split].
  - exact (agent_symbols_cover symbols 3 ltac:(lia)).
  - exact (agent_symbols_cover symbols 4 ltac:(lia)).
  - repeat (apply Forall_cons; split); try apply Forall_nil; try exact I; try done;
      split; try done; repeat (apply Forall_cons; split); try apply Forall_nil; done.
Qed.

Lemma on_approved_order_queues (e : MarketEnvironment.t)
    (order_id trader_id symbol : string) (side : OrderSide) (quantity : Z)
    (price : option Q) (timestamp : Z) :
  (0 < quantity)%Z -> (forall p, price = Some p -> (0 < p)%Q) ->
  TradingSimulation._on_approved_order
    (order_approved order_id trader_id symbol (side_value side) quantity price timestamp)
    e =
  (Return tt,
   MarketEnvironment.set_pending_orders e
     (MarketEnvironment.pending_orders e
      ++ [order_of_approval order_id trader_id symbol side quantity price timestamp]),
   [(DEBUG, OrderQueued order_id)]).
Proof.
  intros Hq Hprice.
  unfold TradingSimulation._on_approved_order, OrderSide_getitem, Order_new,
    MarketEnvironment.submit_order.
  assert (Hqb : (0 <? quantity)%Z = true) by lia.
  assert (Hpb : match price with Some p => Qltb 0 p | None => true end = true).
  { destruct price as [p|]; [|done]. apply Qltb_lt. by apply Hprice. }
  destruct side; simpl; unfold bind, ret, modify, log; simpl;
    rewrite Hqb, Hpb; reflexivity.
Qed.

(** X30. What the simulation does with an approval.  A message whose side
    is neither BUY nor SELL raises [KeyError], and one whose quantity is
    not positive or whose limit price is not positive raises a validation
    error; in both cases the engine is untouched.  Otherwise one APPROVED
    order with the entries of the message is appended to the queue of the
    engine.  Nothing looks at the order id: an approval that arrives twice
    is queued twice, and once its symbol has a price within the limit the
    next sweep makes two trades with the same trade id out of it. *)
Theorem approved_order_is_queued (e : MarketEnvironment.t)
    (order_id trader_id symbol side_name : string) (quantity : Z) (price : option Q)
    (timestamp : Z) :
  let msg :=
    order_approved order_id trader_id symbol side_name quantity price timestamp in
  let run := TradingSimulation._on_approved_order msg e in
  (side_name <> "BUY" -> side_name <> "SELL" -> run = (Raised KeyError, e, [])) /\
  (forall side,
      side_name = side_value side ->
      ((quantity <= 0)%Z \/ (exists p, price = Some p /\ (p <= 0)%Q) ->
       run = (Raised ValidationError, e, [])) /\
      ((0 < quantity)%Z -> (forall p, price = Some p -> (0 < p)%Q) ->
       let order :=
         order_of_approval order_id trader_id symbol side quantity price timestamp in
       run =
       (Return tt,
        MarketEnvironment.set_pending_orders e
          (MarketEnvironment.pending_orders e ++ [order]),
        [(DEBUG, OrderQueued order_id)]) /\
       (engine_ok e ->
        forall trade,
          fill_for e order = Some trade ->
          let twice :=
            state_of (TradingSimulation._on_approved_order msg (state_of run)) in
          let swept_twice :=
            state_of (MarketEnvironment.execute_pending_orders twice) in
          Trade.id trade = "trade_" +:+ order_id /\
          MarketEnvironment.pending_orders twice =
          MarketEnvironment.pending_orders e ++ [order; order] /\
          MarketEnvironment.executed_trades swept_twice =
          MarketEnvironment.executed_trades e
          ++ fills e (MarketEnvironment.pending_orders e) ++ [trade; trade]))).
Proof.
  intros msg run. subst msg run. split.
  - intros Hbuy Hsell.
    unfold TradingSimulation._on_approved_order, OrderSide_getitem.
    rewrite !bool_decide_eq_false_2 by done. reflexivity.
  - intros side ->. split.
    + intros Hbad.
      unfold TradingSimulation._on_approved_order, OrderSide_getitem, Order_new.
      assert (Hcheck : (0 <? quantity)%Z
                       && match price with Some p => Qltb 0 p | None => true end
                       = false).
      { destruct Hbad as [Hq|(p & -> & Hp)].
        - assert (Hqb : (0 <? quantity)%Z = false) by lia. by rewrite Hqb.
        - apply andb_false_iff. right. by apply Qltb_ge. }
      destruct side; simpl; unfold bind, ret, raise; simpl; rewrite Hcheck;
        reflexivity.
    + intros Hq Hprice order.
      pose proof (on_approved_order_queues e order_id trader_id symbol side quantity
                    price timestamp Hq Hprice) as Hrun.
      fold order in Hrun. split; [exact Hrun|].
      intros Hok trade Hfill twice swept_twice.
      assert (Hvalid : Order.valid order).
      { split; [done|]. simpl. destruct price as [p|]; [|done]. by apply Hprice. }
      assert (Htwice : twice =
                       MarketEnvironment.set_pending_orders e
                         (MarketEnvironment.pending_orders e ++ [order; order])).
      { subst twice. rewrite Hrun. unfold state_of at 2. cbn [fst snd].
        rewrite on_approved_order_queues by done. unfold state_of. cbn [fst snd].
        fold order. unfold MarketEnvironment.set_pending_orders. simpl.
        by rewrite <- app_assoc. }
      subst swept_twice. clearbody twice. subst twice.
      set (twice := MarketEnvironment.set_pending_orders e
                      (MarketEnvironment.pending_orders e ++ [order; order])).
      assert (Hok2 : engine_ok twice).
      { destruct Hok as (Hrate & Hclock & Hprices & Hqueue).
        repeat split; try done. simpl. apply Forall_app. split; [done|].
        apply Forall_cons. split; [done|]. by apply Forall_singleton. }
      destruct (execute_pending_orders_swept twice Hok2) as [logs Hsweep].
      split; [|split; [done|]].
      * pose proof (fill_for_executable e order Hok) as Hf. rewrite Hfill in Hf.
        by destruct Hf as (_ & ts & p & _ & _ & ->).
      * rewrite Hsweep. unfold state_of. simpl. f_equal.
        change (fills twice) with (fills e).
        unfold fills. rewrite omap_app. simpl. by rewrite Hfill.
Qed.

Lemma approved_order_is_queued_witness :
  let order := order_of_approval "trader_1_order_1" "trader_1" "AAPL" BUY 60
                 (Some 101%Q) 3 in
  TradingSimulation._on_approved_order sample_approval sample_engine =
  (Return tt,
   MarketEnvironment.set_pending_orders sample_engine
     (MarketEnvironment.pending_orders sample_engine ++ [order]),
   [(DEBUG, OrderQueued "trader_1_order_1")]).
Proof.
  refine (proj1 (proj2 (proj2 (approved_order_is_queued sample_engine "trader_1_order_1"
                                 "trader_1" "AAPL" "BUY" 60 (Some 101%Q) 3)
                          BUY eq_refl) _ _)).
  - reflexivity.
  - intros p [= <-]. reflexivity.
Defined.
